(** * PDF_parser: the invoice extraction core of [pdf_parser.py]

    A shallow embedding of [InvoiceParser] (header, text-mode and table-mode
    line items, totals, numeric normalizer) together with the part of the
    Python runtime it relies on: [str] as a sequence of code points, the
    Unicode classes behind [\d], [\s], [str.strip] and [str.isdigit], the
    backtracking [re] matcher, [int], [float] (binary64, correctly rounded)
    and exceptions. *)

From Stdlib Require Import String Ascii DecimalString.
From Stdlib Require Import List Bool Arith ZArith NArith Lia.
From Stdlib Require Import Floats.SpecFloat Floats.PrimFloat Floats.FloatOps.
Import ListNotations.

Set Implicit Arguments.
Set Warnings "-inexact-float".

(** ** Python runtime *)

Module Py.

(** A [str] is a sequence of Unicode code points. *)
Definition char := N.
Definition str := list char.

(** Source literals are written as UTF-8 text and decoded to code points. *)
Fixpoint utf8_decode (bs : list N) : str :=
  match bs with
  | [] => []
  | b0 :: t =>
    if (b0 <? 128)%N then b0 :: utf8_decode t
    else if (b0 <? 224)%N then
      match t with
      | b1 :: t' => ((b0 - 192) * 64 + (b1 - 128))%N :: utf8_decode t'
      | _ => []
      end
    else if (b0 <? 240)%N then
      match t with
      | b1 :: b2 :: t' =>
        ((b0 - 224) * 4096 + (b1 - 128) * 64 + (b2 - 128))%N :: utf8_decode t'
      | _ => []
      end
    else
      match t with
      | b1 :: b2 :: b3 :: t' =>
        ((b0 - 240) * 262144 + (b1 - 128) * 4096 + (b2 - 128) * 64 + (b3 - 128))%N
          :: utf8_decode t'
      | _ => []
      end
  end.

Definition u (s : string) : str :=
  utf8_decode (map N_of_ascii (list_ascii_of_string s)).

(** The single code point of a one-character literal. *)
Definition ch (s : string) : char := hd 0%N (u s).

Definition c_newline : char := 10%N.

(** *** Unicode database (UCD 14.0, as shipped with CPython 3.11) *)

Definition in_range (c : char) (r : N * N) : bool :=
  ((fst r <=? c) && (c <=? snd r))%N.

Definition in_ranges (t : list (N * N)) (c : char) : bool :=
  existsb (in_range c) t.

(** [Py_UNICODE_ISSPACE]: [str.isspace], [str.strip] and the class [\s]. *)
Definition space_ranges : list (N * N) :=
  [(9, 13); (28, 32); (133, 133); (160, 160); (5760, 5760); (8192, 8202);
   (8232, 8233); (8239, 8239); (8287, 8287); (12288, 12288)]%N.

Definition is_space : char -> bool := in_ranges space_ranges.

(** [Py_UNICODE_ISDECIMAL] (general category Nd): the class [\d] and the
    digits that [int] and [float] read.  Every run starts at a zero digit. *)
Definition decimal_ranges : list (N * N) :=
  [(48, 57); (1632, 1641); (1776, 1785); (1984, 1993); (2406, 2415);
   (2534, 2543); (2662, 2671); (2790, 2799); (2918, 2927); (3046, 3055);
   (3174, 3183); (3302, 3311); (3430, 3439); (3558, 3567); (3664, 3673);
   (3792, 3801); (3872, 3881); (4160, 4169); (4240, 4249); (6112, 6121);
   (6160, 6169); (6470, 6479); (6608, 6617); (6784, 6793); (6800, 6809);
   (6992, 7001); (7088, 7097); (7232, 7241); (7248, 7257); (42528, 42537);
   (43216, 43225); (43264, 43273); (43472, 43481); (43504, 43513);
   (43600, 43609); (44016, 44025); (65296, 65305); (66720, 66729);
   (68912, 68921); (69734, 69743); (69872, 69881); (69942, 69951);
   (70096, 70105); (70384, 70393); (70736, 70745); (70864, 70873);
   (71248, 71257); (71360, 71369); (71472, 71481); (71904, 71913);
   (72016, 72025); (72784, 72793); (73040, 73049); (73120, 73129);
   (92768, 92777); (92864, 92873); (93008, 93017); (120782, 120831);
   (123200, 123209); (123632, 123641); (125264, 125273);
   (130032, 130041)]%N.

Definition is_decimal : char -> bool := in_ranges decimal_ranges.

(** [Py_UNICODE_TODECIMAL]. *)
Definition decimal_value (c : char) : N :=
  match find (in_range c) decimal_ranges with
  | Some r => ((c - fst r) mod 10)%N
  | None => 0%N
  end.

(** Characters with Numeric_Type=Digit that are not decimal (superscripts,
    subscripts, circled digits, ...): [str.isdigit] accepts them, [int]
    does not. *)
Definition digit_only_ranges : list (N * N) :=
  [(178, 179); (185, 185); (4969, 4977); (6618, 6618); (8304, 8304);
   (8308, 8313); (8320, 8329); (9312, 9320); (9332, 9340); (9352, 9360);
   (9450, 9450); (9461, 9469); (9471, 9471); (10102, 10110); (10112, 10120);
   (10122, 10130); (68160, 68163); (69216, 69224); (69714, 69722);
   (127232, 127242)]%N.

(** [Py_UNICODE_ISDIGIT]. *)
Definition is_digit (c : char) : bool :=
  is_decimal c || in_ranges digit_only_ranges c.

(** *** [str] methods *)

Definition str_eqb (a b : str) : bool :=
  if list_eq_dec N.eq_dec a b then true else false.

Fixpoint starts_with (p s : str) : bool :=
  match p, s with
  | [], _ => true
  | x :: p', y :: s' => (x =? y)%N && starts_with p' s'
  | _ :: _, [] => false
  end.

(** [sub in s]. *)
Fixpoint contains (sub s : str) : bool :=
  starts_with sub s ||
  match s with
  | [] => false
  | _ :: t => contains sub t
  end.

Fixpoint lstrip (s : str) : str :=
  match s with
  | c :: t => if is_space c then lstrip t else s
  | [] => []
  end.

Definition rstrip (s : str) : str := rev (lstrip (rev s)).

(** [s.strip()]. *)
Definition strip (s : str) : str := rstrip (lstrip s).

(** [s.split(sep)] for a one-character separator: never empty. *)
Fixpoint split (sep : char) (s : str) : list str :=
  match s with
  | [] => [[]]
  | c :: t =>
    if (c =? sep)%N then [] :: split sep t
    else match split sep t with
         | w :: ws => (c :: w) :: ws
         | [] => [[c]]
         end
  end.

(** [s.replace(a, b)] for one-character [a] and [b]. *)
Definition replace (a b : char) (s : str) : str :=
  map (fun c => if (c =? a)%N then b else c) s.

(** [s.isdigit()]. *)
Definition isdigit (s : str) : bool :=
  match s with
  | [] => false
  | _ => forallb is_digit s
  end.

(** Truth value of a [str]. *)
Definition truthy (s : str) : bool :=
  match s with [] => false | _ => true end.

(** *** Exceptions *)

Inductive exn := ValueError | IndexError.

Inductive result (A : Type) :=
| Ok (a : A)
| Raise (e : exn).
Arguments Ok {A} a.
Arguments Raise {A} e.

Definition bind {A B} (r : result A) (f : A -> result B) : result B :=
  match r with
  | Ok a => f a
  | Raise e => Raise e
  end.

(** *** Numbers *)

(** Value of a run of decimal digits, most significant first. *)
Definition digits_value (s : str) : Z :=
  fold_left (fun acc c => (10 * acc + Z.of_N (decimal_value c))%Z) s 0%Z.

(** [sys.int_info.default_max_str_digits]. *)
Definition int_max_str_digits : nat := 4300.

(** [int(s)] on the strings this program converts: captures of [\d+] and
    cells that passed [isdigit], hence free of sign, blanks and
    underscores.  A character without a decimal value, or a run longer
    than the interpreter's limit, is a [ValueError]. *)
Definition py_int (s : str) : result Z :=
  if truthy s && forallb is_decimal s && (length s <=? int_max_str_digits)
  then Ok (digits_value s)
  else Raise ValueError.

Definition binary64 := spec_float.
Definition prec : Z := 53.
Definition emax : Z := 1024.

(** The binary64 nearest to [m / 10^k] (ties to even). *)
Definition float_of_decimal (m : Z) (k : nat) : binary64 :=
  match m with
  | Zpos p => SFdiv prec emax (S754_finite false p 0)
                              (S754_finite false (Z.to_pos (10 ^ Z.of_nat k)) 0)
  | _ => S754_zero false
  end.

Definition c_dot : char := ch ".".
Definition c_comma : char := ch ",".

(** Text before the first [c], and the text after it when [c] occurs. *)
Fixpoint break_at (c : char) (s : str) : str * option str :=
  match s with
  | [] => ([], None)
  | x :: t =>
    if (x =? c)%N then ([], Some t)
    else let (a, b) := break_at c t in (x :: a, b)
  end.

(** [float(s)] on the strings this program converts: captures over decimal
    digits and dots.  Digits with at most one dot and at least one digit
    denote a decimal number, rounded to the nearest binary64; anything else
    over that alphabet is a [ValueError]. *)
Definition py_float (s : str) : result binary64 :=
  let (ip, rest) := break_at c_dot s in
  let fp := match rest with Some f => f | None => [] end in
  if forallb is_decimal ip && forallb is_decimal fp && truthy (ip ++ fp)
  then Ok (float_of_decimal (digits_value (ip ++ fp)) (length fp))
  else Raise ValueError.

(** The decimal text of an [int]. *)
Definition str_of_Z (z : Z) : str :=
  u (NilZero.string_of_int (Z.to_int z)).

(** [str(z)] for an [int]: its decimal text, or a [ValueError] when the
    text has more digits than the interpreter's limit. *)
Definition py_str_int (z : Z) : result str :=
  if (Z.abs z <? 10 ^ Z.of_nat int_max_str_digits)%Z
  then Ok (str_of_Z z)
  else Raise ValueError.

(** [x > 0] for a [float]. *)
Definition float_gt0 (f : binary64) : bool := SFltb (S754_zero false) f.

(** [x >= 0] for a [float]. *)
Definition float_ge0 (f : binary64) : bool := SFleb (S754_zero false) f.

End Py.

(** ** The [re] module: a backtracking matcher *)

Module Re.
Import Py.

(** Members of a bracketed class. *)
Inductive citem :=
| CChar (c : char)        (* a literal character *)
| CDecimal                (* [\d] *)
| CSpace.                 (* [\s] *)

Inductive regex :=
| Lit (s : str)                       (* literal text *)
| Dot                                 (* [.]: anything but a newline *)
| Set_ (negated : bool) (items : list citem)   (* [[...]] and [[^...]] *)
| Seq (r1 r2 : regex)
| Star (greedy : bool) (r : regex)    (* [r*] and [r*?] *)
| Plus (greedy : bool) (r : regex)    (* [r+] and [r+?] *)
| Group (i : nat) (r : regex).        (* the [i]-th capturing group *)

Definition citem_matches (c : char) (it : citem) : bool :=
  match it with
  | CChar x => (c =? x)%N
  | CDecimal => is_decimal c
  | CSpace => is_space c
  end.

Definition set_matches (negated : bool) (items : list citem) (c : char) : bool :=
  xorb negated (existsb (citem_matches c) items).

(** Captures, most recent first. *)
Definition caps := list (nat * str).

(** A matcher consumes a prefix of the remaining input and hands the rest,
    with the captures so far, to its continuation; [None] makes the caller
    backtrack. *)
Definition cont := str -> caps -> option caps.
Definition matcher := str -> caps -> cont -> option caps.

Definition one_char (p : char -> bool) : matcher :=
  fun s cs k =>
    match s with
    | c :: t => if p c then k t cs else None
    | [] => None
    end.

(** Repetition: a greedy loop tries one more iteration before the
    continuation, a lazy loop the continuation first.  An iteration has to
    consume input. *)
Fixpoint star_loop (body : matcher) (greedy : bool) (fuel : nat) : matcher :=
  fun s cs k =>
    match fuel with
    | O => k s cs
    | S fuel' =>
      let again :=
        fun s' cs' =>
          if (length s' <? length s)%nat
          then star_loop body greedy fuel' s' cs' k
          else None in
      if greedy then
        match body s cs again with
        | Some r => Some r
        | None => k s cs
        end
      else
        match k s cs with
        | Some r => Some r
        | None => body s cs again
        end
    end.

Fixpoint run (r : regex) : matcher :=
  match r with
  | Lit p => fun s cs k =>
      if starts_with p s then k (skipn (length p) s) cs else None
  | Dot => one_char (fun c => negb (c =? c_newline)%N)
  | Set_ neg items => one_char (set_matches neg items)
  | Seq r1 r2 => fun s cs k => run r1 s cs (fun s' cs' => run r2 s' cs' k)
  | Star g r1 => fun s cs k => star_loop (run r1) g (length s) s cs k
  | Plus g r1 => fun s cs k =>
      run r1 s cs (fun s' cs' => star_loop (run r1) g (length s') s' cs' k)
  | Group i r1 => fun s cs k =>
      run r1 s cs
          (fun s' cs' => k s' ((i, firstn (length s - length s') s) :: cs'))
  end.

(** [re.match]: anchored at the start; group 0 is the whole match. *)
Definition match_ (r : regex) (s : str) : option caps :=
  run r s [] (fun s' cs => Some ((0%nat, firstn (length s - length s') s) :: cs)).

(** [re.search]: the leftmost position at which [re.match] succeeds. *)
Fixpoint search (r : regex) (s : str) : option caps :=
  match match_ r s with
  | Some m => Some m
  | None =>
    match s with
    | [] => None
    | _ :: t => search r t
    end
  end.

(** [m.group(i)]; every group of the patterns below takes part in every
    match, so the lookup never misses. *)
Definition group (m : caps) (i : nat) : str :=
  match find (fun p => Nat.eqb (fst p) i) m with
  | Some p => snd p
  | None => []
  end.

(** [re.sub(r, '', s)] for a pattern that never matches the empty string:
    matched text is dropped, the rest is copied. *)
Fixpoint sub_empty (r : regex) (fuel : nat) (s : str) : str :=
  match fuel with
  | O => s
  | S fuel' =>
    match s with
    | [] => []
    | c :: t =>
      match match_ r s with
      | Some m =>
        match length (group m 0) with
        | O => c :: sub_empty r fuel' t
        | S n => sub_empty r fuel' (skipn n t)
        end
      | None => c :: sub_empty r fuel' t
      end
    end
  end.

Definition sub (r : regex) (s : str) : str := sub_empty r (length s) s.

Module Notations.
  Declare Scope re_scope.
  Delimit Scope re_scope with re.
  Bind Scope re_scope with regex.
  Infix "+++" := Seq (at level 60, right associativity) : re_scope.
End Notations.

(** [\s*], [\d+] and friends. *)
Definition ws : regex := Star true (Set_ false [CSpace]).
Definition digits : regex := Plus true (Set_ false [CDecimal]).
Definition cls (items : list citem) : regex := Plus true (Set_ false items).

End Re.

(** ** [pdf_parser.py] *)

Module InvoiceParser.
Import Py Re Re.Notations.
Local Open Scope re_scope.
Local Open Scope string_scope.

Notation "x <- e ;; k" := (bind e (fun x => k))
  (at level 61, e at next level, right associativity).

(** Values stored in the result: [int], [float] and [str]. *)
Inductive value :=
| VInt (z : Z)
| VFloat (f : binary64)
| VStr (s : str).

(** A [dict] with [str] keys, in insertion order. *)
Definition dict := list (string * value).

Definition get (k : string) (d : dict) : option value :=
  option_map snd (find (fun p => String.eqb (fst p) k) d).

(** [d[k] = v]: an existing key keeps its place. *)
Fixpoint set (k : string) (v : value) (d : dict) : dict :=
  match d with
  | [] => [(k, v)]
  | (k', v') :: t =>
    if String.eqb k' k then (k', v) :: t else (k', v') :: set k v t
  end.

(** [self.data]. *)
Record data := mk_data {
  invoice_info : dict;
  company_info : dict;
  customer_info : dict;
  line_items : list dict;
  totals : dict;
  parsed_at : str
}.

(** [__init__]; [now] stands for [datetime.now().isoformat()]. *)
Definition __init__ (now : str) : data := mk_data [] [] [] [] [] now.

Definition set_invoice_info (k : string) (v : value) (d : data) : data :=
  mk_data (set k v (invoice_info d)) (company_info d) (customer_info d)
          (line_items d) (totals d) (parsed_at d).

Definition set_company_info (k : string) (v : value) (d : data) : data :=
  mk_data (invoice_info d) (set k v (company_info d)) (customer_info d)
          (line_items d) (totals d) (parsed_at d).

Definition set_customer_info (k : string) (v : value) (d : data) : data :=
  mk_data (invoice_info d) (company_info d) (set k v (customer_info d))
          (line_items d) (totals d) (parsed_at d).

Definition set_totals (k : string) (v : value) (d : data) : data :=
  mk_data (invoice_info d) (company_info d) (customer_info d)
          (line_items d) (set k v (totals d)) (parsed_at d).

(** [self.data['line_items'].append(item)]. *)
Definition append_item (item : dict) (d : data) : data :=
  mk_data (invoice_info d) (company_info d) (customer_info d)
          (line_items d ++ [item]) (totals d) (parsed_at d).

(** *** [_parse_number] *)

(** What the normalizer may be handed: [None], an [int] or a [str]. *)
Inductive arg :=
| ANone
| AInt (z : Z)
| AStr (s : str).

(** [not value]. *)
Definition falsy (v : arg) : bool :=
  match v with
  | ANone => true
  | AInt z => (z =? 0)%Z
  | AStr s => negb (truthy s)
  end.

(** [str(value)]. *)
Definition str_of_arg (v : arg) : result str :=
  match v with
  | ANone => Ok (u "None")
  | AInt z => py_str_int z
  | AStr s => Ok s
  end.

(** [[₽\s]] and [[\d.]+]. *)
Definition re_currency : regex := Set_ false [CChar (ch "₽"); CSpace].
Definition re_number : regex := cls [CDecimal; CChar (ch ".")].

Definition _parse_number (v : arg) : result value :=
  if falsy v then Ok (VInt 0)
  else
    text <- str_of_arg v ;;
    let str_value := strip text in
    let str_value := sub re_currency str_value in
    let str_value := replace c_comma c_dot str_value in
    match search re_number str_value with
    | Some number_match =>
      match py_float (group number_match 0) with
      | Ok f => Ok (VFloat f)
      | Raise ValueError => Ok (VInt 0)
      | Raise e => Raise e
      end
    | None => Ok (VInt 0)
    end.

(** *** [_parse_header_info] *)

Definition m_invoice : str := u "Детализация к счету №".
Definition m_company : str := u "Исполнитель:".
Definition m_customer : str := u "Заказчик:".

Definition re_invoice : regex :=
  Lit (u "№") +++ ws +++ Group 1 (cls [CDecimal; CChar (ch "-")]) +++ ws +++
  Lit (u "от") +++ ws +++ Group 2 (cls [CDecimal; CChar (ch ".")]).

Definition re_company : regex :=
  Lit (u "Исполнитель:") +++ ws +++ Group 1 (Plus false Dot) +++ ws +++
  Lit (u ",") +++ ws +++ Lit (u "ИНН") +++ ws +++ Group 2 digits.

Definition re_customer : regex :=
  Lit (u "Заказчик:") +++ ws +++ Group 1 (Plus false Dot) +++ ws +++
  Lit (u ",") +++ ws +++ Lit (u "ИНН") +++ ws +++ Group 2 digits.

Definition re_address : regex :=
  Lit (u "Адрес:") +++ ws +++
  Group 1 (Plus true (Set_ true [CChar (ch ",")]) +++
           Star true (Lit (u ",") +++ Plus true (Set_ true [CChar (ch ",")]))) +++
  ws +++ Lit (u ",") +++ ws +++ Lit (u "тел.") +++ ws +++
  Group 2 (cls [CChar (ch "+"); CDecimal; CSpace; CChar (ch "(");
                CChar (ch ")"); CChar (ch "-")]).

Definition header_line (raw : str) (d : data) : data :=
  let line := strip raw in
  let d :=
    if contains m_invoice line then
      match search re_invoice line with
      | Some invoice_match =>
        set_invoice_info "date" (VStr (group invoice_match 2))
          (set_invoice_info "number" (VStr (group invoice_match 1)) d)
      | None => d
      end
    else d in
  let d :=
    if contains m_company line then
      match search re_company line with
      | Some company_match =>
        set_company_info "inn" (VStr (group company_match 2))
          (set_company_info "name" (VStr (strip (group company_match 1))) d)
      | None => d
      end
    else d in
  if contains m_customer line then
    let d :=
      match search re_customer line with
      | Some customer_match =>
        set_customer_info "inn" (VStr (group customer_match 2))
          (set_customer_info "name" (VStr (strip (group customer_match 1))) d)
      | None => d
      end in
    match search re_address line with
    | Some address_match =>
      set_customer_info "phone" (VStr (strip (group address_match 2)))
        (set_customer_info "address" (VStr (strip (group address_match 1))) d)
    | None => d
    end
  else d.

Definition _parse_header_info (text : str) (d : data) : data :=
  fold_left (fun d line => header_line line d) (split c_newline text) d.

(** *** [_parse_line_items] *)

Definition m_storage : str := u "Хранение товаров от".
Definition m_reception : str := u "Приемка товара на склад".
Definition m_shipment : str := u "Отгрузка FBO".

Definition amount : regex := cls [CDecimal; CChar (ch "."); CChar (ch ",")].
Definition date : regex := cls [CDecimal; CChar (ch ".")].
Definition ws1 : regex := Plus true (Set_ false [CSpace]).

Definition re_storage : regex :=
  Lit (u "Хранение товаров от") +++ ws +++ Group 1 date +++ ws +++
  Lit (u "до") +++ ws +++ Group 2 date +++ ws +++ Group 3 amount +++ ws +++
  Lit (u "м³") +++ ws +++ Group 4 amount +++ ws +++ Lit (u "₽") +++ ws +++
  Group 5 amount +++ ws +++ Lit (u "₽").

Definition re_reception : regex :=
  Lit (u "Приемка товара на склад и размещение") +++ ws +++ Group 1 digits +++
  ws +++ Lit (u "шт.") +++ ws +++ Group 2 amount +++ ws +++ Lit (u "₽") +++
  ws +++ Group 3 amount +++ ws +++ Lit (u "₽").

Definition re_shipment : regex :=
  Lit (u "Отгрузка FBO") +++ ws +++ Group 1 digits +++ ws +++ Lit (u "от") +++
  ws +++ Group 2 date.

Definition re_reception_op_start : regex :=
  Lit (u "Приемка") +++ ws1 +++ digits +++ ws1 +++ Lit (u "от").

Definition re_reception_op : regex :=
  Lit (u "Приемка") +++ ws1 +++ Group 1 digits +++ ws1 +++ Lit (u "от") +++
  ws1 +++ Group 2 date.

(** [float(s.replace(',', '.'))]. *)
Definition float_comma (s : str) : result binary64 :=
  py_float (replace c_comma c_dot s).

(** One iteration of the loop: the item the line contributes, if any. *)
Definition line_item (raw : str) : result (option dict) :=
  let line := strip raw in
  if contains m_storage line then
    match search re_storage line with
    | Some storage_match =>
      quantity <- float_comma (group storage_match 3) ;;
      price_per_unit <- float_comma (group storage_match 4) ;;
      total_amount <- float_comma (group storage_match 5) ;;
      Ok (Some
        [("type", VStr (u "storage"));
         ("description",
          VStr (u "Хранение товаров от " ++ group storage_match 1 ++
                u " до " ++ group storage_match 2)%list);
         ("from_date", VStr (group storage_match 1));
         ("to_date", VStr (group storage_match 2));
         ("quantity", VFloat quantity);
         ("unit", VStr (u "м³"));
         ("price_per_unit", VFloat price_per_unit);
         ("total_amount", VFloat total_amount)])
    | None => Ok None
    end
  else if contains m_reception line then
    match search re_reception line with
    | Some reception_match =>
      quantity <- py_int (group reception_match 1) ;;
      price_per_unit <- float_comma (group reception_match 2) ;;
      total_amount <- float_comma (group reception_match 3) ;;
      Ok (Some
        [("type", VStr (u "reception"));
         ("description", VStr (u "Приемка товара на склад и размещение"));
         ("quantity", VInt quantity);
         ("unit", VStr (u "шт."));
         ("price_per_unit", VFloat price_per_unit);
         ("total_amount", VFloat total_amount)])
    | None => Ok None
    end
  else if contains m_shipment line then
    match search re_shipment line with
    | Some shipment_match =>
      Ok (Some
        [("type", VStr (u "shipment"));
         ("description",
          VStr (u "Отгрузка FBO " ++ group shipment_match 1)%list);
         ("fbo_number", VStr (group shipment_match 1));
         ("date", VStr (group shipment_match 2));
         ("total_amount", VInt 0)])
    | None => Ok None
    end
  else
    match match_ re_reception_op_start line with
    | Some _ =>
      match search re_reception_op line with
      | Some reception_match =>
        Ok (Some
          [("type", VStr (u "reception_operation"));
           ("description",
            VStr (u "Приемка " ++ group reception_match 1)%list);
           ("reception_number", VStr (group reception_match 1));
           ("date", VStr (group reception_match 2));
           ("total_amount", VInt 0)])
      | None => Ok None
      end
    | None => Ok None
    end.

Definition line_items_step (d : data) (raw : str) : result data :=
  item <- line_item raw ;;
  match item with
  | Some it => Ok (append_item it d)
  | None => Ok d
  end.

(** A [for] loop whose body may raise, as the caller sees it: the first
    exception ends it.  ([for_each_on], below, keeps the data as well.) *)
Fixpoint for_each {A S} (body : S -> A -> result S) (xs : list A) (st : S)
  : result S :=
  match xs with
  | [] => Ok st
  | x :: t => st' <- body st x ;; for_each body t st'
  end.

Definition _parse_line_items (text : str) (d : data) : result data :=
  for_each line_items_step (split c_newline text) d.

(** *** [_parse_totals] *)

Definition m_total : str := u "Итого к оплате:".
Definition m_vat : str := u "В том числе НДС:".
Definition m_count : str := u "Всего наименований".

Definition re_total : regex :=
  Lit (u "Итого к оплате:") +++ ws +++ Group 1 amount +++ ws +++ Lit (u "₽").

Definition re_vat : regex :=
  Lit (u "В том числе НДС:") +++ ws +++ Group 1 amount +++ ws +++ Lit (u "₽").

Definition re_count : regex :=
  Lit (u "Всего наименований") +++ ws +++ Group 1 digits +++ ws +++
  Lit (u "на сумму") +++ ws +++ Group 2 amount +++ ws +++ Lit (u "₽").

Definition totals_step (d : data) (raw : str) : result data :=
  let line := strip raw in
  if contains m_total line then
    match search re_total line with
    | Some total_match =>
      x <- float_comma (group total_match 1) ;;
      Ok (set_totals "total_amount" (VFloat x) d)
    | None => Ok d
    end
  else if contains m_vat line then
    match search re_vat line with
    | Some vat_match =>
      x <- float_comma (group vat_match 1) ;;
      Ok (set_totals "vat_amount" (VFloat x) d)
    | None => Ok d
    end
  else if contains m_count line then
    match search re_count line with
    | Some items_match =>
      n <- py_int (group items_match 1) ;;
      let d := set_totals "total_items" (VInt n) d in
      x <- float_comma (group items_match 2) ;;
      Ok (set_totals "total_sum" (VFloat x) d)
    | None => Ok d
    end
  else Ok d.

Definition _parse_totals (text : str) (d : data) : result data :=
  for_each totals_step (split c_newline text) d.

(** *** [_parse_tables] *)

(** A table cell as the page extractor yields it: text or [None]. *)
Definition cell := option str.
Definition row := list cell.
Definition table := list row.

(** [str(c or '')]. *)
Definition cell_str (c : cell) : str :=
  match c with
  | Some s => s
  | None => []
  end.

(** Truth value of a cell. *)
Definition cell_truthy (c : cell) : bool := truthy (cell_str c).

Definition arg_of_cell (c : cell) : arg :=
  match c with
  | Some s => AStr s
  | None => ANone
  end.

(** [row[i]]. *)
Definition index {A} (l : list A) (i : nat) : result A :=
  match nth_error l i with
  | Some x => Ok x
  | None => Raise IndexError
  end.

Definition header_markers : list str := [u "№"; u "Наименование"].

(** [x > 0] for the number the normalizer returned. *)
Definition gt0 (v : value) : bool :=
  match v with
  | VInt z => (0 <? z)%Z
  | VFloat f => float_gt0 f
  | VStr _ => false
  end.

(** The body of the [try]: the item to append, if the row is meaningful. *)
Definition table_item (r : row) : result (option dict) :=
  c0 <- index r 0 ;;
  row_number <- py_int (cell_str c0) ;;
  c1 <- index r 1 ;;
  let description := strip (cell_str c1) in
  quantity <-
    (if (2 <? length r)%nat
     then c2 <- index r 2 ;; _parse_number (arg_of_cell c2)
     else Ok (VInt 0)) ;;
  unit <-
    (if (3 <? length r)%nat
     then c3 <- index r 3 ;; Ok (strip (cell_str c3))
     else Ok []) ;;
  price_per_unit <-
    (if (4 <? length r)%nat
     then c4 <- index r 4 ;; _parse_number (arg_of_cell c4)
     else Ok (VInt 0)) ;;
  total_amount <-
    (if (5 <? length r)%nat
     then c5 <- index r 5 ;; _parse_number (arg_of_cell c5)
     else Ok (VInt 0)) ;;
  let item :=
    [("row_number", VInt row_number);
     ("description", VStr description);
     ("quantity", quantity);
     ("unit", VStr unit);
     ("price_per_unit", price_per_unit);
     ("total_amount", total_amount)] in
  if truthy description && gt0 total_amount
  then Ok (Some (set "type" (VStr (u "table_item")) item))
  else Ok None.

(** One row of the inner loop. *)
Definition tables_row (d : data) (r : row) : data :=
  if (5 <=? length r)%nat then
    if existsb (fun header => contains header (cell_str (hd None r)))
               header_markers
    then d
    else if cell_truthy (hd None r) && isdigit (cell_str (hd None r)) then
      match table_item r with
      | Ok (Some item) => append_item item d
      | Ok None => d
      | Raise ValueError => d
      | Raise IndexError => d
      end
    else d
  else d.

Definition _parse_tables (tables : list table) (d : data) : data :=
  fold_left (fun d t => fold_left tables_row t d) tables d.

(** *** [parse] *)

(** A page of the opened document: what [extract_text] and
    [extract_tables] return for it. *)
Record page := mk_page {
  extract_text : option str;
  extract_tables : list table
}.

(** The loop over the pages: the text read so far and the data. *)
Definition page_step (st : str * data) (p : page) : str * data :=
  let (full_text, d) := st in
  let full_text :=
    match extract_text p with
    | Some page_text =>
      if truthy page_text then (full_text ++ page_text ++ [c_newline])%list
      else full_text
    | None => full_text
    end in
  let d :=
    match extract_tables p with
    | [] => d
    | tables => _parse_tables tables d
    end in
  (full_text, d).

(** [InvoiceParser(path).parse()], a run on a newly made parser, as the
    caller sees it.  ([parse_on], below, is the method on the data of any
    parser.) *)
Definition parse (now : str) (pages : list page) : result data :=
  let (full_text, d) := fold_left page_step pages ([], __init__ now) in
  let d := _parse_header_info full_text d in
  d <- _parse_line_items full_text d ;;
  _parse_totals full_text d.

(** *** The methods as they act on [self.data] *)

(** What a call leaves behind: [self.data] as it stands when the call
    ends, and the exception that ended the call, if one did. *)
Definition effect : Type := data * option exn.

(** What the caller sees: the data when the call returns, the exception
    when it raises. *)
Definition outcome (r : effect) : result data :=
  match r with
  | (d, None) => Ok d
  | (_, Some e) => Raise e
  end.

(** A [for] loop over the lines, on [self.data]: the first exception ends
    it, and what the lines before it wrote stays written. *)
Fixpoint for_each_on (body : data -> str -> effect) (lines : list str)
         (d : data) : effect :=
  match lines with
  | [] => (d, None)
  | raw :: t =>
    match body d raw with
    | (d', None) => for_each_on body t d'
    | (d', Some e) => (d', Some e)
    end
  end.

(** One line of [_parse_line_items]: the item is built, its numbers
    converted, before it is appended. *)
Definition line_items_step_on (d : data) (raw : str) : effect :=
  match line_item raw with
  | Ok (Some item) => (append_item item d, None)
  | Ok None => (d, None)
  | Raise e => (d, Some e)
  end.

Definition _parse_line_items_on (text : str) (d : data) : effect :=
  for_each_on line_items_step_on (split c_newline text) d.

(** One line of [_parse_totals]: a field is assigned once its number is
    converted, and [total_items] is assigned before the sum is converted. *)
Definition totals_step_on (d : data) (raw : str) : effect :=
  let line := strip raw in
  if contains m_total line then
    match search re_total line with
    | Some total_match =>
      match float_comma (group total_match 1) with
      | Ok x => (set_totals "total_amount" (VFloat x) d, None)
      | Raise e => (d, Some e)
      end
    | None => (d, None)
    end
  else if contains m_vat line then
    match search re_vat line with
    | Some vat_match =>
      match float_comma (group vat_match 1) with
      | Ok x => (set_totals "vat_amount" (VFloat x) d, None)
      | Raise e => (d, Some e)
      end
    | None => (d, None)
    end
  else if contains m_count line then
    match search re_count line with
    | Some items_match =>
      match py_int (group items_match 1) with
      | Ok n =>
        let d := set_totals "total_items" (VInt n) d in
        match float_comma (group items_match 2) with
        | Ok x => (set_totals "total_sum" (VFloat x) d, None)
        | Raise e => (d, Some e)
        end
      | Raise e => (d, Some e)
      end
    | None => (d, None)
    end
  else (d, None).

Definition _parse_totals_on (text : str) (d : data) : effect :=
  for_each_on totals_step_on (split c_newline text) d.

(** [parse] on the data the parser holds: the stages work on
    [self.data] as they find it, and nothing resets it. *)
Definition parse_on (pages : list page) (d : data) : effect :=
  let (full_text, d) := fold_left page_step pages ([], d) in
  let d := _parse_header_info full_text d in
  match _parse_line_items_on full_text d with
  | (d, None) => _parse_totals_on full_text d
  | (d, Some e) => (d, Some e)
  end.

End InvoiceParser.

(** ** Vocabulary of the specification *)

Module Spec.
Import Py Re InvoiceParser.

(** Ranges that share no code point. *)
Definition disjoint_ranges (t1 t2 : list (N * N)) : bool :=
  forallb (fun r1 =>
    forallb (fun r2 => ((snd r1 <? fst r2) || (snd r2 <? fst r1))%N) t2) t1.

Fixpoint take_while (p : char -> bool) (s : str) : str :=
  match s with
  | c :: t => if p c then c :: take_while p t else []
  | [] => []
  end.

Fixpoint drop_while (p : char -> bool) (s : str) : str :=
  match s with
  | c :: t => if p c then drop_while p t else s
  | [] => []
  end.

(** *** Russian-locale numbers *)

Definition c_ruble : char := ch "₽".

(** A non-empty run of decimal digits. *)
Definition digit_run (g : str) : bool := truthy g && forallb is_decimal g.

Fixpoint join (sep : char) (parts : list str) : str :=
  match parts with
  | [] => []
  | [g] => g
  | g :: rest => g ++ sep :: join sep rest
  end.

(** Digit groups separated by [sep], an optional [,fraction], an optional
    blank and currency sign: [1 234,56 ₽]. *)
Definition ru_number (sep : char) (groups : list str) (frac : option str)
           (currency : bool) : str :=
  join sep groups ++
  match frac with Some f => c_comma :: f | None => [] end ++
  (if currency then [ch " "; c_ruble] else []).

Definition frac_digits (frac : option str) : str :=
  match frac with Some f => f | None => [] end.

(** The binary64 nearest to the decimal number [ip.fp]. *)
Definition decimal_float (ip fp : str) : binary64 :=
  float_of_decimal (digits_value (ip ++ fp)) (length fp).

(** A number that is not negative (and not a NaN). *)
Definition nonneg (v : value) : bool :=
  match v with
  | VInt z => (0 <=? z)%Z
  | VFloat f => float_ge0 f
  | VStr _ => false
  end.

(** What [re.sub(r'[₽\s]', '', _)] keeps. *)
Definition keep (c : char) : bool :=
  negb (set_matches false [CChar (ch "₽"); CSpace] c).

(** The text the number is searched in: blanks and currency signs dropped,
    commas turned into dots. *)
Definition cleaned (s : str) : str := replace c_comma c_dot (filter keep s).

(** Members of [[\d.]]. *)
Definition number_char (c : char) : bool :=
  set_matches false [CDecimal; CChar (ch ".")] c.

(** The sign of a rounded magnitude. *)
Definition has_sign (sx : bool) (f : binary64) : Prop :=
  match f with
  | S754_nan => False
  | S754_zero s | S754_infinity s | S754_finite s _ _ => s = sx
  end.

(** Text without a single decimal digit. *)
Definition non_numeric (s : str) : bool := negb (existsb is_decimal s).

(** *** Table rows *)

(** The number the normalizer makes of a cell. *)
Definition normalized (c : cell) : value :=
  match _parse_number (arg_of_cell c) with
  | Ok v => v
  | Raise _ => VInt 0
  end.

(** [row[i]] where the row is long enough. *)
Definition cell_at (r : row) (i : nat) : cell := nth i r None.

(** The normalized sixth cell; [0] when the row has no sixth cell. *)
Definition total_amount_of (r : row) : value :=
  if (5 <? length r)%nat then normalized (cell_at r 5) else VInt 0.

Definition has_header_marker (s : str) : bool :=
  existsb (fun header => contains header s) header_markers.

Definition converts (s : str) : bool :=
  match py_int s with Ok _ => true | Raise _ => false end.

(** The condition under which a row is said to yield an item: at least
    five cells, no header marker in the first cell, a first cell made of
    digits, a description, a positive amount. *)
Definition stated_row_condition (r : row) : bool :=
  (5 <=? length r)%nat &&
  negb (has_header_marker (cell_str (cell_at r 0))) &&
  isdigit (cell_str (cell_at r 0)) &&
  truthy (strip (cell_str (cell_at r 1))) &&
  gt0 (total_amount_of r).

(** The same, with a first cell that [int] converts. *)
Definition row_condition (r : row) : bool :=
  stated_row_condition r && converts (cell_str (cell_at r 0)).

(** The item a qualifying row yields. *)
Definition row_item (r : row) (n : Z) : dict :=
  [("row_number", VInt n);
   ("description", VStr (strip (cell_str (cell_at r 1))));
   ("quantity", normalized (cell_at r 2));
   ("unit", VStr (strip (cell_str (cell_at r 3))));
   ("price_per_unit", normalized (cell_at r 4));
   ("total_amount", total_amount_of r);
   ("type", VStr (u "table_item"))]%string.

Definition example_row : row :=
  [Some (u "1"); Some (u "Погрузка"); Some (u "3"); Some (u "шт.");
   Some (u "50,00"); Some (u "150,00")].

(** A first cell that is a digit to [isdigit] and not to [int]. *)
Definition superscript_row : row :=
  [Some (u "²"); Some (u "Погрузка"); Some (u "3"); Some (u "шт.");
   Some (u "50,00"); Some (u "150,00")].

Definition five_cell_row : row :=
  [Some (u "1"); Some (u "Погрузка"); Some (u "3"); Some (u "шт.");
   Some (u "150,00")].

(** *** Lines of text *)


Definition storage_line : str :=
  u "Хранение товаров от 01.01.2024 до 31.01.2024 2,50 м³ 100,00 ₽ 250,00 ₽".

(** A storage line whose prices group the thousands with a dot. *)
Definition grouped_price_line : str :=
  u "Хранение товаров от 01.01.2024 до 31.01.2024 2,50 м³ 1.100,00 ₽ 2.750,00 ₽".

(** The same price as a table cell. *)
Definition grouped_price_cell : cell := Some (u "1.100,00 ₽").


(** The item a line yields, if it yields one. *)
Definition item_of (line : str) : dict :=
  match line_item line with
  | Ok (Some item) => item
  | _ => []
  end.

(** *** Totals *)

Definition is_set (k : string) (d : dict) : bool :=
  match get k d with Some _ => true | None => false end.

Definition matched (m : option caps) : bool :=
  match m with Some _ => true | None => false end.

(** The trimmed lines of a text. *)
Definition lines_of (text : str) : list str :=
  map strip (split c_newline text).

(** Lines that set a field, as stated: the marker is there and its pattern
    matches. *)
Definition stated_total_line (line : str) : bool :=
  contains m_total line && matched (search re_total line).
Definition stated_vat_line (line : str) : bool :=
  contains m_vat line && matched (search re_vat line).
Definition stated_count_line (line : str) : bool :=
  contains m_count line && matched (search re_count line).

(** Lines that set a field: moreover, no marker tested earlier is there. *)
Definition total_line (line : str) : bool := stated_total_line line.
Definition vat_line (line : str) : bool :=
  negb (contains m_total line) && stated_vat_line line.
Definition count_line (line : str) : bool :=
  negb (contains m_total line) && negb (contains m_vat line) &&
  stated_count_line line.

(** A line with the total and the VAT side by side. *)
Definition total_and_vat_line : str :=
  u "Итого к оплате: 100,00 ₽ В том числе НДС: 20,00 ₽".

(** *** Header *)

Definition invoice_line : str :=
  u "Детализация к счету № 12345-1 от 01.02.2024".

Definition customer_line : str :=
  u "Заказчик: ООО Ромашка , ИНН 7701234567 , Адрес: г. Москва, ул. Ленина 1 , тел. +7(900)123-45-67".

(** *** Whole results *)

(** The same result with another timestamp. *)
Definition with_parsed_at (t : str) (d : data) : data :=
  mk_data (invoice_info d) (company_info d) (customer_info d)
          (line_items d) (totals d) t.

(** A one-page document. *)
Definition one_page (text : str) (tables : list table) : list page :=
  [mk_page (Some text) tables].

End Spec.

(** ** Vocabulary of the further properties *)

Module More.
Import Py Re InvoiceParser Spec.
Local Open Scope string_scope.

(** The data with more line items at the end, the rest as it was. *)
Definition add_items (items : list dict) (d : data) : data :=
  mk_data (invoice_info d) (company_info d) (customer_info d)
          (line_items d ++ items) (totals d) (parsed_at d).

(** The items a table row contributes: one or none. *)
Definition row_items (r : row) : list dict :=
  match py_int (cell_str (cell_at r 0)) with
  | Ok n => if row_condition r then [row_item r n] else []
  | Raise _ => []
  end.

(** The items a line of text contributes: one or none. *)
Definition text_items (raw : str) : list dict :=
  match line_item raw with
  | Ok (Some item) => [item]
  | _ => []
  end.

(** A line whose captured numbers all convert. *)
Definition converts_line (raw : str) : bool :=
  match line_item raw with Ok _ => true | Raise _ => false end.

Definition converts_totals (raw : str) : bool :=
  match totals_step (__init__ []) raw with Ok _ => true | Raise _ => false end.

(** What a page adds to the text of the document. *)
Definition page_text (p : page) : str :=
  match extract_text p with
  | Some t => if truthy t then (t ++ [c_newline])%list else []
  | None => []
  end.

Definition full_text (pages : list page) : str := flat_map page_text pages.

Definition all_tables (pages : list page) : list table :=
  flat_map extract_tables pages.

(** The three stages that read the text, one after the other. *)
Definition text_stages (text : str) (d : data) : result data :=
  bind (_parse_line_items text (_parse_header_info text d))
       (_parse_totals text).

(** A line that holds none of the markers. *)
Definition quiet (line : str) : bool :=
  negb (contains m_invoice line) && negb (contains m_company line) &&
  negb (contains m_customer line) && negb (contains m_storage line) &&
  negb (contains m_reception line) && negb (contains m_shipment line) &&
  negb (matched (match_ re_reception_op_start line)) &&
  negb (contains m_total line) && negb (contains m_vat line) &&
  negb (contains m_count line).

(** Members of [[\d.,]]. *)
Definition amount_char (c : char) : bool :=
  set_matches false [CDecimal; CChar (ch "."); CChar (ch ",")] c.

Definition separator (c : char) : bool := (c =? c_dot)%N || (c =? c_comma)%N.

Definition separators (s : str) : nat := length (filter separator s).

Definition dots (s : str) : nat :=
  length (filter (fun c => (c =? c_dot)%N) s).

(** Digits and dots with at most one dot and at least one digit. *)
Definition numeral (s : str) : bool :=
  forallb number_char s && (dots s <=? 1)%nat && existsb is_decimal s.

(** A character that is no digit and no separator. *)
Definition junk (c : char) : bool := negb (is_decimal c) && negb (separator c).

(** The kinds of line item. *)
Definition kinds : list str :=
  [u "storage"; u "reception"; u "shipment"; u "reception_operation";
   u "table_item"].

(** An item with a known kind, a description and an amount that is a number
    and not negative. *)
Definition item_ok (it : dict) : bool :=
  match get "type" it, get "description" it, get "total_amount" it with
  | Some (VStr ty), Some (VStr _), Some amount =>
    existsb (str_eqb ty) kinds && nonneg amount
  | _, _, _ => false
  end.

(** A line that sets the invoice number and date. *)
Definition invoice_match (line : str) : option caps :=
  if contains m_invoice line then search re_invoice line else None.

(** The other parts of the data are the same. *)
Definition same_but_header (d d' : data) : Prop :=
  line_items d' = line_items d /\ totals d' = totals d /\
  parsed_at d' = parsed_at d.

Definition same_but_totals (d d' : data) : Prop :=
  invoice_info d' = invoice_info d /\ company_info d' = company_info d /\
  customer_info d' = customer_info d /\ line_items d' = line_items d /\
  parsed_at d' = parsed_at d.

(** *** Lines as the invoices print them *)

Definition sp : str := [ch " "].

(** Members of [[\d.]] and of [[\d-]]. *)
Definition date_char (c : char) : bool :=
  set_matches false [CDecimal; CChar (ch ".")] c.
Definition number_id_char (c : char) : bool :=
  set_matches false [CDecimal; CChar (ch "-")] c.

(** Members of [\d]. *)
Definition decimal_class (c : char) : bool := set_matches false [CDecimal] c.

(** A non-empty run of a class. *)
Definition run_of (p : char -> bool) (s : str) : bool :=
  truthy s && forallb p s.

(** The first character is there and is not of the class. *)
Definition stops (p : char -> bool) (s : str) : bool :=
  match s with
  | c :: _ => negb (p c)
  | [] => true
  end.

Definition storage_text (d1 d2 q p t : str) : str :=
  (u "Хранение товаров от" ++ sp ++ d1 ++ sp ++ u "до" ++ sp ++ d2 ++ sp ++
   q ++ sp ++ u "м³" ++ sp ++ p ++ sp ++ u "₽" ++ sp ++ t ++ sp ++ u "₽")%list.

Definition storage_item (d1 d2 : str) (q p t : binary64) : dict :=
  [("type", VStr (u "storage"));
   ("description",
    VStr (u "Хранение товаров от " ++ d1 ++ u " до " ++ d2)%list);
   ("from_date", VStr d1);
   ("to_date", VStr d2);
   ("quantity", VFloat q);
   ("unit", VStr (u "м³"));
   ("price_per_unit", VFloat p);
   ("total_amount", VFloat t)].

Definition reception_text (n p t : str) : str :=
  (u "Приемка товара на склад и размещение" ++ sp ++ n ++ sp ++ u "шт." ++
   sp ++ p ++ sp ++ u "₽" ++ sp ++ t ++ sp ++ u "₽")%list.

Definition reception_item (n : Z) (p t : binary64) : dict :=
  [("type", VStr (u "reception"));
   ("description", VStr (u "Приемка товара на склад и размещение"));
   ("quantity", VInt n);
   ("unit", VStr (u "шт."));
   ("price_per_unit", VFloat p);
   ("total_amount", VFloat t)].

Definition shipment_text (n d : str) : str :=
  (u "Отгрузка FBO" ++ sp ++ n ++ sp ++ u "от" ++ sp ++ d)%list.

Definition shipment_item (n d : str) : dict :=
  [("type", VStr (u "shipment"));
   ("description", VStr (u "Отгрузка FBO " ++ n)%list);
   ("fbo_number", VStr n);
   ("date", VStr d);
   ("total_amount", VInt 0)].

Definition reception_op_text (n d : str) : str :=
  (u "Приемка" ++ sp ++ n ++ sp ++ u "от" ++ sp ++ d)%list.

Definition reception_op_item (n d : str) : dict :=
  [("type", VStr (u "reception_operation"));
   ("description", VStr (u "Приемка " ++ n)%list);
   ("reception_number", VStr n);
   ("date", VStr d);
   ("total_amount", VInt 0)].

Definition total_text (a : str) : str :=
  (u "Итого к оплате:" ++ sp ++ a ++ sp ++ u "₽")%list.

Definition vat_text (a : str) : str :=
  (u "В том числе НДС:" ++ sp ++ a ++ sp ++ u "₽")%list.

Definition count_text (n a : str) : str :=
  (u "Всего наименований" ++ sp ++ n ++ sp ++ u "на сумму" ++ sp ++ a ++
   sp ++ u "₽")%list.

Definition invoice_text (number date : str) : str :=
  (u "Детализация к счету " ++ u "№" ++ sp ++ number ++ sp ++ u "от" ++ sp ++
   date)%list.

(** *** What a run leaves in the data *)

(** The lines before the first one whose numbers do not convert. *)
Fixpoint converting (lines : list str) : list str :=
  match lines with
  | [] => []
  | raw :: t => if converts_line raw then raw :: converting t else []
  end.

(** Assignments [d[k] = v], carried out in order. *)
Definition apply_sets (sets : list (string * value)) (d : dict) : dict :=
  fold_left (fun d kv => set (fst kv) (snd kv) d) sets d.

(** The data after assignments to the four dictionaries and with more
    line items at the end. *)
Definition update (invoice company customer : list (string * value))
           (items : list dict) (tot : list (string * value)) (d : data)
  : data :=
  mk_data (apply_sets invoice (invoice_info d))
          (apply_sets company (company_info d))
          (apply_sets customer (customer_info d))
          (line_items d ++ items)
          (apply_sets tot (totals d)) (parsed_at d).

(** A method whose writes are fixed: the same assignments and the same
    new items whatever the data holds, and the same exception if any. *)
Definition fixed_effect (f : data -> effect) : Prop :=
  exists invoice company customer items tot oe,
    forall d, f d = (update invoice company customer items tot d, oe).

(** The same for a stage that cannot raise. *)
Definition fixed_writes (f : data -> data) : Prop :=
  exists invoice company customer items tot,
    forall d, f d = update invoice company customer items tot d.

(** The same effect with another timestamp. *)
Definition stamp (t : str) (r : effect) : effect :=
  (with_parsed_at t (fst r), snd r).

(** The keys of a dictionary, in order. *)
Definition keys (d : dict) : list string := map fst d.

(** A name as the header lines print it: no comma, no line break, and no
    blank at either end. *)
Definition party_name (name : str) : bool :=
  forallb (fun c => negb (c =? c_comma)%N) name &&
  forallb (fun c => negb (c =? c_newline)%N) name &&
  match name, rev name with
  | a :: _, z :: _ => negb (is_space a) && negb (is_space z)
  | _, _ => false
  end.

(** A line that names a party: the label, the name, a comma, "ИНН" and the
    number, with blanks [b0] .. [b3] between them and [rest] after. *)
Definition party_text (label b0 name b1 b2 b3 inn rest : str) : str :=
  (label ++ b0 ++ name ++ b1 ++ u "," ++ b2 ++ u "ИНН" ++ b3 ++ inn ++
   rest)%list.

End More.
(** ** [app.py]: the check of the uploaded file's name *)

Module App.
Import Py InvoiceParser.

(** Simple lowercase mappings of the Unicode database (UCD 14.0): code
    points [lo], [lo + step], ..., [hi] map to [target], [target + step],
    ...; anything else is its own lowercase. *)
Definition lower_runs : list (N * N * N * N) :=
  [(65, 90, 1, 97); (192, 214, 1, 224); (216, 222, 1, 248);
   (256, 302, 2, 257); (306, 310, 2, 307); (313, 327, 2, 314);
   (330, 374, 2, 331); (376, 376, 1, 255); (377, 381, 2, 378);
   (385, 385, 1, 595); (386, 388, 2, 387); (390, 390, 1, 596);
   (391, 391, 1, 392); (393, 394, 1, 598); (395, 395, 1, 396);
   (398, 398, 1, 477); (399, 399, 1, 601); (400, 400, 1, 603);
   (401, 401, 1, 402); (403, 403, 1, 608); (404, 404, 1, 611);
   (406, 406, 1, 617); (407, 407, 1, 616); (408, 408, 1, 409);
   (412, 412, 1, 623); (413, 413, 1, 626); (415, 415, 1, 629);
   (416, 420, 2, 417); (422, 422, 1, 640); (423, 423, 1, 424);
   (425, 425, 1, 643); (428, 428, 1, 429); (430, 430, 1, 648);
   (431, 431, 1, 432); (433, 434, 1, 650); (435, 437, 2, 436);
   (439, 439, 1, 658); (440, 440, 1, 441); (444, 444, 1, 445);
   (452, 452, 1, 454); (453, 453, 1, 454); (455, 455, 1, 457);
   (456, 456, 1, 457); (458, 458, 1, 460); (459, 475, 2, 460);
   (478, 494, 2, 479); (497, 497, 1, 499); (498, 500, 2, 499);
   (502, 502, 1, 405); (503, 503, 1, 447); (504, 542, 2, 505);
   (544, 544, 1, 414); (546, 562, 2, 547); (570, 570, 1, 11365);
   (571, 571, 1, 572); (573, 573, 1, 410); (574, 574, 1, 11366);
   (577, 577, 1, 578); (579, 579, 1, 384); (580, 580, 1, 649);
   (581, 581, 1, 652); (582, 590, 2, 583); (880, 882, 2, 881);
   (886, 886, 1, 887); (895, 895, 1, 1011); (902, 902, 1, 940);
   (904, 906, 1, 941); (908, 908, 1, 972); (910, 911, 1, 973);
   (913, 929, 1, 945); (931, 939, 1, 963); (975, 975, 1, 983);
   (984, 1006, 2, 985); (1012, 1012, 1, 952); (1015, 1015, 1, 1016);
   (1017, 1017, 1, 1010); (1018, 1018, 1, 1019); (1021, 1023, 1, 891);
   (1024, 1039, 1, 1104); (1040, 1071, 1, 1072); (1120, 1152, 2, 1121);
   (1162, 1214, 2, 1163); (1216, 1216, 1, 1231); (1217, 1229, 2, 1218);
   (1232, 1326, 2, 1233); (1329, 1366, 1, 1377); (4256, 4293, 1, 11520);
   (4295, 4295, 1, 11559); (4301, 4301, 1, 11565); (5024, 5103, 1, 43888);
   (5104, 5109, 1, 5112); (7312, 7354, 1, 4304); (7357, 7359, 1, 4349);
   (7680, 7828, 2, 7681); (7838, 7838, 1, 223); (7840, 7934, 2, 7841);
   (7944, 7951, 1, 7936); (7960, 7965, 1, 7952); (7976, 7983, 1, 7968);
   (7992, 7999, 1, 7984); (8008, 8013, 1, 8000); (8025, 8031, 2, 8017);
   (8040, 8047, 1, 8032); (8072, 8079, 1, 8064); (8088, 8095, 1, 8080);
   (8104, 8111, 1, 8096); (8120, 8121, 1, 8112); (8122, 8123, 1, 8048);
   (8124, 8124, 1, 8115); (8136, 8139, 1, 8050); (8140, 8140, 1, 8131);
   (8152, 8153, 1, 8144); (8154, 8155, 1, 8054); (8168, 8169, 1, 8160);
   (8170, 8171, 1, 8058); (8172, 8172, 1, 8165); (8184, 8185, 1, 8056);
   (8186, 8187, 1, 8060); (8188, 8188, 1, 8179); (8486, 8486, 1, 969);
   (8490, 8490, 1, 107); (8491, 8491, 1, 229); (8498, 8498, 1, 8526);
   (8544, 8559, 1, 8560); (8579, 8579, 1, 8580); (9398, 9423, 1, 9424);
   (11264, 11311, 1, 11312); (11360, 11360, 1, 11361);
   (11362, 11362, 1, 619); (11363, 11363, 1, 7549); (11364, 11364, 1, 637);
   (11367, 11371, 2, 11368); (11373, 11373, 1, 593); (11374, 11374, 1, 625);
   (11375, 11375, 1, 592); (11376, 11376, 1, 594); (11378, 11378, 1, 11379);
   (11381, 11381, 1, 11382); (11390, 11391, 1, 575);
   (11392, 11490, 2, 11393); (11499, 11501, 2, 11500);
   (11506, 11506, 1, 11507); (42560, 42604, 2, 42561);
   (42624, 42650, 2, 42625); (42786, 42798, 2, 42787);
   (42802, 42862, 2, 42803); (42873, 42875, 2, 42874);
   (42877, 42877, 1, 7545); (42878, 42886, 2, 42879);
   (42891, 42891, 1, 42892); (42893, 42893, 1, 613);
   (42896, 42898, 2, 42897); (42902, 42920, 2, 42903);
   (42922, 42922, 1, 614); (42923, 42923, 1, 604); (42924, 42924, 1, 609);
   (42925, 42925, 1, 620); (42926, 42926, 1, 618); (42928, 42928, 1, 670);
   (42929, 42929, 1, 647); (42930, 42930, 1, 669); (42931, 42931, 1, 43859);
   (42932, 42946, 2, 42933); (42948, 42948, 1, 42900);
   (42949, 42949, 1, 642); (42950, 42950, 1, 7566); (42951, 42953, 2, 42952);
   (42960, 42960, 1, 42961); (42966, 42968, 2, 42967);
   (42997, 42997, 1, 42998); (65313, 65338, 1, 65345);
   (66560, 66599, 1, 66600); (66736, 66771, 1, 66776);
   (66928, 66938, 1, 66967); (66940, 66954, 1, 66979);
   (66956, 66962, 1, 66995); (66964, 66965, 1, 67003);
   (68736, 68786, 1, 68800); (71840, 71871, 1, 71872);
   (93760, 93791, 1, 93792); (125184, 125217, 1, 125218)]%N.

Definition in_run (c : char) (r : N * N * N * N) : bool :=
  let '(lo, hi, step, _) := r in
  ((lo <=? c) && (c <=? hi) && ((c - lo) mod step =? 0))%N.

(** The lowercase of one character out of context: one character, two for
    the dotted capital I. *)
Definition lower_char (c : char) : str :=
  if (c =? 304)%N then [105; 775]%N
  else match find (in_run c) lower_runs with
       | Some (lo, _, _, target) => [(target + (c - lo))%N]
       | None => [c]
       end.

Definition capital_sigma : char := 931%N.

Section Lower.

(** Whether the capital sigma at a position of a text is a final one (it
    follows a cased letter and none follows it): the one rule of
    [str.lower] that looks at the context. *)
Variable final_sigma : str -> nat -> bool.

(** The lowercase of the character at position [i] of [s]. *)
Definition lower_one (s : str) (i : nat) (c : char) : str :=
  if (c =? capital_sigma)%N
  then [if final_sigma s i then 962%N else 963%N]
  else lower_char c.

Fixpoint lower_from (s : str) (i : nat) (rest : str) : str :=
  match rest with
  | [] => []
  | c :: t => lower_one s i c ++ lower_from s (S i) t
  end.

(** [s.lower()]. *)
Definition lower (s : str) : str := lower_from s 0 s.

(** [s.rsplit(sep, 1)]: split at the last [sep], if there is one. *)
Definition rsplit1 (sep : char) (s : str) : list str :=
  match break_at sep (rev s) with
  | (after, Some before) => [rev before; rev after]
  | (_, None) => [s]
  end.

Definition ALLOWED_EXTENSIONS : list str := [u "pdf"].

Definition allowed_file (filename : str) : result bool :=
  if contains (u ".") filename then
    bind (index (rsplit1 c_dot filename) 1) (fun ext =>
    Ok (existsb (str_eqb (lower ext)) ALLOWED_EXTENSIONS))
  else Ok false.

End Lower.

(** A name that ends in a dot and the letters p, d, f, in either case. *)
Definition either (c lo up : char) : bool := ((c =? lo) || (c =? up))%N.

Definition pdf_name (name : str) : bool :=
  match rev name with
  | e3 :: e2 :: e1 :: d :: _ =>
    (d =? c_dot)%N && either e1 (ch "p") (ch "P") &&
    either e2 (ch "d") (ch "D") && either e3 (ch "f") (ch "F")
  | _ => false
  end.

(** An extension that reads pdf, in either case. *)
Definition pdf_ext (ext : str) : bool :=
  match ext with
  | [e1; e2; e3] =>
    either e1 (ch "p") (ch "P") && either e2 (ch "d") (ch "D") &&
    either e3 (ch "f") (ch "F")
  | _ => false
  end.

(** No run but the one of the ASCII capitals reaches [x]. *)
Definition run_misses (x : char) (r : N * N * N * N) : bool :=
  let '(lo, hi, _, target) := r in
  ((target =? lo + 32) || (x <? target) || (target + (hi - lo) <? x))%N.

End App.

(** ** Facts about the runtime *)

Section Runtime.
Import Py Re Spec.

Lemma in_ranges_bounds t c :
  in_ranges t c = true ->
  exists r, In r t /\ (fst r <= c)%N /\ (c <= snd r)%N.
Proof.
  unfold in_ranges. rewrite existsb_exists.
  intros [r [Hin Hr]]. exists r. unfold in_range in Hr.
  apply andb_prop in Hr. destruct Hr as [H1 H2].
  apply N.leb_le in H1. apply N.leb_le in H2. auto.
Qed.

Lemma disjoint_ranges_sound t1 t2 c :
  disjoint_ranges t1 t2 = true ->
  in_ranges t1 c = true -> in_ranges t2 c = false.
Proof.
  intros Hd H1.
  destruct (in_ranges t2 c) eqn:H2; [exfalso | reflexivity].
  apply in_ranges_bounds in H1. destruct H1 as [r1 [I1 [L1 U1]]].
  apply in_ranges_bounds in H2. destruct H2 as [r2 [I2 [L2 U2]]].
  unfold disjoint_ranges in Hd. rewrite forallb_forall in Hd.
  specialize (Hd r1 I1). rewrite forallb_forall in Hd.
  specialize (Hd r2 I2). apply orb_prop in Hd.
  destruct Hd as [Hd | Hd]; apply N.ltb_lt in Hd; lia.
Qed.

Lemma decimal_not_space c : is_decimal c = true -> is_space c = false.
Proof.
  apply disjoint_ranges_sound. vm_compute. reflexivity.
Qed.

Lemma decimal_neq c x : is_decimal c = true -> is_decimal x = false -> c <> x.
Proof. intros H1 H2 E. subst. congruence. Qed.

(** *** Repetition of a one-character class *)

Lemma take_drop_while p s : take_while p s ++ drop_while p s = s.
Proof.
  induction s as [|c t IH]; simpl; auto.
  destruct (p c); simpl; congruence.
Qed.

Lemma take_while_all p s : forallb p s = true -> take_while p s = s.
Proof.
  induction s as [|c t IH]; simpl; auto.
  intros H. apply andb_prop in H. destruct H as [H1 H2].
  rewrite H1, IH; auto.
Qed.

Lemma take_while_forallb p s : forallb p (take_while p s) = true.
Proof.
  induction s as [|c t IH]; simpl; auto.
  destruct (p c) eqn:E; simpl; auto. now rewrite E.
Qed.

Lemma firstn_take_while p s :
  firstn (length s - length (drop_while p s)) s = take_while p s.
Proof.
  rewrite <- (take_drop_while p s) at 1 3.
  rewrite length_app.
  replace (length (take_while p s) + length (drop_while p s)
           - length (drop_while p s))%nat
    with (length (take_while p s) + 0)%nat by lia.
  rewrite firstn_app_2. simpl. now rewrite app_nil_r.
Qed.

(** A greedy loop over a class, followed by a continuation that cannot
    fail, consumes the longest run of the class. *)
Lemma star_loop_class p (k : cont) fuel s cs :
  (forall s' cs', k s' cs' <> None) ->
  (length s <= fuel)%nat ->
  star_loop (one_char p) true fuel s cs k = k (drop_while p s) cs.
Proof.
  intros Hk. revert s cs.
  induction fuel as [|fuel IH]; intros s cs Hlen.
  - destruct s; [reflexivity | simpl in Hlen; lia].
  - destruct s as [|c t]; simpl.
    + reflexivity.
    + destruct (p c) eqn:Hp; [|reflexivity].
      replace (length t <? S (length t))%nat with true
        by (symmetry; apply Nat.ltb_lt; lia).
      rewrite IH by (simpl in Hlen; lia).
      destruct (k (drop_while p t) cs) eqn:E; [reflexivity|].
      now apply Hk in E.
Qed.

Lemma match_plus_one_char r p s :
  run r = one_char p ->
  match_ (Plus true r) s =
  match take_while p s with
  | [] => None
  | w => Some [(0%nat, w)]
  end.
Proof.
  intros Hr. unfold match_. simpl run. rewrite Hr.
  destruct s as [|c t]; [reflexivity|].
  unfold one_char at 1. simpl take_while.
  destruct (p c) eqn:Hc; [|reflexivity].
  rewrite star_loop_class; [| discriminate | lia].
  f_equal. f_equal. f_equal.
  assert (E : take_while p (c :: t) = c :: take_while p t)
    by (simpl; now rewrite Hc).
  rewrite <- E. rewrite <- firstn_take_while. f_equal.
  simpl drop_while. rewrite Hc. reflexivity.
Qed.

Lemma match_class items s :
  match_ (cls items) s =
  match take_while (set_matches false items) s with
  | [] => None
  | w => Some [(0%nat, w)]
  end.
Proof. apply match_plus_one_char. reflexivity. Qed.

(** [re.search] for a class repeated once or more: the first run of the
    class. *)
Lemma search_class items s :
  search (cls items) s =
  match drop_while (fun c => negb (set_matches false items c)) s with
  | [] => None
  | rest => Some [(0%nat, take_while (set_matches false items) rest)]
  end.
Proof.
  induction s as [|c t IH].
  - reflexivity.
  - cbn [search]. rewrite match_class. cbn [take_while drop_while].
    destruct (set_matches false items c) eqn:Hc; cbn [negb].
    + cbn [take_while]. rewrite Hc. reflexivity.
    + exact IH.
Qed.

Lemma search_class_all items s :
  truthy s = true -> forallb (set_matches false items) s = true ->
  search (cls items) s = Some [(0%nat, s)].
Proof.
  intros Hs Hall. rewrite search_class.
  destruct s as [|c t]; [discriminate|].
  cbn [drop_while]. cbn [forallb] in Hall.
  apply andb_prop in Hall. destruct Hall as [Hc Ht].
  rewrite Hc. cbn [negb]. f_equal. f_equal. f_equal.
  apply take_while_all. cbn [forallb]. now rewrite Hc, Ht.
Qed.

(** Whatever [re.search] finds for such a pattern is made of characters
    of the class, all taken from the subject. *)
Lemma drop_while_incl p s c : In c (drop_while p s) -> In c s.
Proof.
  induction s as [|x t IH]; simpl; auto.
  destruct (p x); simpl; auto.
Qed.

Lemma take_while_incl p s c : In c (take_while p s) -> In c s.
Proof.
  induction s as [|x t IH]; simpl; auto.
  destruct (p x); simpl; intuition.
Qed.

Lemma search_class_group0 items s m :
  search (cls items) s = Some m ->
  forallb (set_matches false items) (group m 0) = true /\
  (forall c, In c (group m 0) -> In c s).
Proof.
  rewrite search_class.
  destruct (drop_while _ s) as [|x rest] eqn:E; [discriminate|].
  intros H.
  assert (Hm : m = [(0%nat, take_while (set_matches false items) (x :: rest))])
    by congruence.
  subst m. unfold group. cbv [find fst snd Nat.eqb].
  split.
  - apply take_while_forallb.
  - intros c Hc. apply take_while_incl in Hc.
    rewrite <- E in Hc. now apply drop_while_incl in Hc.
Qed.

(** *** [re.sub] of a one-character class *)

Lemma match_one_char_class neg items s :
  match_ (Set_ neg items) s =
  match s with
  | c :: _ => if set_matches neg items c then Some [(0%nat, [c])] else None
  | [] => None
  end.
Proof.
  unfold match_. cbn [run]. unfold one_char.
  destruct s as [|c t]; [reflexivity|].
  destruct (set_matches neg items c); [|reflexivity].
  f_equal. f_equal. f_equal.
  replace (length (c :: t) - length t)%nat with 1%nat by (cbn [length]; lia).
  reflexivity.
Qed.

Lemma sub_class neg items s :
  sub (Set_ neg items) s =
  filter (fun c => negb (set_matches neg items c)) s.
Proof.
  unfold sub. generalize (Nat.le_refl (length s)).
  generalize (length s) at 2 3 as fuel. intros fuel. revert s.
  induction fuel as [|fuel IH]; intros s Hlen.
  - destruct s; [reflexivity | simpl in Hlen; lia].
  - destruct s as [|c t]; [reflexivity|].
    cbn [sub_empty]. rewrite match_one_char_class. cbn [filter].
    simpl in Hlen.
    destruct (set_matches neg items c); cbn [negb].
    + unfold group. cbn [find fst snd Nat.eqb length skipn].
      apply IH. lia.
    + f_equal. apply IH. lia.
Qed.

End Runtime.

(** ** [float]: a decimal never rounds to a negative number or a NaN *)

Section Rounding.
Import Py Spec.

Lemma iter_pos_invariant {A} (f : A -> A) (P : A -> Prop) :
  (forall x, P x -> P (f x)) ->
  forall p x, P x -> P (iter_pos f p x).
Proof.
  intros Hf. induction p as [p IH | p IH |]; intros x Hx; simpl; auto.
Qed.

Lemma shr_1_nonneg mrs : (0 <= shr_m mrs)%Z -> (0 <= shr_m (shr_1 mrs))%Z.
Proof.
  destruct mrs as [m r s]. simpl. intros H.
  destruct m as [|p|p]; simpl; try lia.
  - destruct p; simpl; lia.
Qed.

Lemma shr_nonneg mrs e n :
  (0 <= shr_m mrs)%Z -> (0 <= shr_m (fst (shr mrs e n)))%Z.
Proof.
  intros H. unfold shr. destruct n; simpl; auto.
  apply iter_pos_invariant; auto. apply shr_1_nonneg.
Qed.

Lemma shr_record_of_loc_m m l : shr_m (shr_record_of_loc m l) = m.
Proof. destruct l as [|[]]; reflexivity. Qed.

Lemma shr_fexp_nonneg m e l :
  (0 <= m)%Z -> (0 <= shr_m (fst (shr_fexp prec emax m e l)))%Z.
Proof.
  intros H. unfold shr_fexp. apply shr_nonneg.
  now rewrite shr_record_of_loc_m.
Qed.

Lemma round_nearest_even_nonneg m l :
  (0 <= m)%Z -> (0 <= round_nearest_even m l)%Z.
Proof.
  intros H. unfold round_nearest_even.
  destruct l as [|[]]; try lia. destruct (Z.even m); lia.
Qed.

Lemma binary_round_aux_sign sx mx ex lx :
  (0 <= mx)%Z -> has_sign sx (binary_round_aux prec emax sx mx ex lx).
Proof.
  intros H. unfold binary_round_aux.
  pose proof (shr_fexp_nonneg ex lx H) as H1.
  destruct (shr_fexp prec emax mx ex lx) as [mrs' e'].
  simpl fst in H1.
  pose proof (round_nearest_even_nonneg (loc_of_shr_record mrs') H1) as H2.
  pose proof (shr_fexp_nonneg e' loc_Exact H2) as H3.
  destruct (shr_fexp prec emax _ e' loc_Exact) as [mrs'' e''].
  simpl fst in H3.
  destruct (shr_m mrs'') as [|p|p].
  - reflexivity.
  - destruct (Z.leb e'' (emax - prec)); reflexivity.
  - lia.
Qed.

Lemma SFdiv_core_nonneg m1 e1 m2 e2 :
  (0 <= fst (fst (SFdiv_core_binary prec emax (Zpos m1) e1 (Zpos m2) e2)))%Z.
Proof.
  unfold SFdiv_core_binary.
  set (s := (e1 - e2 - _)%Z).
  set (m' := match s with Zpos _ => Z.shiftl (Zpos m1) s | Z0 => Zpos m1
                        | Zneg _ => 0%Z end).
  assert (Hm : (0 <= m')%Z).
  { subst m'. destruct s; try lia. apply Z.shiftl_nonneg. lia. }
  pose proof (Z_div_mod m' (Zpos m2) ltac:(lia)) as Hd.
  destruct (Z.div_eucl m' (Zpos m2)) as [q r]. simpl.
  destruct Hd as [Hq Hr]. nia.
Qed.

Lemma float_of_decimal_sign m k : has_sign false (float_of_decimal m k).
Proof.
  unfold float_of_decimal. destruct m as [|p|p]; simpl; auto.
  pose proof (SFdiv_core_nonneg p 0 (Z.to_pos (10 ^ Z.of_nat k)) 0) as H.
  destruct (SFdiv_core_binary prec emax (Zpos p) 0 _ 0) as [[mz ez] lz].
  simpl in H. now apply binary_round_aux_sign.
Qed.

Lemma has_sign_ge0 f : has_sign false f -> float_ge0 f = true.
Proof.
  destruct f as [s|s| |s m e]; simpl; intros H; try contradiction;
    subst; reflexivity.
Qed.

Lemma float_of_decimal_ge0 m k : float_ge0 (float_of_decimal m k) = true.
Proof. apply has_sign_ge0, float_of_decimal_sign. Qed.

End Rounding.

(** ** The numeric normalizer *)

Section Normalizer.
Import Py Re InvoiceParser Spec.

Lemma keep_eq c : keep c = negb ((c =? c_ruble)%N || is_space c).
Proof.
  unfold keep, set_matches. cbn [existsb citem_matches xorb].
  now rewrite orb_false_r.
Qed.

Lemma keep_space c : is_space c = true -> keep c = false.
Proof. intros H. rewrite keep_eq, H. now rewrite orb_true_r. Qed.

Lemma keep_decimal c : is_decimal c = true -> keep c = true.
Proof.
  intros H. rewrite keep_eq, (decimal_not_space _ H).
  replace (c =? c_ruble)%N with false; [reflexivity|].
  symmetry. apply N.eqb_neq. apply decimal_neq; auto.
Qed.

Lemma filter_keep_lstrip s : filter keep (lstrip s) = filter keep s.
Proof.
  induction s as [|c t IH]; [reflexivity|].
  cbn [lstrip]. destruct (is_space c) eqn:E; [|reflexivity].
  cbn [filter]. now rewrite (keep_space _ E).
Qed.

Lemma filter_keep_strip s : filter keep (strip s) = filter keep s.
Proof.
  unfold strip, rstrip.
  rewrite <- (rev_involutive (filter keep (rev _))).
  rewrite <- filter_rev, rev_involutive, filter_keep_lstrip.
  rewrite filter_rev, rev_involutive. apply filter_keep_lstrip.
Qed.

(** *** [float] on digits and dots *)

Lemma break_at_app c s a b :
  break_at c s = (a, b) ->
  s = a ++ match b with Some t => c :: t | None => [] end.
Proof.
  revert a b. induction s as [|x t IH]; intros a b; cbn [break_at].
  - intros H. injection H as <- <-. reflexivity.
  - destruct (x =? c)%N eqn:E.
    + intros H. injection H as <- <-. apply N.eqb_eq in E. now subst.
    + destruct (break_at c t) as [a' b']. intros H. injection H as <- <-.
      cbn [app]. f_equal. now apply IH.
Qed.

Lemma break_at_absent c s :
  forallb (fun x => negb (x =? c)%N) s = true -> break_at c s = (s, None).
Proof.
  induction s as [|x t IH]; cbn [forallb break_at]; [reflexivity|].
  intros H. apply andb_prop in H. destruct H as [H1 H2].
  apply negb_true_iff in H1. rewrite H1, (IH H2). reflexivity.
Qed.

Lemma break_at_first c a b :
  forallb (fun x => negb (x =? c)%N) a = true ->
  break_at c (a ++ c :: b) = (a, Some b).
Proof.
  induction a as [|x t IH]; cbn [forallb break_at app].
  - now rewrite N.eqb_refl.
  - intros H. apply andb_prop in H. destruct H as [H1 H2].
    apply negb_true_iff in H1. rewrite H1, (IH H2). reflexivity.
Qed.

Lemma decimal_no_dot s :
  forallb is_decimal s = true ->
  forallb (fun x => negb (x =? c_dot)%N) s = true.
Proof.
  intros H. rewrite forallb_forall in *. intros x Hx.
  apply negb_true_iff, N.eqb_neq. apply decimal_neq; auto.
Qed.

Lemma py_float_cases s :
  py_float s = Raise ValueError \/
  exists m k, py_float s = Ok (float_of_decimal m k).
Proof.
  unfold py_float. destruct (break_at c_dot s) as [ip rest].
  destruct (_ && _); [right | left]; eauto.
Qed.

Lemma py_float_ok_digit s f :
  py_float s = Ok f -> existsb is_decimal s = true.
Proof.
  unfold py_float. destruct (break_at c_dot s) as [ip rest] eqn:E.
  apply break_at_app in E.
  set (fp0 := match rest with Some f0 => f0 | None => [] end) in *.
  destruct (forallb is_decimal ip) eqn:H1; [|discriminate].
  destruct (forallb is_decimal fp0) eqn:H2; [|discriminate].
  destruct (truthy (ip ++ fp0)) eqn:H3; [|discriminate]. intros _.
  subst fp0. apply existsb_exists.
  destruct ip as [|c ip'].
  - destruct rest as [fp|]; [|cbn in H3; discriminate].
    destruct fp as [|c fp']; [cbn in H3; discriminate|].
    exists c. cbn [forallb] in H2. apply andb_prop in H2.
    split; [|tauto]. subst s. cbn. auto.
  - exists c. cbn [forallb] in H1. apply andb_prop in H1.
    split; [|tauto]. subst s. cbn. auto.
Qed.

Lemma py_float_decimal ip fp :
  forallb is_decimal ip = true -> forallb is_decimal fp = true ->
  truthy (ip ++ fp) = true ->
  py_float (ip ++ c_dot :: fp) = Ok (decimal_float ip fp).
Proof.
  intros H1 H2 H3. unfold py_float.
  rewrite break_at_first by now apply decimal_no_dot.
  now rewrite H1, H2, H3.
Qed.

Lemma py_float_integer ip :
  forallb is_decimal ip = true -> truthy ip = true ->
  py_float ip = Ok (decimal_float ip []).
Proof.
  intros H1 H3. unfold py_float.
  rewrite break_at_absent by now apply decimal_no_dot.
  rewrite app_nil_r, H1, H3. cbn [forallb andb].
  unfold decimal_float. now rewrite app_nil_r.
Qed.

(** *** Normal form of [_parse_number] *)

Lemma parse_number_unfold v :
  _parse_number v =
  if falsy v then Ok (VInt 0)
  else
    bind (str_of_arg v) (fun text =>
    match search re_number (cleaned text) with
    | Some m =>
      match py_float (group m 0) with
      | Ok f => Ok (VFloat f)
      | Raise _ => Ok (VInt 0)
      end
    | None => Ok (VInt 0)
    end).
Proof.
  unfold _parse_number. destruct (falsy v); [reflexivity|].
  destruct (str_of_arg v) as [text|e]; cbn [bind]; [|reflexivity].
  unfold re_currency. rewrite sub_class.
  change (fun c => negb (set_matches false [CChar (ch "₽"); CSpace] c))
    with keep.
  rewrite filter_keep_strip. fold (cleaned text).
  destruct (search re_number _) as [m|]; [|reflexivity].
  destruct (py_float_cases (group m 0)) as [E | [k [n E]]]; now rewrite E.
Qed.

End Normalizer.

(** ** Claims about the numeric normalizer *)

Section NormalizerClaims.
Import Py Re InvoiceParser Spec.

Lemma In_replace a b s c : In c (replace a b s) -> c = b \/ In c s.
Proof.
  unfold replace. rewrite in_map_iff. intros [x [Hx Hin]].
  destruct (x =? a)%N; subst; auto.
Qed.

Lemma In_cleaned s c : In c (cleaned s) -> c = c_dot \/ In c s.
Proof.
  unfold cleaned. intros H. apply In_replace in H.
  destruct H as [H | H]; auto. apply filter_In in H. tauto.
Qed.

Lemma non_numeric_float s m f :
  non_numeric s = true ->
  search re_number (cleaned s) = Some m ->
  py_float (group m 0) = Ok f -> False.
Proof.
  intros Hs Hm Hf.
  apply py_float_ok_digit in Hf. apply existsb_exists in Hf.
  destruct Hf as [c [Hin Hc]].
  apply search_class_group0 in Hm. destruct Hm as [_ Hsub].
  apply Hsub, In_cleaned in Hin. destruct Hin as [-> | Hin].
  - vm_compute in Hc. discriminate.
  - unfold non_numeric in Hs. apply negb_true_iff in Hs.
    assert (existsb is_decimal s = true); [|congruence].
    apply existsb_exists. eauto.
Qed.

(** C6 (amended). For every value whose [str] is taken without an
    exception ([None], any [str], an [int] within the interpreter's digit
    limit), [_parse_number] returns without raising; what it returns is
    the [int] [0] or a [float] that is not negative, and it is [0]
    whenever the value is empty, [None], [0] or text without a decimal
    digit. *)
Theorem parse_number_never_raises (v : arg) (text : str) :
  str_of_arg v = Ok text ->
  exists x,
    _parse_number v = Ok x /\ nonneg x = true /\
    (falsy v = true \/ non_numeric text = true -> x = VInt 0).
Proof.
  intros Htext. rewrite parse_number_unfold, Htext. cbn [bind].
  destruct (falsy v) eqn:Hv.
  { exists (VInt 0). repeat split. }
  destruct (search re_number _) as [m|] eqn:Hm.
  2:{ exists (VInt 0). repeat split. }
  destruct (py_float_cases (group m 0)) as [E | [k [n E]]]; rewrite E.
  - exists (VInt 0). repeat split.
  - eexists. split; [reflexivity|]. split.
    + apply float_of_decimal_ge0.
    + intros [H | H]; [discriminate|].
      exfalso. eapply non_numeric_float; eauto.
Qed.

Lemma parse_number_never_raises_witness :
  str_of_arg (AStr (u "n/a")) = Ok (u "n/a") /\
  _parse_number (AStr (u "n/a")) = Ok (VInt 0).
Proof.
  split; [reflexivity|].
  destruct (@parse_number_never_raises (AStr (u "n/a")) (u "n/a") eq_refl)
    as [x [H1 [_ H3]]].
  rewrite H1. f_equal. apply H3. right. vm_compute. reflexivity.
Defined.

(** C6 (as stated) fails: text that is not a number but holds a digit is
    not turned into [0]; the first run of digits and dots is converted, so
    a page reference gives one half. *)
Lemma parse_number_text_with_digit :
  _parse_number (AStr (u "стр. 5")) = Ok (VFloat (Prim2SF 0.5)) /\
  _parse_number (AStr (u "стр. 5")) <> Ok (VInt 0).
Proof. split; [vm_compute; reflexivity | vm_compute; discriminate]. Qed.

(** An [int] beyond the digit limit: [str(value)] raises before any
    conversion is tried, and nothing in the normalizer catches it. *)
Lemma parse_number_long_int :
  _parse_number (AInt (10 ^ 4300)) = Raise ValueError /\
  _parse_number (AInt (10 ^ 4300 - 1)) = Ok (VFloat (S754_infinity false)).
Proof. split; vm_compute; reflexivity. Qed.

(** *** Well-formed numbers *)

Lemma filter_keep_decimal g :
  forallb is_decimal g = true -> filter keep g = g.
Proof.
  induction g as [|c t IH]; cbn [forallb filter]; [reflexivity|].
  intros H. apply andb_prop in H. destruct H as [H1 H2].
  rewrite (keep_decimal _ H1). f_equal. auto.
Qed.

Lemma digit_run_decimal g : digit_run g = true -> forallb is_decimal g = true.
Proof. unfold digit_run. intros H. apply andb_prop in H. tauto. Qed.

Lemma filter_keep_join sep groups :
  is_space sep = true -> forallb digit_run groups = true ->
  filter keep (join sep groups) = concat groups.
Proof.
  intros Hsep. induction groups as [|g rest IH]; [reflexivity|].
  cbn [forallb]. intros H. apply andb_prop in H. destruct H as [Hg Hrest].
  apply digit_run_decimal in Hg.
  destruct rest as [|g2 rest'].
  - cbn [join concat]. rewrite app_nil_r. now apply filter_keep_decimal.
  - change (join sep (g :: g2 :: rest'))
      with (g ++ sep :: join sep (g2 :: rest')).
    rewrite filter_app. cbn [filter]. rewrite (keep_space _ Hsep).
    rewrite (filter_keep_decimal _ Hg), (IH Hrest). reflexivity.
Qed.

Lemma replace_decimal s :
  forallb is_decimal s = true -> replace c_comma c_dot s = s.
Proof.
  unfold replace. induction s as [|c t IH]; cbn [forallb map]; [reflexivity|].
  intros H. apply andb_prop in H. destruct H as [H1 H2].
  rewrite (IH H2).
  replace (c =? c_comma)%N with false; [reflexivity|].
  symmetry. apply N.eqb_neq. now apply decimal_neq.
Qed.

Lemma concat_decimal groups :
  forallb digit_run groups = true -> forallb is_decimal (concat groups) = true.
Proof.
  induction groups as [|g rest IH]; cbn [forallb concat]; [reflexivity|].
  intros H. apply andb_prop in H. destruct H as [Hg Hrest].
  rewrite forallb_app, (digit_run_decimal _ Hg), (IH Hrest). reflexivity.
Qed.

Lemma concat_truthy groups :
  groups <> [] -> forallb digit_run groups = true ->
  truthy (concat groups) = true.
Proof.
  destruct groups as [|g rest]; [congruence|]. intros _.
  cbn [forallb concat]. intros H. apply andb_prop in H.
  destruct H as [Hg _]. unfold digit_run in Hg. apply andb_prop in Hg.
  destruct g; [destruct Hg; discriminate | reflexivity].
Qed.

Lemma replace_app a b x y :
  replace a b (x ++ y) = replace a b x ++ replace a b y.
Proof. apply map_app. Qed.

Lemma replace_comma_cons f :
  replace c_comma c_dot (c_comma :: f) = c_dot :: replace c_comma c_dot f.
Proof. reflexivity. Qed.

Lemma cleaned_ru_number sep groups frac currency :
  is_space sep = true -> forallb digit_run groups = true ->
  forallb is_decimal (frac_digits frac) = true ->
  cleaned (ru_number sep groups frac currency) =
  concat groups ++ match frac with Some f => c_dot :: f | None => [] end.
Proof.
  intros Hsep Hg Hf. unfold cleaned, ru_number.
  rewrite !filter_app, (filter_keep_join _ _ Hsep Hg).
  assert (Hcur : filter keep (if currency then [ch " "; c_ruble] else []) = [])
    by (destruct currency; reflexivity).
  rewrite Hcur, app_nil_r.
  rewrite replace_app, (replace_decimal _ (concat_decimal _ Hg)). f_equal.
  destruct frac as [f|]; [|reflexivity].
  change (filter keep (c_comma :: f)) with (c_comma :: filter keep f).
  cbn [frac_digits] in Hf. rewrite (filter_keep_decimal _ Hf).
  rewrite replace_comma_cons, (replace_decimal _ Hf).
  reflexivity.
Qed.

Lemma number_char_decimal s :
  forallb is_decimal s = true -> forallb number_char s = true.
Proof.
  intros H. rewrite forallb_forall in *. intros c Hc.
  unfold number_char, set_matches. cbn [existsb citem_matches xorb].
  now rewrite (H c Hc).
Qed.

(** C2 (amended). A number written in the Russian way (groups of decimal
    digits separated by a blank or not separated at all, an optional comma
    and fraction, an optional blank and currency sign) is normalized to the
    binary64 nearest to the decimal number it denotes. *)
Theorem parse_number_ru sep groups frac currency :
  is_space sep = true ->
  groups <> [] ->
  forallb digit_run groups = true ->
  forallb is_decimal (frac_digits frac) = true ->
  _parse_number (AStr (ru_number sep groups frac currency)) =
  Ok (VFloat (decimal_float (concat groups) (frac_digits frac))).
Proof.
  intros Hsep Hne Hg Hf.
  pose proof (concat_decimal _ Hg) as Hdec.
  pose proof (concat_truthy Hne Hg) as Htr.
  rewrite parse_number_unfold. cbn [str_of_arg bind].
  assert (Hfalsy : falsy (AStr (ru_number sep groups frac currency)) = false).
  { cbn [falsy]. unfold ru_number.
    destruct groups as [|g rest]; [congruence|].
    cbn [forallb] in Hg. apply andb_prop in Hg. destruct Hg as [Hg0 _].
    unfold digit_run in Hg0. apply andb_prop in Hg0.
    destruct g as [|c t]; [destruct Hg0; discriminate|].
    destruct rest; reflexivity. }
  rewrite Hfalsy, cleaned_ru_number by assumption.
  unfold re_number. rewrite search_class_all.
  - unfold group. cbv [find fst snd Nat.eqb].
    destruct frac as [f|]; cbn [frac_digits] in *.
    + rewrite py_float_decimal; auto.
      destruct (concat groups); [discriminate | reflexivity].
    + rewrite app_nil_r, py_float_integer; auto.
  - destruct (concat groups); [discriminate | reflexivity].
  - change (set_matches false [CDecimal; CChar (ch ".")]) with number_char.
    rewrite forallb_app, (number_char_decimal _ Hdec).
    destruct frac as [f|]; [|reflexivity].
    cbn [forallb frac_digits] in *. rewrite (number_char_decimal _ Hf).
    reflexivity.
Qed.

Lemma parse_number_ru_witness :
  is_space (ch " ") = true /\
  [u "1"; u "234"] <> [] /\
  forallb digit_run [u "1"; u "234"] = true /\
  forallb is_decimal (u "56") = true /\
  _parse_number (AStr (u "1 234,56 ₽")) = Ok (VFloat (Prim2SF 1234.56)).
Proof.
  split; [reflexivity|]. split; [discriminate|].
  split; [reflexivity|]. split; [reflexivity|].
  exact (@parse_number_ru (ch " ") [u "1"; u "234"] (Some (u "56")) true
           eq_refl ltac:(discriminate) eq_refl eq_refl).
Defined.

(** C2 (as stated) fails: with the thousands grouped by a dot the normalizer
    finds [1.234.56], which [float] rejects, and returns [0], not 1234.56. *)
Lemma parse_number_dot_grouping :
  _parse_number (AStr (u "1.234,56 ₽")) = Ok (VInt 0) /\
  _parse_number (AStr (u "1.234,56 ₽")) <> Ok (VFloat (Prim2SF 1234.56)).
Proof. split; [vm_compute; reflexivity | vm_compute; discriminate]. Qed.

End NormalizerClaims.

(** ** Table mode *)

Section Tables.
Import Py Re InvoiceParser Spec.
Local Open Scope string_scope.

Lemma parse_number_ok (c : cell) :
  _parse_number (arg_of_cell c) = Ok (normalized c).
Proof.
  unfold normalized. rewrite parse_number_unfold.
  destruct (falsy _); [reflexivity|].
  destruct c as [s|]; cbn [arg_of_cell str_of_arg bind];
    (destruct (search re_number _) as [m|]; [|reflexivity]);
    destruct (py_float (group m 0)); reflexivity.
Qed.

Lemma index_ok (r : row) i :
  (i < length r)%nat -> index r i = Ok (cell_at r i).
Proof.
  intros H. unfold index, cell_at.
  destruct (nth_error r i) as [c|] eqn:E.
  - now rewrite (nth_error_nth _ _ _ E).
  - apply nth_error_None in E. lia.
Qed.

Lemma hd_cell_at (r : row) : hd None r = cell_at r 0.
Proof. destruct r; reflexivity. Qed.

Lemma py_int_cases s :
  py_int s = Raise ValueError \/ exists n, py_int s = Ok n.
Proof. unfold py_int. destruct (_ && _); eauto. Qed.

(** The body of the [try] on a row of five cells or more. *)
Lemma table_item_eq r :
  (5 <= length r)%nat ->
  table_item r =
  match py_int (cell_str (cell_at r 0)) with
  | Ok n =>
    if truthy (strip (cell_str (cell_at r 1))) && gt0 (total_amount_of r)
    then Ok (Some (row_item r n))
    else Ok None
  | Raise e => Raise e
  end.
Proof.
  intros Hlen. unfold table_item.
  rewrite !index_ok by lia. cbn [bind].
  destruct (py_int _) as [n|e]; [|reflexivity]. cbn [bind].
  replace (2 <? length r)%nat with true by (symmetry; apply Nat.ltb_lt; lia).
  replace (3 <? length r)%nat with true by (symmetry; apply Nat.ltb_lt; lia).
  replace (4 <? length r)%nat with true by (symmetry; apply Nat.ltb_lt; lia).
  rewrite (parse_number_ok (cell_at r 2)).
  rewrite (parse_number_ok (cell_at r 4)).
  cbn [bind].
  unfold row_item, total_amount_of.
  destruct (5 <? length r)%nat eqn:H5.
  - rewrite index_ok by (apply Nat.ltb_lt in H5; lia). cbn [bind].
    rewrite (parse_number_ok (cell_at r 5)). cbn [bind].
    destruct (_ && _); reflexivity.
  - cbn [bind]. destruct (_ && _); reflexivity.
Qed.

(** What one row does to the data. *)
Lemma tables_row_cases d r :
  (row_condition r = true /\
   exists n, py_int (cell_str (cell_at r 0)) = Ok n /\
             tables_row d r = append_item (row_item r n) d) \/
  (row_condition r = false /\ tables_row d r = d).
Proof.
  unfold tables_row, row_condition, stated_row_condition.
  rewrite hd_cell_at. fold (has_header_marker (cell_str (cell_at r 0))).
  destruct (5 <=? length r)%nat eqn:Hlen; [|right; split; reflexivity].
  apply Nat.leb_le in Hlen. cbn [andb].
  destruct (has_header_marker _); [right; split; reflexivity|]. cbn [negb andb].
  unfold cell_truthy.
  assert (Hd : truthy (cell_str (cell_at r 0)) && isdigit (cell_str (cell_at r 0))
               = isdigit (cell_str (cell_at r 0))).
  { destruct (cell_str (cell_at r 0)); reflexivity. }
  rewrite Hd. clear Hd.
  destruct (isdigit _); [|right; split; reflexivity]. cbn [andb].
  rewrite table_item_eq by assumption. unfold converts.
  destruct (py_int_cases (cell_str (cell_at r 0))) as [E | [n E]]; rewrite E.
  - right. split; [now rewrite andb_false_r | reflexivity].
  - rewrite andb_true_r.
    destruct (truthy _ && gt0 _) eqn:Hc.
    + left. split; [reflexivity|]. exists n. split; reflexivity.
    + right. split; reflexivity.
Qed.

Lemma append_item_neq item d : append_item item d <> d.
Proof.
  intros H. apply (f_equal (fun x => length (line_items x))) in H.
  cbn [append_item line_items] in H. rewrite length_app in H.
  cbn [length] in H. lia.
Qed.

Lemma row_item_type r n : get "type" (row_item r n) = Some (VStr (u "table_item")).
Proof. reflexivity. Qed.

Lemma row_item_total r n :
  get "total_amount" (row_item r n) = Some (total_amount_of r).
Proof. reflexivity. Qed.

(** C3 (amended). A row yields a [table_item] exactly when it has at least
    five cells, its first cell holds no header marker, consists of digits
    and converts to an integer, the trimmed second cell is not empty and
    the normalized sixth cell is positive; otherwise the row leaves the
    data as it was.  The row [1, Погрузка, 3, шт., 50,00, 150,00] yields
    one item whose amount is 150.0, and a row whose normalized amount is
    not positive yields none. *)
Theorem tables_row_emits d r :
  ((row_condition r = true /\
    exists item, tables_row d r = append_item item d /\
                 get "type" item = Some (VStr (u "table_item")) /\
                 get "total_amount" item = Some (total_amount_of r)) \/
   (row_condition r = false /\ tables_row d r = d /\
    forall item, tables_row d r <> append_item item d)) /\
  (exists item, tables_row d example_row = append_item item d /\
                get "type" item = Some (VStr (u "table_item")) /\
                get "total_amount" item = Some (VFloat (Prim2SF 150))) /\
  (gt0 (total_amount_of r) = true \/ tables_row d r = d).
Proof.
  split; [|split].
  - destruct (tables_row_cases d r) as [[Hc [n [_ Hn]]] | [Hc Hd]].
    + left. split; [assumption|]. exists (row_item r n).
      split; [assumption|]. split; reflexivity.
    + right. split; [assumption|]. split; [assumption|].
      intros item. rewrite Hd. intros E. symmetry in E.
      now apply append_item_neq in E.
  - destruct (tables_row_cases d example_row) as [[_ [n [_ Hn]]] | [Hc _]].
    + exists (row_item example_row n). split; [assumption|].
      split; [reflexivity|]. rewrite row_item_total.
      vm_compute. reflexivity.
    + vm_compute in Hc. discriminate.
  - destruct (tables_row_cases d r) as [[Hc _] | [_ Hd]].
    + left. unfold row_condition, stated_row_condition in Hc.
      apply andb_prop in Hc. destruct Hc as [Hc _].
      apply andb_prop in Hc. tauto.
    + now right.
Qed.

(** C3 (as stated) fails: a first cell holding a superscript two passes
    every stated condition ([isdigit] takes it for a digit), but [int]
    rejects it and the row is skipped. *)
Lemma superscript_row_skipped :
  stated_row_condition superscript_row = true /\
  forall d, tables_row d superscript_row = d /\
            forall item, tables_row d superscript_row <> append_item item d.
Proof.
  split; [vm_compute; reflexivity|]. intros d.
  destruct (tables_row_cases d superscript_row) as [[Hc _] | [_ Hd]].
  - vm_compute in Hc. discriminate.
  - split; [assumption|]. intros item. rewrite Hd. intros E.
    symmetry in E. now apply append_item_neq in E.
Qed.

(** C10. A row of exactly five cells never yields an item: without a sixth
    cell the amount defaults to [0], and an item needs a positive amount. *)
Theorem five_cells_no_item d r :
  length r = 5%nat -> tables_row d r = d.
Proof.
  intros Hlen.
  destruct (tables_row_cases d r) as [[Hc _] | [_ Hd]]; [|assumption].
  unfold row_condition, stated_row_condition, total_amount_of in Hc.
  rewrite Hlen in Hc. cbn [Nat.ltb Nat.leb gt0 Z.ltb Z.compare] in Hc.
  rewrite !andb_false_r in Hc. discriminate.
Qed.

Lemma five_cells_no_item_witness :
  length five_cell_row = 5%nat /\
  tables_row (__init__ []) five_cell_row = __init__ [] /\
  isdigit (cell_str (cell_at five_cell_row 0)) = true.
Proof.
  split; [reflexivity|]. split; [|reflexivity].
  exact (@five_cells_no_item (__init__ []) five_cell_row eq_refl).
Defined.

End Tables.

(** ** Text mode *)

Section TextMode.
Import Py Re InvoiceParser Spec.
Local Open Scope string_scope.





(** *** A loop stops at the first exception *)

Lemma for_each_raise {A S} (body : S -> A -> result S) x t st e :
  body st x = Raise e -> for_each body (x :: t) st = Raise e.
Proof. intros H. cbn [for_each]. now rewrite H. Qed.

Lemma grouped_price_line_item : line_item grouped_price_line = Raise ValueError.
Proof. vm_compute. reflexivity. Qed.

(** C1, on the code. A storage line whose prices group the thousands with
    a dot is captured by the storage pattern, [float] rejects [1.100.00],
    and the [ValueError] leaves [_parse_line_items] and [parse]; the
    normalizer, handed the same price from a table cell, catches the
    [ValueError] and returns [0]. *)
Theorem grouped_price_raises d now tables :
  _parse_line_items grouped_price_line d = Raise ValueError /\
  parse now (one_page grouped_price_line tables) = Raise ValueError /\
  _parse_number (arg_of_cell grouped_price_cell) = Ok (VInt 0).
Proof.
  assert (Hstep : forall d0, line_items_step d0 grouped_price_line
                             = Raise ValueError).
  { intros d0. unfold line_items_step.
    now rewrite grouped_price_line_item. }
  split; [|split].
  - unfold _parse_line_items.
    change (split c_newline grouped_price_line) with [grouped_price_line].
    now apply for_each_raise.
  - unfold parse, one_page. cbn [fold_left page_step extract_text].
    change (truthy grouped_price_line) with true. cbv iota.
    destruct (extract_tables _) eqn:Et.
    + unfold _parse_line_items.
      change (split c_newline ([] ++ grouped_price_line ++ [c_newline])%list)
        with [grouped_price_line; []].
      rewrite for_each_raise with (e := ValueError) by apply Hstep.
      reflexivity.
    + unfold _parse_line_items.
      change (split c_newline ([] ++ grouped_price_line ++ [c_newline])%list)
        with [grouped_price_line; []].
      rewrite for_each_raise with (e := ValueError) by apply Hstep.
      reflexivity.
  - vm_compute. reflexivity.
Qed.

End TextMode.

(** ** Totals *)

Section Totals.
Import Py Re InvoiceParser Spec.
Local Open Scope string_scope.

Lemma get_set_same k v d : get k (set k v d) = Some v.
Proof.
  unfold get. induction d as [|[k1 v1] t IH]; cbn [set].
  - cbn [find fst]. rewrite String.eqb_refl. reflexivity.
  - destruct (String.eqb k1 k) eqn:E; cbn [find fst]; rewrite E.
    + reflexivity.
    + exact IH.
Qed.

Lemma get_set_other k k' v d :
  String.eqb k' k = false -> get k (set k' v d) = get k d.
Proof.
  intros Hk. unfold get. induction d as [|[k1 v1] t IH]; cbn [set].
  - cbn [find fst]. rewrite Hk. reflexivity.
  - destruct (String.eqb k1 k') eqn:E; cbn [find fst].
    + apply String.eqb_eq in E. subst k1. rewrite Hk. reflexivity.
    + destruct (String.eqb k1 k); [reflexivity | exact IH].
Qed.

Lemma is_set_same k v d : is_set k (set k v d) = true.
Proof. unfold is_set. now rewrite get_set_same. Qed.

Lemma is_set_other k k' v d :
  String.eqb k' k = false -> is_set k (set k' v d) = is_set k d.
Proof. intros H. unfold is_set. now rewrite get_set_other. Qed.

Lemma totals_set_totals k v d : totals (set_totals k v d) = set k v (totals d).
Proof. reflexivity. Qed.

Ltac totals_simpl :=
  repeat (rewrite totals_set_totals);
  repeat first
    [ rewrite is_set_same
    | rewrite is_set_other by reflexivity ];
  repeat first
    [ rewrite orb_false_r | rewrite orb_true_r | rewrite andb_true_r
    | rewrite andb_false_r ];
  try reflexivity.

(** What one line does to the four fields. *)
Lemma totals_step_fields d raw d' :
  totals_step d raw = Ok d' ->
  is_set "total_amount" (totals d') =
    is_set "total_amount" (totals d) || total_line (strip raw) /\
  is_set "vat_amount" (totals d') =
    is_set "vat_amount" (totals d) || vat_line (strip raw) /\
  is_set "total_items" (totals d') =
    is_set "total_items" (totals d) || count_line (strip raw) /\
  is_set "total_sum" (totals d') =
    is_set "total_sum" (totals d) || count_line (strip raw).
Proof.
  unfold totals_step, total_line, vat_line, count_line,
    stated_total_line, stated_vat_line, stated_count_line.
  destruct (contains m_total (strip raw)).
  { destruct (search re_total _) as [m|]; cbn [matched negb andb].
    - destruct (float_comma _); [|discriminate]. cbn [bind].
      intros H. injection H as <-. repeat split; totals_simpl.
    - intros H. injection H as <-. repeat split; totals_simpl. }
  destruct (contains m_vat (strip raw)).
  { destruct (search re_vat _) as [m|]; cbn [matched negb andb].
    - destruct (float_comma _); [|discriminate]. cbn [bind].
      intros H. injection H as <-. repeat split; totals_simpl.
    - intros H. injection H as <-. repeat split; totals_simpl. }
  destruct (contains m_count (strip raw)).
  { destruct (search re_count _) as [m|]; cbn [matched negb andb].
    - destruct (py_int _); [|discriminate]. cbn [bind].
      destruct (float_comma _); [|discriminate]. cbn [bind].
      intros H. injection H as <-. repeat split; totals_simpl.
    - intros H. injection H as <-. repeat split; totals_simpl. }
  cbn [matched negb andb].
  intros H. injection H as <-. repeat split; totals_simpl.
Qed.

Lemma for_each_totals_fields ls d d' :
  for_each totals_step ls d = Ok d' ->
  is_set "total_amount" (totals d') =
    is_set "total_amount" (totals d) || existsb total_line (map strip ls) /\
  is_set "vat_amount" (totals d') =
    is_set "vat_amount" (totals d) || existsb vat_line (map strip ls) /\
  is_set "total_items" (totals d') =
    is_set "total_items" (totals d) || existsb count_line (map strip ls) /\
  is_set "total_sum" (totals d') =
    is_set "total_sum" (totals d) || existsb count_line (map strip ls).
Proof.
  revert d. induction ls as [|raw t IH]; intros d; cbn [for_each].
  - intros H. injection H as <-. cbn [map existsb].
    now rewrite !orb_false_r.
  - destruct (totals_step d raw) as [d1|e] eqn:E; [|discriminate].
    cbn [bind]. intros H. apply IH in H.
    apply totals_step_fields in E.
    destruct H as (H1 & H2 & H3 & H4). destruct E as (E1 & E2 & E3 & E4).
    cbn [map existsb].
    rewrite H1, H2, H3, H4, E1, E2, E3, E4, !orb_assoc. auto.
Qed.

(** C7 (amended). Whenever the scan of the totals completes, each field is
    set exactly when some line holds the field's marker, holds none of the
    markers tested before it ("Итого к оплате:" before "В том числе НДС:"
    before "Всего наименований") and matches the field's pattern. *)
Theorem totals_fields now text d :
  _parse_totals text (__init__ now) = Ok d ->
  is_set "total_amount" (totals d) = existsb total_line (lines_of text) /\
  is_set "vat_amount" (totals d) = existsb vat_line (lines_of text) /\
  is_set "total_items" (totals d) = existsb count_line (lines_of text) /\
  is_set "total_sum" (totals d) = existsb count_line (lines_of text).
Proof.
  intros H. apply for_each_totals_fields in H. exact H.
Qed.

Lemma totals_fields_witness :
  _parse_totals (u "В том числе НДС: 20,00 ₽") (__init__ []) =
    Ok (set_totals "vat_amount" (VFloat (Prim2SF 20)) (__init__ [])) /\
  is_set "vat_amount"
    (totals (set_totals "vat_amount" (VFloat (Prim2SF 20)) (__init__ []))) =
    existsb vat_line (lines_of (u "В том числе НДС: 20,00 ₽")).
Proof.
  split; [reflexivity|].
  exact (proj1 (proj2 (@totals_fields [] (u "В том числе НДС: 20,00 ₽")
                         _ eq_refl))).
Defined.

(** C7 (as stated) fails: on a line that holds the total and the VAT, the
    VAT marker is there and the VAT pattern matches, yet only the total is
    set. *)
Lemma vat_after_total_not_set :
  exists d,
    _parse_totals total_and_vat_line (__init__ []) = Ok d /\
    existsb stated_vat_line (lines_of total_and_vat_line) = true /\
    is_set "total_amount" (totals d) = true /\
    is_set "vat_amount" (totals d) = false.
Proof.
  eexists. split; [vm_compute; reflexivity|].
  repeat split; vm_compute; reflexivity.
Qed.

End Totals.

(** ** The whole pipeline *)

Section Pipeline.
Import Py Re InvoiceParser Spec.
Local Open Scope string_scope.

(** *** Stages and the line items *)

Lemma header_line_items raw d : line_items (header_line raw d) = line_items d.
Proof.
  unfold header_line.
  destruct (contains m_invoice _); [destruct (search re_invoice _)|];
    (destruct (contains m_company _); [destruct (search re_company _)|]);
    (destruct (contains m_customer _);
     [destruct (search re_customer _); destruct (search re_address _)|]);
    reflexivity.
Qed.

Lemma parse_header_info_items text d :
  line_items (_parse_header_info text d) = line_items d.
Proof.
  unfold _parse_header_info. generalize (split c_newline text). intros ls.
  revert d. induction ls as [|raw t IH]; intros d; cbn [fold_left].
  - reflexivity.
  - rewrite IH. apply header_line_items.
Qed.

Lemma totals_step_items d raw d' :
  totals_step d raw = Ok d' -> line_items d' = line_items d.
Proof.
  unfold totals_step.
  destruct (contains m_total _).
  { destruct (search re_total _); [destruct (float_comma _)|];
      cbn [bind]; intros H; try discriminate; now injection H as <-. }
  destruct (contains m_vat _).
  { destruct (search re_vat _); [destruct (float_comma _)|];
      cbn [bind]; intros H; try discriminate; now injection H as <-. }
  destruct (contains m_count _).
  { destruct (search re_count _);
      [destruct (py_int _); [destruct (float_comma _)|]|];
      cbn [bind]; intros H; try discriminate; now injection H as <-. }
  intros H. now injection H as <-.
Qed.

Lemma parse_totals_items text d d' :
  _parse_totals text d = Ok d' -> line_items d' = line_items d.
Proof.
  unfold _parse_totals. generalize (split c_newline text). intros ls.
  revert d. induction ls as [|raw t IH]; intros d; cbn [for_each].
  - intros H. now injection H as <-.
  - destruct (totals_step d raw) as [d1|e] eqn:E; [|discriminate].
    cbn [bind]. intros H. apply IH in H. apply totals_step_items in E.
    congruence.
Qed.





End Pipeline.

(** ** Header *)

Section Header.
Import Py Re InvoiceParser Spec.
Local Open Scope string_scope.

(** C5. The header lines of the specification: the invoice line gives
    number 12345-1 and date 01.02.2024; the customer line gives the name,
    the INN, the address and the phone, trimmed. *)
Theorem header_vectors now :
  (let d := _parse_header_info invoice_line (__init__ now) in
   get "number" (invoice_info d) = Some (VStr (u "12345-1")) /\
   get "date" (invoice_info d) = Some (VStr (u "01.02.2024"))) /\
  (let d := _parse_header_info customer_line (__init__ now) in
   get "name" (customer_info d) = Some (VStr (u "ООО Ромашка")) /\
   get "inn" (customer_info d) = Some (VStr (u "7701234567")) /\
   get "address" (customer_info d) = Some (VStr (u "г. Москва, ул. Ленина 1")) /\
   get "phone" (customer_info d) = Some (VStr (u "+7(900)123-45-67"))) /\
  (let d := _parse_header_info
              (invoice_line ++ [c_newline] ++ customer_line)%list (__init__ now) in
   invoice_info d =
     [("number", VStr (u "12345-1")); ("date", VStr (u "01.02.2024"))] /\
   customer_info d =
     [("name", VStr (u "ООО Ромашка")); ("inn", VStr (u "7701234567"));
      ("address", VStr (u "г. Москва, ул. Ленина 1"));
      ("phone", VStr (u "+7(900)123-45-67"))]).
Proof. repeat split; vm_compute; reflexivity. Qed.

End Header.

(** ** Further properties: table mode *)

Section MoreTables.
Import Py Re InvoiceParser Spec More.
Local Open Scope string_scope.

Lemma add_items_nil d : add_items [] d = d.
Proof. destruct d. unfold add_items. cbn. now rewrite app_nil_r. Qed.

Lemma add_items_add l1 l2 d :
  add_items l2 (add_items l1 d) = add_items (l1 ++ l2) d.
Proof. unfold add_items. cbn. now rewrite app_assoc. Qed.

Lemma tables_row_items d r : tables_row d r = add_items (row_items r) d.
Proof.
  unfold row_items.
  destruct (tables_row_cases d r) as [[Hc [n [Hn Hr]]] | [Hc Hr]];
    rewrite Hr, Hc.
  - rewrite Hn. reflexivity.
  - destruct (py_int _); now rewrite add_items_nil.
Qed.

Lemma fold_tables_row_items rows d :
  fold_left tables_row rows d = add_items (flat_map row_items rows) d.
Proof.
  revert d. induction rows as [|r rs IH]; intros d; cbn [fold_left flat_map].
  - now rewrite add_items_nil.
  - now rewrite IH, tables_row_items, add_items_add.
Qed.

Lemma parse_tables_items tables d :
  _parse_tables tables d = add_items (flat_map row_items (concat tables)) d.
Proof.
  unfold _parse_tables. revert d.
  induction tables as [|t ts IH]; intros d; cbn [fold_left concat].
  - now rewrite add_items_nil.
  - now rewrite IH, fold_tables_row_items, add_items_add, flat_map_app.
Qed.

Lemma float_gt0_ge0 f : float_gt0 f = true -> float_ge0 f = true.
Proof.
  unfold float_gt0, float_ge0, SFltb, SFleb.
  destruct (SFcompare _ f) as [[]|]; congruence.
Qed.

Lemma gt0_nonneg v : gt0 v = true -> nonneg v = true.
Proof.
  destruct v as [z|f|s]; cbn [gt0 nonneg].
  - intros H. apply Z.ltb_lt in H. apply Z.leb_le. lia.
  - apply float_gt0_ge0.
  - discriminate.
Qed.

Lemma row_items_ok r : forallb item_ok (row_items r) = true.
Proof.
  unfold row_items. destruct (py_int _) as [n|e]; [|reflexivity].
  destruct (row_condition r) eqn:Hc; [|reflexivity].
  cbn [forallb]. rewrite andb_true_r.
  unfold row_condition, stated_row_condition in Hc.
  apply andb_prop in Hc. destruct Hc as [Hc _].
  apply andb_prop in Hc. destruct Hc as [_ Hgt].
  unfold item_ok. rewrite row_item_type, row_item_total.
  change (get "description" (row_item r n))
    with (Some (VStr (strip (cell_str (cell_at r 1))))).
  rewrite (gt0_nonneg _ Hgt). reflexivity.
Qed.

(** X1. [_parse_tables] only appends: it adds, after the items already
    there, the items of the qualifying rows in table and row order, at most
    one per row, each a [table_item] with a positive amount, and it leaves
    every other part of the data alone. *)
Theorem parse_tables_appends tables d :
  _parse_tables tables d = add_items (flat_map row_items (concat tables)) d /\
  (length (flat_map row_items (concat tables)) <= length (concat tables))%nat /\
  forallb (fun item =>
             match get "type" item, get "total_amount" item with
             | Some (VStr ty), Some amount =>
               str_eqb ty (u "table_item") && gt0 amount
             | _, _ => false
             end)
          (flat_map row_items (concat tables)) = true.
Proof.
  split; [apply parse_tables_items|].
  generalize (concat tables). intros rows. split.
  - induction rows as [|r rs IH]; cbn [flat_map length]; [lia|].
    rewrite length_app. unfold row_items at 1.
    destruct (py_int _); [destruct (row_condition r)|]; cbn [length]; lia.
  - induction rows as [|r rs IH]; cbn [flat_map]; [reflexivity|].
    rewrite forallb_app, IH, andb_true_r.
    unfold row_items. destruct (py_int _) as [n|e]; [|reflexivity].
    destruct (row_condition r) eqn:Hc; [|reflexivity].
    cbn [forallb]. rewrite row_item_type, row_item_total, andb_true_r.
    unfold row_condition, stated_row_condition in Hc.
    apply andb_prop in Hc. destruct Hc as [Hc _].
    apply andb_prop in Hc. destruct Hc as [_ Hgt].
    now rewrite Hgt.
Qed.

End MoreTables.

(** ** Further properties: text mode and the pipeline *)

Section MoreText.
Import Py Re InvoiceParser Spec More.
Local Open Scope string_scope.

Lemma float_comma_cases s :
  float_comma s = Raise ValueError \/
  exists m k, float_comma s = Ok (float_of_decimal m k).
Proof. apply py_float_cases. Qed.

(** The only exception a line can raise is a [ValueError]. *)
Lemma line_item_raise raw e : line_item raw = Raise e -> e = ValueError.
Proof.
  unfold line_item.
  destruct (contains m_storage _).
  { destruct (search re_storage _) as [m|]; [|discriminate].
    destruct (float_comma_cases (group m 3)) as [E | [? [? E]]]; rewrite E;
      cbn [bind]; [congruence|].
    destruct (float_comma_cases (group m 4)) as [E' | [? [? E']]]; rewrite E';
      cbn [bind]; [congruence|].
    destruct (float_comma_cases (group m 5)) as [E'' | [? [? E'']]];
      rewrite E''; cbn [bind]; [congruence | discriminate]. }
  destruct (contains m_reception _).
  { destruct (search re_reception _) as [m|]; [|discriminate].
    destruct (py_int_cases (group m 1)) as [E | [? E]]; rewrite E;
      cbn [bind]; [congruence|].
    destruct (float_comma_cases (group m 2)) as [E' | [? [? E']]]; rewrite E';
      cbn [bind]; [congruence|].
    destruct (float_comma_cases (group m 3)) as [E'' | [? [? E'']]];
      rewrite E''; cbn [bind]; [congruence | discriminate]. }
  destruct (contains m_shipment _).
  { destruct (search re_shipment _); discriminate. }
  destruct (match_ re_reception_op_start _); [|discriminate].
  destruct (search re_reception_op _); discriminate.
Qed.

Lemma line_items_step_items d raw :
  line_items_step d raw =
  if converts_line raw then Ok (add_items (text_items raw) d)
  else Raise ValueError.
Proof.
  unfold line_items_step, converts_line, text_items.
  destruct (line_item raw) as [[item|]|e] eqn:E; cbn [bind].
  - reflexivity.
  - now rewrite add_items_nil.
  - now rewrite (line_item_raise _ E).
Qed.

Lemma for_each_line_items lines d :
  for_each line_items_step lines d =
  if forallb converts_line lines
  then Ok (add_items (flat_map text_items lines) d)
  else Raise ValueError.
Proof.
  revert d. induction lines as [|raw t IH]; intros d;
    cbn [for_each forallb flat_map].
  - now rewrite add_items_nil.
  - rewrite line_items_step_items.
    destruct (converts_line raw); cbn [bind andb]; [|reflexivity].
    rewrite IH. destruct (forallb converts_line t); [|reflexivity].
    now rewrite add_items_add.
Qed.

Lemma line_items_step_on_items d raw :
  line_items_step_on d raw =
  if converts_line raw then (add_items (text_items raw) d, None)
  else (d, Some ValueError).
Proof.
  unfold line_items_step_on, converts_line, text_items.
  destruct (line_item raw) as [[item|]|e] eqn:E.
  - reflexivity.
  - now rewrite add_items_nil.
  - now rewrite (line_item_raise _ E).
Qed.

Lemma for_each_on_line_items lines d :
  for_each_on line_items_step_on lines d =
  (add_items (flat_map text_items (converting lines)) d,
   if forallb converts_line lines then None else Some ValueError).
Proof.
  revert d. induction lines as [|raw t IH]; intros d;
    cbn [for_each_on forallb flat_map converting].
  - now rewrite add_items_nil.
  - rewrite line_items_step_on_items.
    destruct (converts_line raw); cbn [andb flat_map].
    + now rewrite IH, add_items_add.
    + now rewrite add_items_nil.
Qed.

Lemma converting_all lines :
  forallb converts_line lines = true -> converting lines = lines.
Proof.
  induction lines as [|raw t IH]; cbn [forallb converting]; [reflexivity|].
  intros H. apply andb_prop in H. destruct H as [H1 H2].
  now rewrite H1, IH.
Qed.

(** X2. [_parse_line_items] goes through the lines in order and appends
    the item of each line, after the items already there, until a line
    whose captured numbers do not convert.  If there is no such line it
    returns; otherwise it raises a [ValueError], and the items of the
    lines before that line stay appended to the data.  Nothing but the
    line items is written. *)
Theorem parse_line_items_outcome text d :
  _parse_line_items_on text d =
  (add_items (flat_map text_items (converting (split c_newline text))) d,
   if forallb converts_line (split c_newline text)
   then None else Some ValueError) /\
  _parse_line_items text d = outcome (_parse_line_items_on text d).
Proof.
  unfold _parse_line_items_on, _parse_line_items.
  rewrite for_each_on_line_items, for_each_line_items. split; [reflexivity|].
  destruct (forallb converts_line _) eqn:E; cbn [outcome]; [|reflexivity].
  now rewrite converting_all.
Qed.

(** *** Totals: success does not depend on the data *)

Lemma totals_step_converts d raw :
  if converts_totals raw
  then exists d', totals_step d raw = Ok d'
  else totals_step d raw = Raise ValueError.
Proof.
  unfold converts_totals, totals_step.
  destruct (contains m_total _).
  { destruct (search re_total _) as [m|]; [|eauto].
    destruct (float_comma_cases (group m 1)) as [E | [? [? E]]]; rewrite E;
      cbn [bind]; eauto. }
  destruct (contains m_vat _).
  { destruct (search re_vat _) as [m|]; [|eauto].
    destruct (float_comma_cases (group m 1)) as [E | [? [? E]]]; rewrite E;
      cbn [bind]; eauto. }
  destruct (contains m_count _).
  { destruct (search re_count _) as [m|]; [|eauto].
    destruct (py_int_cases (group m 1)) as [E | [? E]]; rewrite E;
      cbn [bind]; [reflexivity|].
    destruct (float_comma_cases (group m 2)) as [E' | [? [? E']]]; rewrite E';
      cbn [bind]; eauto. }
  eauto.
Qed.

Lemma for_each_totals_converts lines d :
  if forallb converts_totals lines
  then exists d', for_each totals_step lines d = Ok d'
  else for_each totals_step lines d = Raise ValueError.
Proof.
  revert d. induction lines as [|raw t IH]; intros d;
    cbn [for_each forallb].
  - eauto.
  - pose proof (totals_step_converts d raw) as H.
    destruct (converts_totals raw); cbn [andb].
    + destruct H as [d1 H]. rewrite H. cbn [bind]. apply IH.
    + now rewrite H.
Qed.

(** *** The loop over the pages *)

Lemma parse_tables_app t1 t2 d :
  _parse_tables (t1 ++ t2) d = _parse_tables t2 (_parse_tables t1 d).
Proof. unfold _parse_tables. apply fold_left_app. Qed.

Lemma page_step_fused (text : list char) d p :
  page_step (text, d) p =
  ((text ++ page_text p)%list, _parse_tables (extract_tables p) d).
Proof.
  unfold page_step, page_text.
  destruct (extract_tables p) as [|tb tbs];
    (destruct (extract_text p) as [t|]; [destruct (truthy t)|]);
    rewrite ?app_nil_r; reflexivity.
Qed.

Lemma pages_fold pages (text : list char) d :
  fold_left page_step pages (text, d) =
  ((text ++ full_text pages)%list, _parse_tables (all_tables pages) d).
Proof.
  revert text d. induction pages as [|p ps IH]; intros text d;
    cbn [fold_left full_text all_tables flat_map].
  - now rewrite app_nil_r.
  - rewrite page_step_fused, IH, parse_tables_app, app_assoc. reflexivity.
Qed.

(** X3. The loop over the pages only gathers: a document is parsed as if
    all its tables came first, in page order, and its text were the texts
    of its pages one after the other, each closed by a newline, pages
    without text left out. *)
Theorem parse_pages_fused now pages :
  parse now pages =
  text_stages (full_text pages)
              (_parse_tables (all_tables pages) (__init__ now)).
Proof.
  unfold parse, text_stages.
  rewrite (pages_fold pages [] (__init__ now)). reflexivity.
Qed.

End MoreText.

(** ** Further properties: what [parse] returns *)

Section MoreParse.
Import Py Re InvoiceParser Spec More.
Local Open Scope string_scope.

Lemma line_items_add_items items d :
  line_items (add_items items d) = (line_items d ++ items)%list.
Proof. reflexivity. Qed.

(** The line items after the three text stages. *)
Lemma text_stages_items text d0 d :
  text_stages text d0 = Ok d ->
  line_items d =
  (line_items d0 ++ flat_map text_items (split c_newline text))%list.
Proof.
  unfold text_stages, _parse_line_items. rewrite for_each_line_items.
  destruct (forallb converts_line _); [|discriminate].
  cbn [bind]. intros H. apply parse_totals_items in H.
  now rewrite H, line_items_add_items, parse_header_info_items.
Qed.

Lemma text_stages_converts text d0 :
  if forallb converts_line (split c_newline text) &&
     forallb converts_totals (split c_newline text)
  then exists d, text_stages text d0 = Ok d
  else text_stages text d0 = Raise ValueError.
Proof.
  unfold text_stages, _parse_line_items, _parse_totals.
  rewrite for_each_line_items.
  destruct (forallb converts_line _); cbn [bind andb]; [|reflexivity].
  apply for_each_totals_converts.
Qed.

(** X4. [parse] returns exactly when every number captured from the text,
    by the line patterns and by the totals patterns, converts; the line
    items are then those of the table rows, in page order, followed by
    those of the lines of text, in line order.  Otherwise it raises, and
    what it raises is a [ValueError]. *)
Theorem parse_outcome now pages :
  (forallb converts_line (split c_newline (full_text pages)) &&
   forallb converts_totals (split c_newline (full_text pages)) = true /\
   exists d,
     parse now pages = Ok d /\
     line_items d =
     (flat_map row_items (concat (all_tables pages)) ++
      flat_map text_items (split c_newline (full_text pages)))%list) \/
  (forallb converts_line (split c_newline (full_text pages)) &&
   forallb converts_totals (split c_newline (full_text pages)) = false /\
   parse now pages = Raise ValueError).
Proof.
  unfold parse. rewrite (pages_fold pages [] (__init__ now)).
  cbn [app]. fold (text_stages (full_text pages)
                     (_parse_tables (all_tables pages) (__init__ now))).
  pose proof (text_stages_converts (full_text pages)
                (_parse_tables (all_tables pages) (__init__ now))) as H.
  destruct (_ && _).
  - left. split; [reflexivity|]. destruct H as [d H]. exists d.
    split; [assumption|].
    rewrite (text_stages_items _ _ H), parse_tables_items.
    reflexivity.
  - right. split; [reflexivity | assumption].
Qed.

(** *** Every item is well formed *)

Lemma float_comma_nonneg s x : float_comma s = Ok x -> float_ge0 x = true.
Proof.
  destruct (float_comma_cases s) as [E | [m [k E]]]; rewrite E.
  - discriminate.
  - intros H. injection H as <-. apply float_of_decimal_ge0.
Qed.

Lemma text_items_ok raw : forallb item_ok (text_items raw) = true.
Proof.
  unfold text_items, line_item.
  destruct (contains m_storage _).
  { destruct (search re_storage _) as [m|]; [|reflexivity].
    destruct (float_comma (group m 3)); [|reflexivity].
    destruct (float_comma (group m 4)); [|reflexivity].
    destruct (float_comma (group m 5)) as [x|] eqn:E; [|reflexivity].
    cbn [bind forallb]. unfold item_ok. cbn [get find fst snd option_map
      String.eqb Ascii.eqb Bool.eqb nonneg].
    now rewrite (float_comma_nonneg _ E). }
  destruct (contains m_reception _).
  { destruct (search re_reception _) as [m|]; [|reflexivity].
    destruct (py_int (group m 1)); [|reflexivity].
    destruct (float_comma (group m 2)); [|reflexivity].
    destruct (float_comma (group m 3)) as [x|] eqn:E; [|reflexivity].
    cbn [bind forallb]. unfold item_ok. cbn [get find fst snd option_map
      String.eqb Ascii.eqb Bool.eqb nonneg].
    now rewrite (float_comma_nonneg _ E). }
  destruct (contains m_shipment _).
  { destruct (search re_shipment _); reflexivity. }
  destruct (match_ re_reception_op_start _); [|reflexivity].
  destruct (search re_reception_op _); reflexivity.
Qed.

Lemma flat_map_forallb {A B} (p : B -> bool) (f : A -> list B) l :
  (forall x, forallb p (f x) = true) -> forallb p (flat_map f l) = true.
Proof.
  intros H. induction l as [|x t IH]; cbn [flat_map]; [reflexivity|].
  now rewrite forallb_app, H, IH.
Qed.

(** X5. Whatever [parse] returns, each of its line items has one of the
    five kinds, a description that is a string, and an amount that is a
    number and not negative. *)
Theorem parse_items_well_formed now pages d :
  parse now pages = Ok d -> forallb item_ok (line_items d) = true.
Proof.
  unfold parse. rewrite (pages_fold pages [] (__init__ now)).
  cbn [app]. fold (text_stages (full_text pages)
                     (_parse_tables (all_tables pages) (__init__ now))).
  intros H. rewrite (text_stages_items _ _ H), parse_tables_items.
  cbn [add_items line_items __init__ app].
  rewrite forallb_app.
  rewrite (flat_map_forallb item_ok row_items _ row_items_ok).
  now rewrite (flat_map_forallb item_ok text_items _ text_items_ok).
Qed.

Lemma parse_items_well_formed_witness :
  exists d,
    parse [] (one_page storage_line [[example_row]]) = Ok d /\
    forallb item_ok (line_items d) = true.
Proof.
  destruct (parse [] (one_page storage_line [[example_row]])) as [d|e] eqn:E.
  - exists d. split; [reflexivity|].
    exact (@parse_items_well_formed [] _ d E).
  - exfalso. vm_compute in E. discriminate.
Defined.

(** *** Text without markers *)

Lemma quiet_header raw d : quiet (strip raw) = true -> header_line raw d = d.
Proof.
  unfold quiet, header_line. intros H.
  repeat (apply andb_prop in H; destruct H as [H ?]).
  repeat match goal with
         | Hn : negb ?b = true |- _ => apply negb_true_iff in Hn; rewrite ?Hn
         end.
  reflexivity.
Qed.

Lemma quiet_line_item raw : quiet (strip raw) = true -> line_item raw = Ok None.
Proof.
  unfold quiet, line_item. intros H.
  repeat (apply andb_prop in H; destruct H as [H ?]).
  repeat match goal with
         | Hn : negb ?b = true |- _ => apply negb_true_iff in Hn; rewrite ?Hn
         end.
  destruct (match_ re_reception_op_start _); [discriminate | reflexivity].
Qed.

Lemma quiet_totals raw d : quiet (strip raw) = true -> totals_step d raw = Ok d.
Proof.
  unfold quiet, totals_step. intros H.
  repeat (apply andb_prop in H; destruct H as [H ?]).
  repeat match goal with
         | Hn : negb ?b = true |- _ => apply negb_true_iff in Hn; rewrite ?Hn
         end.
  reflexivity.
Qed.

(** X6. A document none of whose lines holds a marker is parsed without an
    exception, and its text contributes nothing: what comes back is the
    fresh data with the items of the tables, if any. *)
Theorem parse_quiet now pages :
  forallb quiet (lines_of (full_text pages)) = true ->
  parse now pages = Ok (_parse_tables (all_tables pages) (__init__ now)).
Proof.
  unfold parse. rewrite (pages_fold pages [] (__init__ now)). cbn [app].
  unfold lines_of, _parse_header_info, _parse_line_items, _parse_totals.
  generalize (_parse_tables (all_tables pages) (__init__ now)).
  generalize (split c_newline (full_text pages)). intros lines d Hq.
  rewrite forallb_forall in Hq.
  assert (Hall : forall raw, In raw lines -> quiet (strip raw) = true).
  { intros raw Hin. apply Hq. now apply in_map. }
  clear Hq.
  assert (Hh : forall d0,
             fold_left (fun d1 line => header_line line d1) lines d0 = d0).
  { induction lines as [|raw t IH]; intros d0; cbn [fold_left];
      [reflexivity|].
    rewrite quiet_header by (apply Hall; now left).
    apply IH. intros r Hr. apply Hall. now right. }
  assert (Hl : forall d0, for_each line_items_step lines d0 = Ok d0).
  { clear Hh. induction lines as [|raw t IH]; intros d0;
      cbn [for_each]; [reflexivity|].
    unfold line_items_step at 1.
    rewrite quiet_line_item by (apply Hall; now left). cbn [bind].
    apply IH. intros r Hr. apply Hall. now right. }
  assert (Ht : forall d0, for_each totals_step lines d0 = Ok d0).
  { clear Hh Hl. induction lines as [|raw t IH]; intros d0;
      cbn [for_each]; [reflexivity|].
    rewrite quiet_totals by (apply Hall; now left). cbn [bind].
    apply IH. intros r Hr. apply Hall. now right. }
  rewrite Hh, Hl. cbn [bind]. apply Ht.
Qed.

Lemma parse_quiet_witness :
  forallb quiet
    (lines_of (full_text [mk_page (Some (u "Счет на оплату № 7")) [];
                          mk_page None []])) = true /\
  parse [] [mk_page (Some (u "Счет на оплату № 7")) []; mk_page None []] =
    Ok (__init__ []).
Proof.
  split; [reflexivity|].
  exact (@parse_quiet [] [mk_page (Some (u "Счет на оплату № 7")) [];
                          mk_page None []] eq_refl).
Defined.

End MoreParse.

(** ** Further properties: the stages line by line *)

Section MoreStages.
Import Py Re InvoiceParser Spec More.
Local Open Scope string_scope.

Lemma split_nonempty sep s : split sep s <> [].
Proof.
  destruct s as [|c t]; cbn [split]; [discriminate|].
  destruct (c =? sep)%N; [discriminate|].
  destruct (split sep t); discriminate.
Qed.

Lemma split_app sep a b :
  split sep (a ++ sep :: b)%list = (split sep a ++ split sep b)%list.
Proof.
  induction a as [|x t IH]; cbn [app split].
  - now rewrite N.eqb_refl.
  - destruct (x =? sep)%N.
    + now rewrite IH.
    + rewrite IH. pose proof (split_nonempty sep t) as Hne.
      destruct (split sep t); [congruence | reflexivity].
Qed.

Lemma for_each_app {A S} (body : S -> A -> result S) l1 l2 st :
  for_each body (l1 ++ l2)%list st = bind (for_each body l1 st) (for_each body l2).
Proof.
  revert st. induction l1 as [|x t IH]; intros st; cbn [app for_each bind].
  - reflexivity.
  - destruct (body st x); cbn [bind]; [apply IH | reflexivity].
Qed.

(** X7. The three stages that read the text work line by line: on two
    texts joined by a newline each of them does what it does on the first
    text and then, on the outcome, what it does on the second, an
    exception on the first text ending the stage. *)
Theorem stages_line_by_line t1 t2 d :
  _parse_header_info (t1 ++ c_newline :: t2)%list d =
    _parse_header_info t2 (_parse_header_info t1 d) /\
  _parse_line_items (t1 ++ c_newline :: t2)%list d =
    bind (_parse_line_items t1 d) (_parse_line_items t2) /\
  _parse_totals (t1 ++ c_newline :: t2)%list d =
    bind (_parse_totals t1 d) (_parse_totals t2).
Proof.
  unfold _parse_header_info, _parse_line_items, _parse_totals.
  rewrite split_app. split; [apply fold_left_app|].
  split; apply for_each_app.
Qed.

(** *** The header: the last matching line decides *)

Lemma header_line_invoice raw d :
  invoice_info (header_line raw d) =
  match invoice_match (strip raw) with
  | Some m =>
    set "date" (VStr (group m 2))
      (set "number" (VStr (group m 1)) (invoice_info d))
  | None => invoice_info d
  end.
Proof.
  unfold header_line, invoice_match.
  destruct (contains m_invoice _); [destruct (search re_invoice _)|];
    (destruct (contains m_company _); [destruct (search re_company _)|]);
    (destruct (contains m_customer _);
     [destruct (search re_customer _); destruct (search re_address _)|]);
    reflexivity.
Qed.

Lemma fold_header_invoice_kept lines d :
  forallb (fun l => negb (matched (invoice_match (strip l)))) lines = true ->
  invoice_info (fold_left (fun d0 line => header_line line d0) lines d) =
  invoice_info d.
Proof.
  revert d. induction lines as [|raw t IH]; intros d; cbn [fold_left forallb];
    [reflexivity|].
  intros H. apply andb_prop in H. destruct H as [H1 H2].
  rewrite (IH _ H2), header_line_invoice.
  destruct (invoice_match (strip raw)); [discriminate | reflexivity].
Qed.

(** X8. Of the lines that hold the invoice marker and match its pattern,
    the last one decides: the number and the date in the result are the
    two captures of that line, whatever the earlier lines set. *)
Theorem header_last_invoice_line text before raw after m d :
  split c_newline text = (before ++ raw :: after)%list ->
  invoice_match (strip raw) = Some m ->
  forallb (fun l => negb (matched (invoice_match (strip l)))) after = true ->
  get "number" (invoice_info (_parse_header_info text d)) =
    Some (VStr (group m 1)) /\
  get "date" (invoice_info (_parse_header_info text d)) =
    Some (VStr (group m 2)).
Proof.
  intros Hsplit Hm Hafter. unfold _parse_header_info.
  rewrite Hsplit, fold_left_app. cbn [fold_left].
  rewrite (fold_header_invoice_kept _ _ Hafter), header_line_invoice, Hm.
  split.
  - rewrite get_set_other by reflexivity. apply get_set_same.
  - apply get_set_same.
Qed.

Lemma header_last_invoice_line_witness :
  split c_newline
    (u "Детализация к счету № 1 от 01.01.2024" ++ [c_newline] ++ invoice_line)%list
  = ([u "Детализация к счету № 1 от 01.01.2024"] ++ invoice_line :: [])%list /\
  matched (invoice_match (strip invoice_line)) = true /\
  get "number"
    (invoice_info
       (_parse_header_info
          (u "Детализация к счету № 1 от 01.01.2024" ++ [c_newline] ++
           invoice_line)%list (__init__ []))) = Some (VStr (u "12345-1")).
Proof.
  split; [reflexivity|]. split; [reflexivity|].
  destruct (invoice_match (strip invoice_line)) as [m|] eqn:E.
  - rewrite (proj1 (@header_last_invoice_line
                      (u "Детализация к счету № 1 от 01.01.2024" ++
                       [c_newline] ++ invoice_line)%list
                      [u "Детализация к счету № 1 от 01.01.2024"]
                      invoice_line [] m (__init__ []) eq_refl E eq_refl)).
    vm_compute in E. injection E as <-. reflexivity.
  - exfalso. vm_compute in E. discriminate.
Defined.

(** *** What a stage leaves alone *)

Lemma header_line_frame raw d : same_but_header d (header_line raw d).
Proof.
  unfold header_line, same_but_header.
  destruct (contains m_invoice _); [destruct (search re_invoice _)|];
    (destruct (contains m_company _); [destruct (search re_company _)|]);
    (destruct (contains m_customer _);
     [destruct (search re_customer _); destruct (search re_address _)|]);
    repeat split.
Qed.

Lemma totals_step_frame d raw d' :
  totals_step d raw = Ok d' -> same_but_totals d d'.
Proof.
  unfold totals_step, same_but_totals.
  destruct (contains m_total _).
  { destruct (search re_total _); [destruct (float_comma _)|];
      cbn [bind]; intros H; try discriminate; injection H as <-;
      repeat split. }
  destruct (contains m_vat _).
  { destruct (search re_vat _); [destruct (float_comma _)|];
      cbn [bind]; intros H; try discriminate; injection H as <-;
      repeat split. }
  destruct (contains m_count _).
  { destruct (search re_count _);
      [destruct (py_int _); [destruct (float_comma _)|]|];
      cbn [bind]; intros H; try discriminate; injection H as <-;
      repeat split. }
  intros H. injection H as <-. repeat split.
Qed.

(** X9. The header stage changes the three header dictionaries only, and
    the totals stage the totals only: line items, the other dictionaries
    and the timestamp come out as they went in. *)
Theorem stages_leave_the_rest text d :
  same_but_header d (_parse_header_info text d) /\
  match _parse_totals text d with
  | Ok d' => same_but_totals d d'
  | Raise _ => True
  end.
Proof.
  split.
  - unfold _parse_header_info. generalize (split c_newline text).
    intros lines. revert d.
    induction lines as [|raw t IH]; intros d; cbn [fold_left].
    + repeat split.
    + destruct (IH (header_line raw d)) as (H1 & H2 & H3).
      destruct (header_line_frame raw d) as (F1 & F2 & F3).
      unfold same_but_header. rewrite H1, H2, H3. auto.
  - unfold _parse_totals. generalize (split c_newline text).
    intros lines. revert d.
    induction lines as [|raw t IH]; intros d; cbn [for_each].
    + repeat split.
    + destruct (totals_step d raw) as [d1|e] eqn:E; cbn [bind]; [|exact I].
      specialize (IH d1). destruct (for_each totals_step t d1); [|exact I].
      apply totals_step_frame in E.
      destruct IH as (H1 & H2 & H3 & H4 & H5).
      destruct E as (E1 & E2 & E3 & E4 & E5).
      unfold same_but_totals. rewrite H1, H2, H3, H4, H5. auto.
Qed.

End MoreStages.

(** ** Further properties: conversions *)

Section MoreNumbers.
Import Py Re InvoiceParser Spec More.

Lemma number_char_eq c : number_char c = is_decimal c || (c =? c_dot)%N.
Proof.
  unfold number_char, set_matches. cbn [existsb citem_matches xorb].
  now rewrite orb_false_r.
Qed.

Lemma dot_not_decimal c : (c =? c_dot)%N = true -> is_decimal c = false.
Proof. intros H. apply N.eqb_eq in H. now subst. Qed.

Lemma decimal_no_dots s :
  forallb is_decimal s = forallb number_char s && (dots s <=? 0)%nat.
Proof.
  unfold dots. induction s as [|c t IH]; [reflexivity|].
  cbn [forallb filter]. rewrite number_char_eq, IH.
  destruct (c =? c_dot)%N eqn:E.
  - rewrite (dot_not_decimal _ E). cbn [length Nat.leb orb andb].
    now rewrite andb_false_r.
  - now rewrite orb_false_r, andb_assoc.
Qed.

Lemma break_at_digits t :
  forallb is_decimal (fst (break_at c_dot t)) &&
  forallb is_decimal (match snd (break_at c_dot t) with
                      | Some f => f
                      | None => []
                      end) =
  forallb number_char t && (dots t <=? 1)%nat.
Proof.
  induction t as [|c t' IH]; [reflexivity|].
  cbn [break_at forallb]. unfold dots. cbn [filter].
  rewrite number_char_eq.
  destruct (c =? c_dot)%N eqn:E.
  - cbn [fst snd forallb andb length]. rewrite orb_true_r. cbn [andb].
    rewrite decimal_no_dots. reflexivity.
  - destruct (break_at c_dot t') as [a b]. cbn [fst snd forallb] in *.
    rewrite orb_false_r. change (length (filter _ t')) with (dots t').
    rewrite <- !andb_assoc. now rewrite IH.
Qed.

Lemma decimal_truthy s :
  forallb is_decimal s = true -> existsb is_decimal s = truthy s.
Proof.
  destruct s as [|c t]; [reflexivity|]. cbn [forallb existsb truthy].
  intros H. apply andb_prop in H. destruct H as [H _]. now rewrite H.
Qed.

Lemma truthy_app (a b : str) : truthy (a ++ b) = truthy a || truthy b.
Proof. destruct a; [reflexivity | reflexivity]. Qed.

(** [float] accepts exactly the numerals. *)
Lemma py_float_numeral t :
  match py_float t with
  | Ok f => numeral t = true /\ float_ge0 f = true
  | Raise e => numeral t = false /\ e = ValueError
  end.
Proof.
  unfold py_float, numeral.
  pose proof (break_at_digits t) as Hd.
  destruct (break_at c_dot t) as [a b] eqn:E. cbn [fst snd] in Hd.
  apply break_at_app in E.
  assert (Hgen : forall fp,
             forallb is_decimal a && forallb is_decimal fp =
               forallb number_char t && (dots t <=? 1)%nat ->
             existsb is_decimal t = existsb is_decimal a || existsb is_decimal fp ->
             match
               (if forallb is_decimal a && forallb is_decimal fp &&
                   truthy (a ++ fp)
                then Ok (float_of_decimal (digits_value (a ++ fp)) (length fp))
                else Raise ValueError)
             with
             | Ok f =>
               forallb number_char t && (dots t <=? 1)%nat &&
               existsb is_decimal t = true /\ float_ge0 f = true
             | Raise e =>
               forallb number_char t && (dots t <=? 1)%nat &&
               existsb is_decimal t = false /\ e = ValueError
             end).
  { intros fp H1 H2. rewrite <- H1, H2.
    destruct (forallb is_decimal a) eqn:Ha; cbn [andb];
      [|split; reflexivity].
    destruct (forallb is_decimal fp) eqn:Hf; cbn [andb];
      [|split; reflexivity].
    rewrite (decimal_truthy _ Ha), (decimal_truthy _ Hf), <- truthy_app.
    destruct (truthy (a ++ fp)).
    - split; [reflexivity | apply float_of_decimal_ge0].
    - split; reflexivity. }
  destruct b as [f|]; apply Hgen; try exact Hd; subst t.
  - rewrite existsb_app. cbn [existsb].
    replace (is_decimal c_dot) with false by reflexivity. reflexivity.
  - now rewrite app_nil_r, orb_false_r.
Qed.

Lemma amount_char_eq c :
  amount_char c = is_decimal c || (c =? c_dot)%N || (c =? c_comma)%N.
Proof.
  unfold amount_char, set_matches. cbn [existsb citem_matches xorb].
  now rewrite orb_false_r, orb_assoc.
Qed.

Lemma replace_amount s :
  forallb number_char (replace c_comma c_dot s) = forallb amount_char s /\
  dots (replace c_comma c_dot s) = separators s /\
  existsb is_decimal (replace c_comma c_dot s) = existsb is_decimal s.
Proof.
  unfold replace, dots, separators.
  induction s as [|c t IH]; [repeat split|].
  destruct IH as (I1 & I2 & I3).
  cbn [map forallb filter existsb]. rewrite I1, I3.
  rewrite number_char_eq, amount_char_eq. unfold separator at 1.
  destruct (c =? c_comma)%N eqn:Ec.
  - apply N.eqb_eq in Ec. subst c.
    rewrite N.eqb_refl. cbn [orb length].
    replace (is_decimal c_comma) with false by reflexivity.
    replace (is_decimal c_dot) with false by reflexivity.
    rewrite orb_true_r. cbn [orb andb length]. rewrite I2. repeat split.
  - rewrite !orb_false_r.
    destruct (c =? c_dot)%N; cbn [orb length]; rewrite ?I2; repeat split.
Qed.

(** X10. An amount captured from the text (digits, dots and commas)
    converts exactly when it has at most one separator, dot or comma, and
    has a digit; what comes out is then not negative.  Any other capture
    (two separators, as in a thousands dot with a decimal comma, or
    separators only) makes the conversion raise a [ValueError]. *)
Theorem float_comma_outcome s :
  forallb amount_char s = true ->
  ((separators s <=? 1)%nat && existsb is_decimal s = true /\
   exists f, float_comma s = Ok f /\ float_ge0 f = true) \/
  ((separators s <=? 1)%nat && existsb is_decimal s = false /\
   float_comma s = Raise ValueError).
Proof.
  intros Hs. unfold float_comma.
  destruct (replace_amount s) as (H1 & H2 & H3).
  pose proof (py_float_numeral (replace c_comma c_dot s)) as H.
  unfold numeral in H. rewrite H1, H2, H3, Hs in H. cbn [andb] in H.
  destruct (py_float _) as [f|e].
  - left. destruct H as [Hn Hf]. split; [assumption|]. eauto.
  - right. destruct H as [Hn ->]. split; [assumption | reflexivity].
Qed.

Lemma float_comma_outcome_witness :
  forallb amount_char (u "1.234,56") = true /\
  float_comma (u "1.234,56") = Raise ValueError.
Proof.
  split; [reflexivity|].
  destruct (@float_comma_outcome (u "1.234,56") eq_refl) as [[H _]|[_ H]].
  - vm_compute in H. discriminate H.
  - exact H.
Defined.

(** *** Text before the number *)

Lemma junk_not_kept_or_not_number c :
  junk c = true -> number_char (if (c =? c_comma)%N then c_dot else c) = false.
Proof.
  unfold junk, separator. intros H. apply andb_prop in H.
  destruct H as [H1 H2]. apply negb_true_iff in H1, H2.
  apply orb_false_iff in H2. destruct H2 as [H2 H3].
  rewrite H3, number_char_eq, H1, H2. reflexivity.
Qed.

Lemma cleaned_app a b : cleaned (a ++ b) = (cleaned a ++ cleaned b)%list.
Proof. unfold cleaned. now rewrite filter_app, replace_app. Qed.

Lemma cleaned_junk p :
  forallb junk p = true ->
  forallb (fun c => negb (number_char c)) (cleaned p) = true.
Proof.
  unfold cleaned, replace. induction p as [|c t IH]; [reflexivity|].
  cbn [forallb filter]. intros H. apply andb_prop in H.
  destruct H as [Hc Ht]. destruct (keep c); [|now apply IH].
  cbn [map forallb]. rewrite (junk_not_kept_or_not_number _ Hc).
  now rewrite (IH Ht).
Qed.

Lemma drop_while_app_all p (a b : str) :
  forallb p a = true -> drop_while p (a ++ b) = drop_while p b.
Proof.
  induction a as [|c t IH]; [reflexivity|]. cbn [forallb app drop_while].
  intros H. apply andb_prop in H. destruct H as [H1 H2].
  now rewrite H1, IH.
Qed.

Lemma search_number_after_junk q t :
  forallb (fun c => negb (number_char c)) q = true ->
  truthy t = true -> forallb number_char t = true ->
  search re_number (q ++ t) = Some [(0%nat, t)].
Proof.
  intros Hq Ht Hall. unfold re_number. rewrite search_class.
  change (set_matches false [CDecimal; CChar (ch ".")]) with number_char.
  rewrite (drop_while_app_all _ _ _ Hq).
  destruct t as [|c t']; [discriminate|].
  cbn [forallb] in Hall. apply andb_prop in Hall. destruct Hall as [Hc Hall].
  cbn [drop_while]. rewrite Hc. cbn [negb].
  rewrite take_while_all; [reflexivity|].
  cbn [forallb]. now rewrite Hc, Hall.
Qed.

(** X11. Text in front of a number is skipped as long as it holds no
    digit, dot or comma: a minus sign, a label or a currency code before a
    well-formed Russian number does not change what the normalizer
    returns, so that a negative amount comes out positive. *)
Theorem parse_number_skips_prefix p sep groups frac currency :
  forallb junk p = true ->
  is_space sep = true ->
  groups <> [] ->
  forallb digit_run groups = true ->
  forallb is_decimal (frac_digits frac) = true ->
  _parse_number (AStr (p ++ ru_number sep groups frac currency)) =
  Ok (VFloat (decimal_float (concat groups) (frac_digits frac))).
Proof.
  intros Hp Hsep Hne Hg Hf.
  pose proof (concat_decimal _ Hg) as Hdec.
  pose proof (concat_truthy Hne Hg) as Htr.
  rewrite parse_number_unfold. cbn [str_of_arg bind].
  assert (Hfalsy : falsy (AStr (p ++ ru_number sep groups frac currency))
                   = false).
  { cbn [falsy]. rewrite truthy_app. unfold ru_number.
    rewrite truthy_app.
    assert (Hj : truthy (join sep groups) = true).
    { destruct groups as [|g rest]; [congruence|].
      cbn [forallb] in Hg. apply andb_prop in Hg. destruct Hg as [Hg0 _].
      unfold digit_run in Hg0. apply andb_prop in Hg0.
      destruct g as [|c t]; [destruct Hg0; discriminate|].
      destruct rest; reflexivity. }
    rewrite Hj. cbn [orb]. now rewrite orb_true_r. }
  rewrite Hfalsy, cleaned_app, cleaned_ru_number by assumption.
  rewrite search_number_after_junk.
  - unfold group. cbv [find fst snd Nat.eqb].
    destruct frac as [f|]; cbn [frac_digits] in *.
    + rewrite py_float_decimal; auto.
      destruct (concat groups); [discriminate | reflexivity].
    + rewrite app_nil_r, py_float_integer; auto.
  - now apply cleaned_junk.
  - destruct (concat groups); [discriminate | reflexivity].
  - rewrite forallb_app, (number_char_decimal _ Hdec).
    destruct frac as [f|]; [|reflexivity].
    cbn [forallb frac_digits] in *. rewrite (number_char_decimal _ Hf).
    reflexivity.
Qed.

Lemma parse_number_skips_prefix_witness :
  forallb junk (u "-") = true /\
  is_space (ch " ") = true /\
  forallb digit_run [u "1"; u "234"] = true /\
  _parse_number (AStr (u "-1 234,56 ₽")) = Ok (VFloat (Prim2SF 1234.56)).
Proof.
  split; [reflexivity|]. split; [reflexivity|]. split; [reflexivity|].
  exact (@parse_number_skips_prefix (u "-") (ch " ") [u "1"; u "234"]
           (Some (u "56")) true eq_refl eq_refl ltac:(discriminate)
           eq_refl eq_refl).
Defined.

End MoreNumbers.

(** ** Further properties: lines as the invoices print them *)

Section MoreLines.
Import Py Re InvoiceParser Spec More.
Import Re.Notations.

(** *** Matching step by step *)

Lemma starts_with_app p rest : starts_with p (p ++ rest) = true.
Proof.
  induction p as [|c t IH]; [reflexivity|].
  cbn [app starts_with]. now rewrite N.eqb_refl, IH.
Qed.

Lemma skipn_app_length (p rest : str) : skipn (length p) (p ++ rest) = rest.
Proof. induction p as [|c t IH]; [reflexivity | exact IH]. Qed.

Lemma run_lit p rest cs (k : cont) :
  run (Lit p) (p ++ rest) cs k = k rest cs.
Proof. cbn [run]. now rewrite starts_with_app, skipn_app_length. Qed.

(** A greedy loop over a class takes the longest run when the rest of the
    pattern matches after it. *)
Lemma star_loop_longest p (k : cont) fuel s cs r :
  k (drop_while p s) cs = Some r ->
  (length s <= fuel)%nat ->
  star_loop (one_char p) true fuel s cs k = Some r.
Proof.
  revert s cs. induction fuel as [|fuel IH]; intros s cs Hk Hlen.
  - destruct s; [exact Hk | simpl in Hlen; lia].
  - destruct s as [|c t]; cbn [star_loop one_char].
    + exact Hk.
    + cbn [drop_while] in Hk. destruct (p c) eqn:Hp; [|exact Hk].
      replace (length t <? length (c :: t))%nat with true
        by (symmetry; apply Nat.ltb_lt; cbn [length]; lia).
      rewrite (IH t cs Hk) by (cbn [length] in Hlen; lia). reflexivity.
Qed.

Lemma drop_while_run p (w rest : str) :
  forallb p w = true -> stops p rest = true ->
  drop_while p (w ++ rest) = rest.
Proof.
  intros Hw Hr. rewrite (drop_while_app_all _ _ _ Hw).
  destruct rest as [|c t]; [reflexivity|]. cbn [stops] in Hr.
  apply negb_true_iff in Hr. cbn [drop_while]. now rewrite Hr.
Qed.

Lemma run_star_class items w rest cs (k : cont) r :
  forallb (set_matches false items) w = true ->
  stops (set_matches false items) rest = true ->
  k rest cs = Some r ->
  run (Star true (Set_ false items)) (w ++ rest) cs k = Some r.
Proof.
  intros Hw Hr Hk. cbn [run]. apply star_loop_longest; [|lia].
  now rewrite drop_while_run.
Qed.

Lemma run_plus_class items w rest cs (k : cont) r :
  run_of (set_matches false items) w = true ->
  stops (set_matches false items) rest = true ->
  k rest cs = Some r ->
  run (cls items) (w ++ rest) cs k = Some r.
Proof.
  unfold run_of. intros Hw Hr Hk. apply andb_prop in Hw.
  destruct Hw as [Hne Hw]. destruct w as [|c t]; [discriminate|].
  cbn [forallb] in Hw. apply andb_prop in Hw. destruct Hw as [Hc Ht].
  unfold cls. cbn [run app one_char]. rewrite Hc.
  apply star_loop_longest; [|lia]. now rewrite drop_while_run.
Qed.

Lemma firstn_app_sub (w rest : str) :
  firstn (length (w ++ rest) - length rest) (w ++ rest) = w.
Proof.
  rewrite length_app.
  replace (length w + length rest - length rest)%nat
    with (length w + 0)%nat by lia.
  rewrite firstn_app_2. cbn [firstn]. apply app_nil_r.
Qed.

Lemma run_group_class i items w rest cs (k : cont) r :
  run_of (set_matches false items) w = true ->
  stops (set_matches false items) rest = true ->
  k rest ((i, w) :: cs) = Some r ->
  run (Group i (cls items)) (w ++ rest) cs k = Some r.
Proof.
  intros Hw Hr Hk. cbn [run]. fold (run (cls items)).
  apply run_plus_class; try assumption.
  now rewrite firstn_app_sub.
Qed.

Lemma run_group_class_end i items w cs (k : cont) r :
  run_of (set_matches false items) w = true ->
  k [] ((i, w) :: cs) = Some r ->
  run (Group i (cls items)) w cs k = Some r.
Proof.
  intros Hw Hk. rewrite <- (app_nil_r w) at 1.
  now apply run_group_class.
Qed.

Lemma run_seq r1 r2 s cs (k : cont) :
  run (r1 +++ r2) s cs k = run r1 s cs (fun s' cs' => run r2 s' cs' k).
Proof. reflexivity. Qed.

Lemma search_of_match r s m : match_ r s = Some m -> search r s = Some m.
Proof. intros H. destruct s; cbn [search]; now rewrite H. Qed.

Lemma run_lit_end p cs (k : cont) : run (Lit p) p cs k = k [] cs.
Proof. rewrite <- (app_nil_r p) at 2. apply run_lit. Qed.

(** A run of one class stops a loop over a class it shares nothing with. *)
Lemma stops_run (p q : char -> bool) w rest :
  run_of p w = true ->
  (forall c, p c = true -> q c = false) ->
  stops q (w ++ rest) = true.
Proof.
  unfold run_of. intros H Hpq. apply andb_prop in H. destruct H as [Hne Hw].
  destruct w as [|c t]; [discriminate|]. cbn [forallb] in Hw.
  apply andb_prop in Hw. destruct Hw as [Hc _].
  cbn [app stops]. now rewrite (Hpq c Hc).
Qed.

Lemma stops_run_end (p q : char -> bool) w :
  run_of p w = true ->
  (forall c, p c = true -> q c = false) ->
  stops q w = true.
Proof.
  intros H Hpq. rewrite <- (app_nil_r w). eapply stops_run; eauto.
Qed.

Lemma amount_not_space c :
  amount_char c = true -> set_matches false [CSpace] c = false.
Proof.
  rewrite amount_char_eq. unfold set_matches.
  cbn [existsb citem_matches xorb]. rewrite orb_false_r. intros H.
  apply orb_prop in H. destruct H as [H | H];
    [apply orb_prop in H; destruct H as [H | H]|].
  - now apply decimal_not_space.
  - apply N.eqb_eq in H. now subst.
  - apply N.eqb_eq in H. now subst.
Qed.

Lemma date_not_space c :
  date_char c = true -> set_matches false [CSpace] c = false.
Proof.
  intros H. apply amount_not_space. rewrite amount_char_eq.
  change (date_char c) with (number_char c) in H.
  rewrite number_char_eq in H. now rewrite H.
Qed.

Lemma decimal_class_not_space c :
  set_matches false [CDecimal] c = true -> set_matches false [CSpace] c = false.
Proof.
  unfold set_matches. cbn [existsb citem_matches xorb].
  rewrite !orb_false_r. apply decimal_not_space.
Qed.

(** Every character of a text found in a line is in the line. *)
Lemma starts_with_incl p s c : starts_with p s = true -> In c p -> In c s.
Proof.
  revert s. induction p as [|x t IH]; intros s H Hin; [destruct Hin|].
  destruct s as [|y s']; [discriminate|]. cbn [starts_with] in H.
  apply andb_prop in H. destruct H as [Hxy Ht]. apply N.eqb_eq in Hxy.
  destruct Hin as [-> | Hin]; [now left | right; eauto].
Qed.

Lemma contains_incl p s c : contains p s = true -> In c p -> In c s.
Proof.
  induction s as [|y s' IH]; cbn [contains]; intros H Hin.
  - rewrite orb_false_r in H. eapply starts_with_incl; eauto.
  - apply orb_prop in H. destruct H as [H | H].
    + eapply starts_with_incl; eauto.
    + right. auto.
Qed.

Lemma not_contains p s c :
  In c p -> @existsb char (N.eqb c) s = false -> contains p s = false.
Proof.
  intros Hin Hs. destruct (contains p s) eqn:E; [|reflexivity].
  apply (contains_incl _ _ c E) in Hin.
  assert (@existsb char (N.eqb c) s = true); [|congruence].
  apply existsb_exists. exists c. split; [assumption | apply N.eqb_refl].
Qed.

Lemma absent_run (p : char -> bool) c w :
  forallb p w = true -> p c = false -> @existsb char (N.eqb c) w = false.
Proof.
  intros Hw Hc. induction w as [|x t IH]; [reflexivity|].
  cbn [forallb existsb] in *. apply andb_prop in Hw. destruct Hw as [Hx Ht].
  rewrite (IH Ht), orb_false_r. apply N.eqb_neq. intros ->. congruence.
Qed.

Lemma run_of_forallb p w : run_of p w = true -> forallb p w = true.
Proof. unfold run_of. intros H. apply andb_prop in H. tauto. Qed.

Lemma contains_prefix p rest : contains p (p ++ rest) = true.
Proof.
  destruct (p ++ rest) eqn:E; cbn [contains]; rewrite <- E;
    now rewrite starts_with_app.
Qed.

End MoreLines.

Section MoreStorage.
Import Py Re InvoiceParser Spec More.
Import Re.Notations.

Ltac side :=
  first
    [ assumption
    | reflexivity
    | (eapply stops_run; [eassumption | first [ exact amount_not_space
                                              | exact date_not_space
                                              | exact decimal_class_not_space ]]) ].

Ltac lit := rewrite ?run_seq; first [rewrite run_lit | rewrite run_lit_end].
Ltac blanks := rewrite ?run_seq; apply run_star_class; [side | side |].
Ltac capture := rewrite ?run_seq; apply run_group_class; [side | side |].

Lemma match_storage d1 d2 q p t :
  run_of date_char d1 = true -> run_of date_char d2 = true ->
  run_of amount_char q = true -> run_of amount_char p = true ->
  run_of amount_char t = true ->
  match_ re_storage (storage_text d1 d2 q p t) =
  Some [(0%nat, storage_text d1 d2 q p t); (5%nat, t); (4%nat, p);
        (3%nat, q); (2%nat, d2); (1%nat, d1)].
Proof.
  intros H1 H2 Hq Hp Ht.
  unfold match_, re_storage, date, amount, ws.
  unfold storage_text at 1.
  lit. blanks. capture. blanks. lit. blanks. capture. blanks. capture.
  blanks. lit. blanks. capture. blanks. lit. blanks. capture. blanks. lit.
  rewrite Nat.sub_0_r, firstn_all. reflexivity.
Qed.

Lemma group_lookup (m : caps) i : group m i =
  match find (fun p => Nat.eqb (fst p) i) m with
  | Some p => snd p
  | None => []
  end.
Proof. reflexivity. Qed.

(** X12. A storage line printed the usual way (marker, two dates, the
    quantity in cubic metres, the price and the amount in roubles, single
    blanks between them, blanks around the line allowed) is read back
    field by field: the dates are the two date texts, and quantity, price
    and amount are the conversions of the three amount texts, the first
    conversion that fails raising its [ValueError]. *)
Theorem storage_line_read raw d1 d2 q p t :
  strip raw = storage_text d1 d2 q p t ->
  run_of date_char d1 = true -> run_of date_char d2 = true ->
  run_of amount_char q = true -> run_of amount_char p = true ->
  run_of amount_char t = true ->
  line_item raw =
  bind (float_comma q) (fun quantity =>
  bind (float_comma p) (fun price =>
  bind (float_comma t) (fun total =>
  Ok (Some (storage_item d1 d2 quantity price total))))).
Proof.
  intros Hraw H1 H2 Hq Hp Ht. unfold line_item. rewrite Hraw.
  assert (Hc : contains m_storage (storage_text d1 d2 q p t) = true)
    by apply contains_prefix.
  rewrite Hc, (search_of_match _ _ (match_storage _ _ _ _ _ H1 H2 Hq Hp Ht)).
  rewrite !group_lookup. cbv [find fst snd Nat.eqb].
  destruct (float_comma q); [|reflexivity].
  destruct (float_comma p); [|reflexivity].
  destruct (float_comma t); reflexivity.
Qed.

Lemma storage_line_read_witness :
  strip (u "  Хранение товаров от 01.01.2024 до 31.01.2024 2,50 м³ 100,00 ₽ 250,00 ₽ ")
  = storage_text (u "01.01.2024") (u "31.01.2024") (u "2,50") (u "100,00")
                 (u "250,00") /\
  line_item (u "  Хранение товаров от 01.01.2024 до 31.01.2024 2,50 м³ 100,00 ₽ 250,00 ₽ ")
  = Ok (Some (storage_item (u "01.01.2024") (u "31.01.2024") (Prim2SF 2.5)
                           (Prim2SF 100) (Prim2SF 250))).
Proof.
  split; [reflexivity|].
  exact (@storage_line_read
           (u "  Хранение товаров от 01.01.2024 до 31.01.2024 2,50 м³ 100,00 ₽ 250,00 ₽ ")
           (u "01.01.2024") (u "31.01.2024") (u "2,50") (u "100,00")
           (u "250,00") eq_refl eq_refl eq_refl eq_refl eq_refl eq_refl).
Defined.

End MoreStorage.

Section MoreKinds.
Import Py Re InvoiceParser Spec More.
Import Re.Notations.

Ltac side :=
  first
    [ assumption
    | reflexivity
    | (eapply stops_run; [eassumption | first [ exact amount_not_space
                                              | exact date_not_space
                                              | exact decimal_class_not_space ]])
    | (eapply stops_run_end;
       [eassumption | first [ exact amount_not_space
                            | exact date_not_space
                            | exact decimal_class_not_space ]]) ].

Ltac lit := rewrite ?run_seq; first [rewrite run_lit | rewrite run_lit_end].
Ltac blanks := rewrite ?run_seq; apply run_star_class; [side | side |].
Ltac capture := rewrite ?run_seq; apply run_group_class; [side | side |].
Ltac capture_end := rewrite ?run_seq; apply run_group_class_end; [side |].
Ltac several := rewrite ?run_seq; apply run_plus_class; [side | side |].

Lemma In_of_existsb c (s : str) :
  @existsb char (N.eqb c) s = true -> In c s.
Proof.
  intros H. apply existsb_exists in H. destruct H as [x [Hin Hx]].
  apply N.eqb_eq in Hx. now subst.
Qed.

Lemma absent_amount c w :
  run_of amount_char w = true -> amount_char c = false ->
  @existsb char (N.eqb c) w = false.
Proof. intros H. apply absent_run. now apply run_of_forallb. Qed.

Lemma absent_date c w :
  run_of date_char w = true -> date_char c = false ->
  @existsb char (N.eqb c) w = false.
Proof. intros H. apply absent_run. now apply run_of_forallb. Qed.

Lemma absent_decimal c w :
  run_of decimal_class w = true -> decimal_class c = false ->
  @existsb char (N.eqb c) w = false.
Proof. intros H. apply absent_run. now apply run_of_forallb. Qed.

(** The character [c] of the marker is nowhere in the line. *)
Ltac no_marker c :=
  apply (not_contains _ _ c); [apply In_of_existsb; reflexivity|];
  rewrite ?existsb_app;
  repeat match goal with
         | H : run_of amount_char ?w = true |- _ =>
           rewrite (@absent_amount c w H) by reflexivity
         | H : run_of date_char ?w = true |- _ =>
           rewrite (@absent_date c w H) by reflexivity
         | H : run_of decimal_class ?w = true |- _ =>
           rewrite (@absent_decimal c w H) by reflexivity
         end;
  reflexivity.

Lemma reception_literal :
  u "Приемка товара на склад и размещение" =
  m_reception ++ u " и размещение".
Proof. vm_compute. reflexivity. Qed.

Lemma match_reception n p t :
  run_of decimal_class n = true ->
  run_of amount_char p = true -> run_of amount_char t = true ->
  match_ re_reception (reception_text n p t) =
  Some [(0%nat, reception_text n p t); (3%nat, t); (2%nat, p); (1%nat, n)].
Proof.
  intros Hn Hp Ht.
  unfold match_, re_reception, digits, amount, ws.
  unfold reception_text at 1.
  lit. blanks. capture. blanks. lit. blanks. capture. blanks. lit. blanks.
  capture. blanks. lit.
  rewrite Nat.sub_0_r, firstn_all. reflexivity.
Qed.

(** X13. A reception line printed the usual way (marker, the count of
    pieces, price and amount in roubles) is read back field by field: the
    quantity is the integer of the count, price and amount the conversions
    of the two amount texts; the first conversion that fails raises. *)
Theorem reception_line_read raw n p t :
  strip raw = reception_text n p t ->
  run_of decimal_class n = true ->
  run_of amount_char p = true -> run_of amount_char t = true ->
  line_item raw =
  bind (py_int n) (fun quantity =>
  bind (float_comma p) (fun price =>
  bind (float_comma t) (fun total =>
  Ok (Some (reception_item quantity price total))))).
Proof.
  intros Hraw Hn Hp Ht. unfold line_item. rewrite Hraw.
  assert (H1 : contains m_storage (reception_text n p t) = false).
  { unfold reception_text. no_marker (ch "Х"). }
  assert (H2 : contains m_reception (reception_text n p t) = true).
  { unfold reception_text. rewrite reception_literal, <- app_assoc.
    apply contains_prefix. }
  rewrite H1, H2, (search_of_match _ _ (match_reception _ _ _ Hn Hp Ht)).
  rewrite !group_lookup. cbv [find fst snd Nat.eqb].
  destruct (py_int n); [|reflexivity].
  destruct (float_comma p); [|reflexivity].
  destruct (float_comma t); reflexivity.
Qed.

Lemma reception_line_read_witness :
  strip (u "Приемка товара на склад и размещение 12 шт. 5,00 ₽ 60,00 ₽")
  = reception_text (u "12") (u "5,00") (u "60,00") /\
  line_item (u "Приемка товара на склад и размещение 12 шт. 5,00 ₽ 60,00 ₽")
  = Ok (Some (reception_item 12 (Prim2SF 5) (Prim2SF 60))).
Proof.
  split; [reflexivity|].
  exact (@reception_line_read
           (u "Приемка товара на склад и размещение 12 шт. 5,00 ₽ 60,00 ₽")
           (u "12") (u "5,00") (u "60,00") eq_refl eq_refl eq_refl eq_refl).
Defined.

Lemma match_shipment n d :
  run_of decimal_class n = true -> run_of date_char d = true ->
  match_ re_shipment (shipment_text n d) =
  Some [(0%nat, shipment_text n d); (2%nat, d); (1%nat, n)].
Proof.
  intros Hn Hd.
  unfold match_, re_shipment, digits, date, ws. unfold shipment_text at 1.
  lit. blanks. capture. blanks. lit. blanks.
  capture_end.
  rewrite Nat.sub_0_r, firstn_all. reflexivity.
Qed.

Lemma match_reception_op n d :
  run_of decimal_class n = true -> run_of date_char d = true ->
  matched (match_ re_reception_op_start (reception_op_text n d)) = true /\
  match_ re_reception_op (reception_op_text n d) =
  Some [(0%nat, reception_op_text n d); (2%nat, d); (1%nat, n)].
Proof.
  intros Hn Hd. split.
  - assert (H : match_ re_reception_op_start (reception_op_text n d) =
                Some [(0%nat, (u "Приемка" ++ sp ++ n ++ sp ++ u "от")%list)]).
    { unfold match_, re_reception_op_start, digits, ws1.
      unfold reception_op_text at 1.
      lit. several. several. several. lit.
      f_equal. f_equal. f_equal. unfold reception_op_text.
      replace (u "Приемка" ++ sp ++ n ++ sp ++ u "от" ++ sp ++ d)
        with ((u "Приемка" ++ sp ++ n ++ sp ++ u "от") ++ sp ++ d)
        by (now rewrite <- !app_assoc).
      apply firstn_app_sub. }
    now rewrite H.
  - unfold match_, re_reception_op, digits, date, ws1.
    unfold reception_op_text at 1.
    lit. several. capture. several. lit. several.
    capture_end.
    rewrite Nat.sub_0_r, firstn_all. reflexivity.
Qed.

(** X14. The two informational lines, a shipment ("Отгрузка FBO", number,
    "от", date) and a reception operation ("Приемка", number, "от", date),
    are read back as items that carry the number and the date as text and
    the amount [0]; neither can raise. *)
Theorem operation_lines_read raw n d :
  run_of decimal_class n = true -> run_of date_char d = true ->
  (strip raw = shipment_text n d ->
   line_item raw = Ok (Some (shipment_item n d))) /\
  (strip raw = reception_op_text n d ->
   line_item raw = Ok (Some (reception_op_item n d))).
Proof.
  intros Hn Hd. split; intros Hraw; unfold line_item; rewrite Hraw.
  - assert (H1 : contains m_storage (shipment_text n d) = false).
    { unfold shipment_text. no_marker (ch "Х"). }
    assert (H2 : contains m_reception (shipment_text n d) = false).
    { unfold shipment_text. no_marker (ch "П"). }
    assert (H3 : contains m_shipment (shipment_text n d) = true)
      by apply contains_prefix.
    rewrite H1, H2, H3, (search_of_match _ _ (match_shipment _ _ Hn Hd)).
    reflexivity.
  - assert (H1 : contains m_storage (reception_op_text n d) = false).
    { unfold reception_op_text. no_marker (ch "Х"). }
    assert (H2 : contains m_reception (reception_op_text n d) = false).
    { unfold reception_op_text. no_marker (ch "в"). }
    assert (H3 : contains m_shipment (reception_op_text n d) = false).
    { unfold reception_op_text. no_marker (ch "О"). }
    destruct (match_reception_op _ _ Hn Hd) as [H4 H5].
    rewrite H1, H2, H3.
    destruct (match_ re_reception_op_start _); [|discriminate].
    rewrite (search_of_match _ _ H5). reflexivity.
Qed.

Lemma operation_lines_read_witness :
  line_item (u "Отгрузка FBO 4521 от 03.01.2024") =
    Ok (Some (shipment_item (u "4521") (u "03.01.2024"))) /\
  line_item (u " Приемка 778 от 02.01.2024") =
    Ok (Some (reception_op_item (u "778") (u "02.01.2024"))).
Proof.
  split.
  - exact (proj1 (@operation_lines_read (u "Отгрузка FBO 4521 от 03.01.2024")
                    (u "4521") (u "03.01.2024") eq_refl eq_refl) eq_refl).
  - exact (proj2 (@operation_lines_read (u " Приемка 778 от 02.01.2024")
                    (u "778") (u "02.01.2024") eq_refl eq_refl) eq_refl).
Defined.

End MoreKinds.

Section MoreTotalsLines.
Import Py Re InvoiceParser Spec More.
Import Re.Notations.

Ltac side :=
  first
    [ assumption
    | reflexivity
    | (eapply stops_run; [eassumption | first [ exact amount_not_space
                                              | exact date_not_space
                                              | exact decimal_class_not_space ]])
    | (eapply stops_run_end;
       [eassumption | first [ exact amount_not_space
                            | exact date_not_space
                            | exact decimal_class_not_space ]]) ].

Ltac lit := rewrite ?run_seq; first [rewrite run_lit | rewrite run_lit_end].
Ltac blanks := rewrite ?run_seq; apply run_star_class; [side | side |].
Ltac capture := rewrite ?run_seq; apply run_group_class; [side | side |].

Ltac no_marker c :=
  apply (not_contains _ _ c); [apply In_of_existsb; reflexivity|];
  rewrite ?existsb_app;
  repeat match goal with
         | H : run_of amount_char ?w = true |- _ =>
           rewrite (@absent_amount c w H) by reflexivity
         | H : run_of date_char ?w = true |- _ =>
           rewrite (@absent_date c w H) by reflexivity
         | H : run_of decimal_class ?w = true |- _ =>
           rewrite (@absent_decimal c w H) by reflexivity
         end;
  reflexivity.

Lemma match_total a :
  run_of amount_char a = true ->
  match_ re_total (total_text a) = Some [(0%nat, total_text a); (1%nat, a)].
Proof.
  intros Ha. unfold match_, re_total, amount, ws. unfold total_text at 1.
  lit. blanks. capture. blanks. lit.
  rewrite Nat.sub_0_r, firstn_all. reflexivity.
Qed.

Lemma match_vat a :
  run_of amount_char a = true ->
  match_ re_vat (vat_text a) = Some [(0%nat, vat_text a); (1%nat, a)].
Proof.
  intros Ha. unfold match_, re_vat, amount, ws. unfold vat_text at 1.
  lit. blanks. capture. blanks. lit.
  rewrite Nat.sub_0_r, firstn_all. reflexivity.
Qed.

Lemma match_count n a :
  run_of decimal_class n = true -> run_of amount_char a = true ->
  match_ re_count (count_text n a) =
  Some [(0%nat, count_text n a); (2%nat, a); (1%nat, n)].
Proof.
  intros Hn Ha. unfold match_, re_count, digits, amount, ws.
  unfold count_text at 1.
  lit. blanks. capture. blanks. lit. blanks. capture. blanks. lit.
  rewrite Nat.sub_0_r, firstn_all. reflexivity.
Qed.

(** X15. The three totals lines printed the usual way are read back: the
    total and the VAT are the conversions of their amount texts, the count
    line gives the integer of its count and the conversion of its sum.  A
    conversion that fails raises; the total and the VAT line then leave
    the data as it was, whereas on the count line the count is stored
    already when the conversion of the sum fails. *)
Theorem totals_lines_read raw d n a :
  run_of decimal_class n = true -> run_of amount_char a = true ->
  (strip raw = total_text a ->
   totals_step_on d raw =
   match float_comma a with
   | Ok x => (set_totals "total_amount" (VFloat x) d, None)
   | Raise e => (d, Some e)
   end) /\
  (strip raw = vat_text a ->
   totals_step_on d raw =
   match float_comma a with
   | Ok x => (set_totals "vat_amount" (VFloat x) d, None)
   | Raise e => (d, Some e)
   end) /\
  (strip raw = count_text n a ->
   totals_step_on d raw =
   match py_int n with
   | Ok k =>
     match float_comma a with
     | Ok x =>
       (set_totals "total_sum" (VFloat x)
          (set_totals "total_items" (VInt k) d), None)
     | Raise e => (set_totals "total_items" (VInt k) d, Some e)
     end
   | Raise e => (d, Some e)
   end).
Proof.
  intros Hn Ha.
  split; [|split]; intros Hraw; unfold totals_step_on; rewrite Hraw.
  - assert (H1 : contains m_total (total_text a) = true)
      by apply contains_prefix.
    rewrite H1, (search_of_match _ _ (match_total _ Ha)). reflexivity.
  - assert (H1 : contains m_total (vat_text a) = false).
    { unfold vat_text. no_marker (ch "И"). }
    assert (H2 : contains m_vat (vat_text a) = true)
      by apply contains_prefix.
    rewrite H1, H2, (search_of_match _ _ (match_vat _ Ha)). reflexivity.
  - assert (H1 : contains m_total (count_text n a) = false).
    { unfold count_text. no_marker (ch "И"). }
    assert (H2 : contains m_vat (count_text n a) = false).
    { unfold count_text. no_marker (ch "Д"). }
    assert (H3 : contains m_count (count_text n a) = true)
      by apply contains_prefix.
    rewrite H1, H2, H3, (search_of_match _ _ (match_count _ _ Hn Ha)).
    rewrite !group_lookup. cbv [find fst snd Nat.eqb]. reflexivity.
Qed.

Lemma totals_lines_read_witness :
  _parse_totals_on (u "Всего наименований 3 на сумму 1500,00 ₽") (__init__ []) =
  (set_totals "total_sum" (VFloat (Prim2SF 1500))
     (set_totals "total_items" (VInt 3) (__init__ [])), None) /\
  _parse_totals_on (u "Всего наименований 3 на сумму 1.000,00 ₽")
                   (__init__ []) =
  (set_totals "total_items" (VInt 3) (__init__ []), Some ValueError).
Proof.
  unfold _parse_totals_on. split.
  - change (split c_newline (u "Всего наименований 3 на сумму 1500,00 ₽"))
      with [u "Всего наименований 3 на сумму 1500,00 ₽"].
    cbn [for_each_on].
    rewrite (proj2 (proj2 (@totals_lines_read
                             (u "Всего наименований 3 на сумму 1500,00 ₽")
                             (__init__ []) (u "3") (u "1500,00")
                             eq_refl eq_refl)) eq_refl).
    reflexivity.
  - change (split c_newline (u "Всего наименований 3 на сумму 1.000,00 ₽"))
      with [u "Всего наименований 3 на сумму 1.000,00 ₽"].
    cbn [for_each_on].
    rewrite (proj2 (proj2 (@totals_lines_read
                             (u "Всего наименований 3 на сумму 1.000,00 ₽")
                             (__init__ []) (u "3") (u "1.000,00")
                             eq_refl eq_refl)) eq_refl).
    reflexivity.
Defined.

(** *** The invoice line *)

Lemma number_id_not_space c :
  number_id_char c = true -> set_matches false [CSpace] c = false.
Proof.
  unfold number_id_char, set_matches. cbn [existsb citem_matches xorb].
  rewrite !orb_false_r. intros H. apply orb_prop in H.
  destruct H as [H | H].
  - now apply decimal_not_space.
  - apply N.eqb_eq in H. now subst.
Qed.

Lemma absent_number_id c w :
  run_of number_id_char w = true -> number_id_char c = false ->
  @existsb char (N.eqb c) w = false.
Proof. intros H. apply absent_run. now apply run_of_forallb. Qed.

(** [re.search] passes over text that does not hold the first character
    of the pattern. *)
Lemma search_skip c p r pre s :
  @existsb char (N.eqb c) pre = false ->
  search (Lit (c :: p) +++ r) (pre ++ s) = search (Lit (c :: p) +++ r) s.
Proof.
  induction pre as [|x t IH]; [reflexivity|].
  cbn [existsb]. intros H. apply orb_false_iff in H. destruct H as [Hx Ht].
  cbn [app search]. unfold match_ at 1. cbn [run starts_with].
  rewrite Hx. cbn [andb]. now apply IH.
Qed.

Lemma match_invoice number date :
  run_of number_id_char number = true -> run_of date_char date = true ->
  search re_invoice (invoice_text number date) =
  Some [(0%nat, (u "№" ++ sp ++ number ++ sp ++ u "от" ++ sp ++ date)%list);
        (2%nat, date); (1%nat, number)].
Proof.
  intros Hn Hd. unfold invoice_text, re_invoice.
  change (u "№") with [ch "№"].
  rewrite search_skip by reflexivity.
  apply search_of_match. unfold match_, ws.
  set (whole := ([ch "№"] ++ sp ++ number ++ sp ++ u "от" ++ sp ++ date)%list)
    at 2 3 4.
  rewrite run_seq, run_lit.
  rewrite ?run_seq; apply run_star_class;
    [reflexivity
    | eapply stops_run; [eassumption | exact number_id_not_space] |].
  rewrite ?run_seq; apply run_group_class; [assumption | reflexivity |].
  rewrite ?run_seq; apply run_star_class; [reflexivity | reflexivity |].
  rewrite run_seq, run_lit.
  rewrite ?run_seq; apply run_star_class;
    [reflexivity
    | eapply stops_run_end; [eassumption | exact date_not_space] |].
  apply run_group_class_end; [assumption|].
  rewrite Nat.sub_0_r, firstn_all. reflexivity.
Qed.

(** X16. The invoice line printed the usual way ("Детализация к счету №",
    the number, "от", the date) sets the invoice number and the date to
    the two texts, and nothing else. *)
Theorem invoice_line_read raw d number date :
  strip raw = invoice_text number date ->
  run_of number_id_char number = true -> run_of date_char date = true ->
  header_line raw d =
  set_invoice_info "date" (VStr date)
    (set_invoice_info "number" (VStr number) d).
Proof.
  intros Hraw Hn Hd. unfold header_line. rewrite Hraw.
  assert (H1 : contains m_invoice (invoice_text number date) = true).
  { unfold invoice_text. rewrite app_assoc. apply contains_prefix. }
  assert (H2 : contains m_company (invoice_text number date) = false).
  { unfold invoice_text.
    apply (not_contains _ _ (ch "И")); [apply In_of_existsb; reflexivity|].
    rewrite ?existsb_app, (@absent_number_id (ch "И") number Hn),
      (@absent_date (ch "И") date Hd) by reflexivity.
    reflexivity. }
  assert (H3 : contains m_customer (invoice_text number date) = false).
  { unfold invoice_text.
    apply (not_contains _ _ (ch "З")); [apply In_of_existsb; reflexivity|].
    rewrite ?existsb_app, (@absent_number_id (ch "З") number Hn),
      (@absent_date (ch "З") date Hd) by reflexivity.
    reflexivity. }
  rewrite H1, H2, H3, (@match_invoice number date Hn Hd). reflexivity.
Qed.

Lemma invoice_line_read_witness :
  strip invoice_line = invoice_text (u "12345-1") (u "01.02.2024") /\
  _parse_header_info invoice_line (__init__ []) =
  set_invoice_info "date" (VStr (u "01.02.2024"))
    (set_invoice_info "number" (VStr (u "12345-1")) (__init__ [])).
Proof.
  split; [reflexivity|].
  unfold _parse_header_info.
  change (split c_newline invoice_line) with [invoice_line].
  cbn [fold_left].
  exact (@invoice_line_read invoice_line (__init__ []) (u "12345-1")
           (u "01.02.2024") eq_refl eq_refl eq_refl).
Defined.

End MoreTotalsLines.

(** ** Further properties: the name of the uploaded file *)

Section MoreApp.
Import Py InvoiceParser App.
Variable final_sigma : str -> nat -> bool.

Lemma lower_runs_miss x :
  In x [ch "p"; ch "d"; ch "f"] ->
  forallb (run_misses x) lower_runs = true.
Proof.
  intros [<- | [<- | [<- | []]]]; vm_compute; reflexivity.
Qed.

(** The only characters whose lowercase starts with p, d or f are these
    letters and their capitals. *)
Lemma lower_char_letter c x l :
  In x [ch "p"; ch "d"; ch "f"] ->
  lower_char c = x :: l ->
  l = [] /\ (c = x \/ (c + 32)%N = x).
Proof.
  intros Hx. unfold lower_char.
  destruct (c =? 304)%N.
  { intros H. injection H as <- _.
    destruct Hx as [H | [H | [H | []]]]; vm_compute in H; discriminate. }
  destruct (find (in_run c) lower_runs) as [[[[lo hi] step] target]|] eqn:E.
  - apply find_some in E. destruct E as [Hin Hrun].
    pose proof (@lower_runs_miss x Hx) as Hm.
    rewrite forallb_forall in Hm. specialize (Hm _ Hin).
    unfold run_misses in Hm. unfold in_run in Hrun.
    apply andb_prop in Hrun. destruct Hrun as [Hrun _].
    apply andb_prop in Hrun. destruct Hrun as [Hlo Hhi].
    apply N.leb_le in Hlo, Hhi.
    intros H. injection H as <- <-. split; [reflexivity|]. right.
    apply orb_prop in Hm. destruct Hm as [Hm | Hm];
      [apply orb_prop in Hm; destruct Hm as [Hm | Hm]|].
    + apply N.eqb_eq in Hm. lia.
    + apply N.ltb_lt in Hm. lia.
    + apply N.ltb_lt in Hm. lia.
  - intros H. injection H as <- <-. auto.
Qed.

Lemma lower_from_cons s i c t :
  lower_from final_sigma s i (c :: t) =
  lower_one final_sigma s i c ++ lower_from final_sigma s (S i) t.
Proof. reflexivity. Qed.

Lemma lower_one_letter s i c x l :
  In x [ch "p"; ch "d"; ch "f"] ->
  lower_one final_sigma s i c = x :: l ->
  l = [] /\ (c = x \/ (c + 32)%N = x).
Proof.
  intros Hx. unfold lower_one. destruct (c =? capital_sigma)%N.
  - intros H. injection H as <- _.
    destruct Hx as [H | [H | [H | []]]]; destruct (final_sigma s i);
      vm_compute in H; discriminate.
  - now apply lower_char_letter.
Qed.

Lemma lower_one_nonempty s i c : lower_one final_sigma s i c <> [].
Proof.
  unfold lower_one, lower_char. destruct (c =? capital_sigma)%N;
    [discriminate|].
  destruct (c =? 304)%N; [discriminate|].
  destruct (find _ _) as [[[[? ?] ?] ?]|]; discriminate.
Qed.

Lemma lower_one_either s i c lo :
  In lo [ch "p"; ch "d"; ch "f"] ->
  either c lo (lo - 32)%N = true -> lower_one final_sigma s i c = [lo].
Proof.
  intros Hlo H. unfold either in H. apply orb_prop in H.
  destruct Hlo as [<- | [<- | [<- | []]]];
    destruct H as [H | H]; apply N.eqb_eq in H; subst c; reflexivity.
Qed.

(** Peeling one letter off the lowercase of a text. *)
Lemma lower_from_peel s i c t x rest :
  In x [ch "p"; ch "d"; ch "f"] ->
  lower_from final_sigma s i (c :: t) = x :: rest ->
  either c x (x - 32)%N = true /\ lower_from final_sigma s (S i) t = rest.
Proof.
  intros Hx. rewrite lower_from_cons.
  destruct (lower_one final_sigma s i c) as [|y l] eqn:E.
  { now apply lower_one_nonempty in E. }
  cbn [app]. intros H. injection H as -> Hrest.
  destruct (@lower_one_letter s i c x l Hx E) as [-> Hc].
  split; [|exact Hrest]. unfold either.
  destruct Hc as [-> | <-].
  - now rewrite N.eqb_refl.
  - replace (c + 32 - 32)%N with c by lia.
    now rewrite N.eqb_refl, orb_true_r.
Qed.

Lemma str_eqb_eq a b : str_eqb a b = true <-> a = b.
Proof.
  unfold str_eqb. destruct (list_eq_dec N.eq_dec a b); split;
    congruence.
Qed.

(** The lowercase of a text is pdf exactly for the eight spellings. *)
Lemma lower_is_pdf ext :
  str_eqb (lower final_sigma ext) (u "pdf") = pdf_ext ext.
Proof.
  unfold lower. generalize 0%nat as i. generalize ext at 1 as s.
  intros s i.
  destruct (pdf_ext ext) eqn:Hp.
  - apply str_eqb_eq. unfold pdf_ext in Hp.
    destruct ext as [|e1 [|e2 [|e3 [|e4 t]]]]; try discriminate.
    apply andb_prop in Hp. destruct Hp as [Hp H3].
    apply andb_prop in Hp. destruct Hp as [H1 H2].
    rewrite !lower_from_cons.
    rewrite (@lower_one_either s i e1 (ch "p")),
      (@lower_one_either s (S i) e2 (ch "d")),
      (@lower_one_either s (S (S i)) e3 (ch "f")); cbn; auto.
  - destruct (str_eqb _ _) eqn:E; [|reflexivity].
    apply str_eqb_eq in E. exfalso.
    change (u "pdf") with [ch "p"; ch "d"; ch "f"] in E.
    destruct ext as [|e1 t1]; [discriminate|].
    apply lower_from_peel in E; [|cbn; auto]. destruct E as [H1 E].
    destruct t1 as [|e2 t2]; [discriminate|].
    apply lower_from_peel in E; [|cbn; auto]. destruct E as [H2 E].
    destruct t2 as [|e3 t3]; [discriminate|].
    apply lower_from_peel in E; [|cbn; auto]. destruct E as [H3 E].
    destruct t3 as [|e4 t4].
    + unfold pdf_ext in Hp.
      change (ch "p" - 32)%N with (ch "P") in H1.
      change (ch "d" - 32)%N with (ch "D") in H2.
      change (ch "f" - 32)%N with (ch "F") in H3.
      rewrite H1, H2, H3 in Hp. discriminate.
    + rewrite lower_from_cons in E.
      destruct (lower_one final_sigma s (S (S (S i))) e4) eqn:E4;
        [now apply lower_one_nonempty in E4 | discriminate].
Qed.

Lemma contains_char c s : contains [c] s = @existsb char (N.eqb c) s.
Proof.
  induction s as [|y t IH]; [reflexivity|].
  cbn [contains starts_with existsb]. now rewrite andb_true_r, IH.
Qed.

Lemma break_at_present c s :
  @existsb char (N.eqb c) s = true ->
  exists a b, break_at c s = (a, Some b).
Proof.
  induction s as [|x t IH]; [discriminate|]. cbn [existsb break_at].
  rewrite (N.eqb_sym c x). destruct (x =? c)%N; [eauto|].
  cbn [orb]. intros H. destruct (IH H) as [a [b E]]. rewrite E. eauto.
Qed.

Lemma break_at_before c s a b :
  break_at c s = (a, b) -> forallb (fun x => negb (x =? c)%N) a = true.
Proof.
  revert a b. induction s as [|x t IH]; intros a b; cbn [break_at].
  - intros H. now injection H as <- <-.
  - destruct (x =? c)%N eqn:E.
    + intros H. now injection H as <- <-.
    + destruct (break_at c t) as [a' b']. intros H. injection H as <- <-.
      cbn [forallb]. rewrite E. cbn [negb andb]. eauto.
Qed.

Lemma existsb_rev c (s : str) :
  @existsb char (N.eqb c) (rev s) = @existsb char (N.eqb c) s.
Proof.
  induction s as [|x t IH]; [reflexivity|].
  cbn [rev existsb]. rewrite existsb_app, IH. cbn [existsb].
  now rewrite orb_false_r, orb_comm.
Qed.

Lemma pdf_ext_length ext : pdf_ext ext = true -> length ext = 3%nat.
Proof.
  destruct ext as [|e1 [|e2 [|e3 [|e4 t]]]]; try discriminate. reflexivity.
Qed.

(** X17. [allowed_file] never raises, and it accepts exactly the names
    that end in a dot and the letters p, d, f, each in either case: what
    stands before the last dot does not matter (it may be empty or hold
    other dots), and a name without a dot, or with anything after "pdf",
    is refused. *)
Theorem allowed_file_pdf name :
  allowed_file final_sigma name = Ok (pdf_name name).
Proof.
  unfold allowed_file. change (u ".") with [c_dot]. rewrite contains_char.
  destruct (@existsb char (N.eqb c_dot) name) eqn:Hd.
  - pose proof Hd as Hr. rewrite <- existsb_rev in Hr.
    destruct (break_at_present _ _ Hr) as [a [b E]].
    unfold rsplit1. rewrite E. cbn [index nth_error bind].
    unfold ALLOWED_EXTENSIONS. cbn [existsb].
    rewrite lower_is_pdf, orb_false_r. f_equal.
    pose proof (break_at_before _ _ E) as Ha.
    apply break_at_app in E. unfold pdf_name. rewrite E. clear E Hr Hd.
    destruct a as [|x1 [|x2 [|x3 [|x4 a']]]].
    + cbn [rev app pdf_ext].
      destruct b as [|y1 [|y2 [|y3 t]]]; try reflexivity.
      replace (either c_dot (ch "f") (ch "F")) with false by reflexivity.
      now rewrite andb_false_r.
    + cbn [rev app pdf_ext].
      destruct b as [|y1 [|y2 t]]; try reflexivity.
      replace (either c_dot (ch "d") (ch "D")) with false by reflexivity.
      now rewrite andb_false_r.
    + cbn [rev app pdf_ext].
      destruct b as [|y1 t]; try reflexivity.
      replace (either c_dot (ch "p") (ch "P")) with false by reflexivity.
      now rewrite andb_false_r.
    + cbn [rev app pdf_ext]. now rewrite N.eqb_refl.
    + cbn [app]. cbn [forallb] in Ha.
      repeat (apply andb_prop in Ha; destruct Ha as [? Ha]).
      match goal with
      | H : negb (x4 =? c_dot)%N = true |- _ =>
        apply negb_true_iff in H; rewrite H
      end.
      cbn [andb].
      destruct (pdf_ext (rev (x1 :: x2 :: x3 :: x4 :: a'))) eqn:Hp;
        [|reflexivity].
      apply pdf_ext_length in Hp. rewrite length_rev in Hp.
      cbn [length] in Hp. lia.
  - f_equal. unfold pdf_name.
    rewrite <- existsb_rev in Hd.
    destruct (rev name) as [|e3 [|e2 [|e1 [|d t]]]]; try reflexivity.
    cbn [existsb] in Hd.
    repeat (apply orb_false_iff in Hd; destruct Hd as [? Hd]).
    match goal with
    | H : (c_dot =? d)%N = false |- _ =>
      rewrite N.eqb_sym in H; rewrite H
    end.
    reflexivity.
Qed.

End MoreApp.

(** ** Further properties: the lines that name the parties *)

Section MoreParties.
Import Py Re InvoiceParser Spec More.
Import Re.Notations.

Lemma space_class c : set_matches false [CSpace] c = is_space c.
Proof.
  unfold set_matches. cbn [existsb citem_matches xorb].
  now rewrite orb_false_r.
Qed.

Lemma blank_class w :
  forallb is_space w = true ->
  forallb (set_matches false [CSpace]) w = true.
Proof.
  induction w as [|c t IH]; [reflexivity|]. cbn [forallb].
  intros H. apply andb_prop in H. destruct H as [Hc Ht].
  now rewrite space_class, Hc, IH.
Qed.

(** Blanks and then a comma cannot be found where the text goes on with
    something that is neither. *)
Lemma blanks_comma_fail (y rest : str) cs (k : cont) fuel :
  forallb (fun c => negb (c =? c_comma)%N) y = true ->
  existsb (fun c => negb (is_space c)) y = true ->
  star_loop (one_char (set_matches false [CSpace])) true fuel (y ++ rest) cs
            (fun s' cs' => run (Lit [c_comma]) s' cs' k) = None.
Proof.
  revert fuel. induction y as [|c t IH]; intros fuel Hc He; [discriminate|].
  cbn [forallb existsb] in Hc, He. apply andb_prop in Hc.
  destruct Hc as [Hc Ht]. apply negb_true_iff in Hc.
  assert (Hk : run (Lit [c_comma]) ((c :: t) ++ rest) cs k = None).
  { cbn [run app starts_with]. now rewrite N.eqb_sym, Hc. }
  destruct fuel as [|fuel]; cbn [star_loop]; [exact Hk|].
  cbn [app one_char]. rewrite space_class.
  destruct (is_space c) eqn:Hs; [|exact Hk].
  cbn [negb orb] in He.
  replace (length (t ++ rest) <? length (c :: t ++ rest))%nat with true
    by (symmetry; apply Nat.ltb_lt; cbn [length]; lia).
  rewrite (IH fuel Ht He). exact Hk.
Qed.

Lemma ws_comma_fail (y rest : str) cs r (k : cont) :
  forallb (fun c => negb (c =? c_comma)%N) y = true ->
  existsb (fun c => negb (is_space c)) y = true ->
  run (Star true (Set_ false [CSpace]) +++ Lit (u ",") +++ r) (y ++ rest) cs k =
  None.
Proof.
  intros H1 H2.
  exact (@blanks_comma_fail y rest cs (fun s2 cs2 => run r s2 cs2 k)
           (length (y ++ rest)) H1 H2).
Qed.

(** A lazy loop stops at the first place where the rest of the pattern
    matches. *)
Lemma lazy_loop (y rest : str) cs (k : cont) r fuel :
  (length (y ++ rest) <= fuel)%nat ->
  forallb (fun c => negb (c =? c_newline)%N) y = true ->
  (forall a b, y = (a ++ b)%list -> b <> [] -> k (b ++ rest)%list cs = None) ->
  k rest cs = Some r ->
  star_loop (run Dot) false fuel (y ++ rest) cs k = Some r.
Proof.
  revert fuel. induction y as [|c t IH]; intros fuel Hlen Hnl Hfail Hk.
  - destruct fuel; cbn [app star_loop]; now rewrite Hk.
  - destruct fuel as [|fuel]; [cbn [app length] in Hlen; lia|].
    cbn [forallb] in Hnl. apply andb_prop in Hnl. destruct Hnl as [Hc Ht].
    cbn [star_loop]. rewrite (Hfail [] (c :: t) eq_refl) by discriminate.
    cbn [app run one_char]. rewrite Hc.
    replace (length (t ++ rest) <? length (c :: t ++ rest))%nat with true
      by (symmetry; apply Nat.ltb_lt; cbn [length]; lia).
    apply IH; try assumption.
    + cbn [app length] in Hlen. lia.
    + intros a b -> Hb. now apply (Hfail (c :: a) b).
Qed.

Lemma run_group_lazy i (name rest : str) cs (k : cont) r :
  truthy name = true ->
  forallb (fun c => negb (c =? c_newline)%N) name = true ->
  (forall a b cs', name = (a ++ b)%list -> b <> [] ->
                   k (b ++ rest)%list cs' = None) ->
  k rest ((i, name) :: cs) = Some r ->
  run (Group i (Plus false Dot)) (name ++ rest) cs k = Some r.
Proof.
  intros Hne Hnl Hfail Hk. destruct name as [|c t]; [discriminate|].
  cbn [forallb] in Hnl. apply andb_prop in Hnl. destruct Hnl as [Hc Ht].
  cbn [run one_char app]. rewrite Hc.
  apply lazy_loop; try assumption.
  - lia.
  - intros a b -> Hb. now apply (Hfail (c :: a) b).
  - change (c :: (t ++ rest)%list) with ((c :: t) ++ rest)%list.
    now rewrite firstn_app_sub.
Qed.

Lemma suffix_has_ink (name a b : str) z zs :
  name = (a ++ b)%list -> b <> [] -> rev name = z :: zs ->
  is_space z = false ->
  existsb (fun c => negb (is_space c)) b = true.
Proof.
  intros -> Hb Hrev Hz.
  destruct (exists_last Hb) as (b0 & l & ->).
  rewrite app_assoc, rev_app_distr in Hrev. cbn [rev app] in Hrev.
  injection Hrev as -> _.
  rewrite existsb_app. cbn [existsb]. rewrite Hz. cbn [negb orb].
  apply orb_true_r.
Qed.

Lemma party_name_parts name :
  party_name name = true ->
  forallb (fun c => negb (c =? c_comma)%N) name = true /\
  forallb (fun c => negb (c =? c_newline)%N) name = true /\
  exists a t z zs,
    name = a :: t /\ rev name = z :: zs /\
    is_space a = false /\ is_space z = false.
Proof.
  unfold party_name. intros H.
  apply andb_prop in H. destruct H as [H H3].
  apply andb_prop in H. destruct H as [H1 H2].
  repeat split; try assumption.
  destruct name as [|a t]; [discriminate|].
  destruct (rev (a :: t)) as [|z zs] eqn:E; [discriminate|].
  apply andb_prop in H3. destruct H3 as [Ha Hz].
  apply negb_true_iff in Ha, Hz.
  exists a, t, z, zs. repeat split; assumption.
Qed.

Lemma strip_party name : party_name name = true -> strip name = name.
Proof.
  intros H. destruct (@party_name_parts name H)
    as (_ & _ & a & t & z & zs & Hn & Hr & Ha & Hz).
  unfold strip, rstrip. subst name. cbn [lstrip]. rewrite Ha, Hr.
  cbn [lstrip]. rewrite Hz, <- Hr. apply rev_involutive.
Qed.

Lemma forallb_suffix (p : char -> bool) (a b : str) :
  forallb p (a ++ b) = true -> forallb p b = true.
Proof. rewrite forallb_app. intros H. apply andb_prop in H. tauto. Qed.

(** The pattern of the two party lines, on a line printed the usual way. *)
Lemma match_party label b0 name b1 b2 b3 inn rest :
  party_name name = true ->
  forallb is_space b0 = true -> forallb is_space b1 = true ->
  forallb is_space b2 = true -> forallb is_space b3 = true ->
  run_of decimal_class inn = true -> stops decimal_class rest = true ->
  exists whole,
    search (Lit label +++ ws +++ Group 1 (Plus false Dot) +++ ws +++
            Lit (u ",") +++ ws +++ Lit (u "ИНН") +++ ws +++ Group 2 digits)
           (party_text label b0 name b1 b2 b3 inn rest) =
    Some [(0%nat, whole); (2%nat, inn); (1%nat, name)].
Proof.
  intros Hname H0 H1 H2 H3 Hinn Hrest.
  destruct (@party_name_parts name Hname)
    as (Hcomma & Hnl & a & t & z & zs & Hn & Hr & Ha & Hz).
  eexists. apply search_of_match.
  unfold match_, party_text, ws, digits.
  rewrite run_seq, run_lit.
  rewrite run_seq. apply run_star_class.
  { now apply blank_class. }
  { rewrite Hn. cbn [app stops]. now rewrite space_class, Ha. }
  rewrite run_seq. apply run_group_lazy.
  { now rewrite Hn. }
  { assumption. }
  { intros x y cs' Hxy Hy. cbv beta. apply ws_comma_fail.
    - rewrite Hxy in Hcomma. now apply forallb_suffix in Hcomma.
    - eapply suffix_has_ink; eauto. }
  rewrite run_seq. apply run_star_class.
  { now apply blank_class. }
  { reflexivity. }
  rewrite run_seq, run_lit.
  rewrite run_seq. apply run_star_class.
  { now apply blank_class. }
  { reflexivity. }
  rewrite run_seq, run_lit.
  rewrite run_seq. apply run_star_class.
  { now apply blank_class. }
  { eapply stops_run; [eassumption | exact decimal_class_not_space]. }
  apply run_group_class; [assumption | assumption |].
  reflexivity.
Qed.

Lemma match_company b0 name b1 b2 b3 inn rest :
  party_name name = true ->
  forallb is_space b0 = true -> forallb is_space b1 = true ->
  forallb is_space b2 = true -> forallb is_space b3 = true ->
  run_of decimal_class inn = true -> stops decimal_class rest = true ->
  exists whole,
    search re_company (party_text m_company b0 name b1 b2 b3 inn rest) =
    Some [(0%nat, whole); (2%nat, inn); (1%nat, name)].
Proof. exact (@match_party (u "Исполнитель:") b0 name b1 b2 b3 inn rest). Qed.

Lemma match_customer b0 name b1 b2 b3 inn rest :
  party_name name = true ->
  forallb is_space b0 = true -> forallb is_space b1 = true ->
  forallb is_space b2 = true -> forallb is_space b3 = true ->
  run_of decimal_class inn = true -> stops decimal_class rest = true ->
  exists whole,
    search re_customer (party_text m_customer b0 name b1 b2 b3 inn rest) =
    Some [(0%nat, whole); (2%nat, inn); (1%nat, name)].
Proof. exact (@match_party (u "Заказчик:") b0 name b1 b2 b3 inn rest). Qed.

Lemma contains_party label b0 name b1 b2 b3 inn rest :
  contains label (party_text label b0 name b1 b2 b3 inn rest) = true.
Proof. unfold party_text. apply contains_prefix. Qed.

(** What a line does to the company and to the customer. *)
Lemma header_line_company raw d :
  company_info (header_line raw d) =
  if contains m_company (strip raw) then
    match search re_company (strip raw) with
    | Some m =>
      set "inn" (VStr (group m 2))
          (set "name" (VStr (strip (group m 1))) (company_info d))
    | None => company_info d
    end
  else company_info d.
Proof.
  unfold header_line.
  destruct (contains m_invoice _); [destruct (search re_invoice _)|];
    (destruct (contains m_company _); [destruct (search re_company _)|]);
    (destruct (contains m_customer _);
     [destruct (search re_customer _); destruct (search re_address _)|]);
    reflexivity.
Qed.

Lemma header_line_customer raw d :
  customer_info (header_line raw d) =
  if contains m_customer (strip raw) then
    let c :=
      match search re_customer (strip raw) with
      | Some m =>
        set "inn" (VStr (group m 2))
            (set "name" (VStr (strip (group m 1))) (customer_info d))
      | None => customer_info d
      end in
    match search re_address (strip raw) with
    | Some m =>
      set "phone" (VStr (strip (group m 2)))
          (set "address" (VStr (strip (group m 1))) c)
    | None => c
    end
  else customer_info d.
Proof.
  unfold header_line.
  destruct (contains m_invoice _); [destruct (search re_invoice _)|];
    (destruct (contains m_company _); [destruct (search re_company _)|]);
    (destruct (contains m_customer _);
     [destruct (search re_customer _); destruct (search re_address _)|]);
    reflexivity.
Qed.

(** X18. A line that names the company ("Исполнитель:") or the customer
    ("Заказчик:"), printed the usual way (label, name, comma, "ИНН",
    number, any blanks between them, anything that does not start with a
    digit after the number), gives the name and the number as they stand,
    provided the name holds no comma and has no blank at either end; what
    else the line holds does not change them. *)
Theorem party_lines_read raw b0 name b1 b2 b3 inn rest d :
  party_name name = true ->
  forallb is_space b0 = true -> forallb is_space b1 = true ->
  forallb is_space b2 = true -> forallb is_space b3 = true ->
  run_of decimal_class inn = true -> stops decimal_class rest = true ->
  (strip raw = party_text m_company b0 name b1 b2 b3 inn rest ->
   company_info (header_line raw d) =
   set "inn" (VStr inn) (set "name" (VStr name) (company_info d))) /\
  (strip raw = party_text m_customer b0 name b1 b2 b3 inn rest ->
   get "name" (customer_info (header_line raw d)) = Some (VStr name) /\
   get "inn" (customer_info (header_line raw d)) = Some (VStr inn)).
Proof.
  intros Hname H0 H1 H2 H3 Hinn Hrest.
  split; intros Hraw.
  - destruct (@match_company b0 name b1 b2 b3 inn rest
                Hname H0 H1 H2 H3 Hinn Hrest) as [whole Hm].
    rewrite header_line_company, Hraw, contains_party.
    rewrite Hm.
    rewrite !group_lookup. cbn [find fst snd Nat.eqb].
    now rewrite (@strip_party name Hname).
  - destruct (@match_customer b0 name b1 b2 b3 inn rest
                Hname H0 H1 H2 H3 Hinn Hrest) as [whole Hm].
    rewrite header_line_customer, Hraw, !contains_party.
    rewrite Hm.
    rewrite !group_lookup. cbn [find fst snd Nat.eqb].
    rewrite (@strip_party name Hname). cbv zeta.
    destruct (search re_address _);
      rewrite ?(@get_set_other "name"%string "phone"%string),
        ?(@get_set_other "name"%string "address"%string),
        ?(@get_set_other "inn"%string "phone"%string),
        ?(@get_set_other "inn"%string "address"%string),
        ?(@get_set_other "name"%string "inn"%string), ?get_set_same by reflexivity;
      split; reflexivity.
Qed.

Lemma party_lines_read_witness :
  company_info
    (header_line (u "  Исполнитель: ООО Ромашка, ИНН 7701234567, КПП 770101001")
                 (__init__ [])) =
  [("name"%string, VStr (u "ООО Ромашка"));
   ("inn"%string, VStr (u "7701234567"))] /\
  get "name" (customer_info (header_line customer_line (__init__ []))) =
  Some (VStr (u "ООО Ромашка")).
Proof.
  split.
  - exact (proj1 (@party_lines_read
                    (u "  Исполнитель: ООО Ромашка, ИНН 7701234567, КПП 770101001")
                    sp (u "ООО Ромашка") [] sp sp (u "7701234567")
                    (u ", КПП 770101001") (__init__ [])
                    eq_refl eq_refl eq_refl eq_refl eq_refl eq_refl eq_refl)
                 eq_refl).
  - exact (proj1 (proj2 (@party_lines_read
                    customer_line
                    sp (u "ООО Ромашка") sp sp sp (u "7701234567")
                    (u " , Адрес: г. Москва, ул. Ленина 1 , тел. +7(900)123-45-67")
                    (__init__ [])
                    eq_refl eq_refl eq_refl eq_refl eq_refl eq_refl eq_refl)
                 eq_refl)).
Defined.

End MoreParties.

(** ** Further properties: text after the number *)

Section MoreNumbersTail.
Import Py Re InvoiceParser Spec More.

Lemma take_while_stop (p : char -> bool) (a : str) c t :
  forallb p a = true -> p c = false -> take_while p (a ++ c :: t) = a.
Proof.
  intros Ha Hc. induction a as [|x a' IH]; cbn [app take_while].
  - now rewrite Hc.
  - cbn [forallb] in Ha. apply andb_prop in Ha. destruct Ha as [Hx Ha].
    now rewrite Hx, IH.
Qed.

Lemma cleaned_dropped w :
  forallb (fun c => negb (keep c)) w = true -> cleaned w = [].
Proof.
  unfold cleaned. induction w as [|c t IH]; [reflexivity|].
  cbn [forallb filter]. intros H. apply andb_prop in H.
  destruct H as [Hc Ht]. apply negb_true_iff in Hc. rewrite Hc. now apply IH.
Qed.

Lemma cleaned_junk_cons c t :
  junk c = true -> keep c = true ->
  cleaned (c :: t) = c :: cleaned t /\ number_char c = false.
Proof.
  intros Hj Hk. pose proof (junk_not_kept_or_not_number _ Hj) as Hn.
  unfold junk, separator in Hj. apply andb_prop in Hj.
  destruct Hj as [_ Hs]. apply negb_true_iff, orb_false_iff in Hs.
  destruct Hs as [_ Hcomma]. rewrite Hcomma in Hn.
  unfold cleaned. cbn [filter]. rewrite Hk. cbn [replace map].
  now rewrite Hcomma.
Qed.

Lemma search_number_first (n : str) c t :
  truthy n = true -> forallb number_char n = true -> number_char c = false ->
  search re_number (n ++ c :: t) = Some [(0%nat, n)].
Proof.
  intros Hn Hall Hc. unfold re_number. rewrite search_class.
  change (set_matches false [CDecimal; CChar (ch ".")]) with number_char.
  destruct n as [|x n']; [discriminate|].
  cbn [forallb] in Hall. apply andb_prop in Hall. destruct Hall as [Hx Hall].
  cbn [app drop_while]. rewrite Hx. cbn [negb].
  change (x :: (n' ++ c :: t)%list) with ((x :: n') ++ c :: t)%list.
  rewrite take_while_stop; [reflexivity | | assumption].
  cbn [forallb]. now rewrite Hx, Hall.
Qed.

(** X19. Only the first number of a cell is read: after a well-formed
    Russian number, text that starts (blanks and currency signs apart)
    with a character that is no digit, dot or comma is ignored, whatever
    it holds, further numbers included. *)
Theorem parse_number_first_only sep groups frac currency w c tail :
  is_space sep = true ->
  groups <> [] ->
  forallb digit_run groups = true ->
  forallb is_decimal (frac_digits frac) = true ->
  forallb (fun x => negb (keep x)) w = true ->
  junk c = true -> keep c = true ->
  _parse_number (AStr (ru_number sep groups frac currency ++ w ++ c :: tail)) =
  Ok (VFloat (decimal_float (concat groups) (frac_digits frac))).
Proof.
  intros Hsep Hne Hg Hf Hw Hj Hk.
  pose proof (concat_decimal _ Hg) as Hdec.
  pose proof (concat_truthy Hne Hg) as Htr.
  destruct (@cleaned_junk_cons c tail Hj Hk) as [Hcl Hnum].
  rewrite parse_number_unfold. cbn [str_of_arg bind].
  assert (Hfalsy : falsy (AStr (ru_number sep groups frac currency ++
                                w ++ c :: tail)) = false).
  { cbn [falsy]. rewrite !truthy_app. cbn [truthy].
    now rewrite !orb_true_r. }
  rewrite Hfalsy, !cleaned_app, cleaned_ru_number by assumption.
  rewrite (cleaned_dropped _ Hw), Hcl. cbn [app].
  rewrite search_number_first.
  - unfold group. cbv [find fst snd Nat.eqb].
    destruct frac as [f|]; cbn [frac_digits] in *.
    + rewrite py_float_decimal; auto.
      destruct (concat groups); [discriminate | reflexivity].
    + rewrite app_nil_r, py_float_integer; auto.
  - destruct (concat groups); [discriminate | reflexivity].
  - rewrite forallb_app, (number_char_decimal _ Hdec).
    destruct frac as [f|]; [|reflexivity].
    cbn [forallb frac_digits] in *. rewrite (number_char_decimal _ Hf).
    reflexivity.
  - assumption.
Qed.

Lemma parse_number_first_only_witness :
  (ru_number (ch " ") [u "1"; u "234"] (Some (u "56")) false ++
   u " " ++ ch "р" :: u "уб. 99")%list = u "1 234,56 руб. 99" /\
  _parse_number (AStr (u "1 234,56 руб. 99")) = Ok (VFloat (Prim2SF 1234.56)).
Proof.
  split; [reflexivity|].
  exact (@parse_number_first_only (ch " ") [u "1"; u "234"]
           (Some (u "56")) false (u " ") (ch "р") (u "уб. 99")
           eq_refl ltac:(discriminate) eq_refl eq_refl eq_refl eq_refl
           eq_refl).
Defined.

End MoreNumbersTail.

(** ** The methods on [self.data] *)

Section OnData.
Import Py Re InvoiceParser Spec More.

(** *** What the caller sees *)

Lemma line_items_step_outcome d raw :
  line_items_step d raw = outcome (line_items_step_on d raw).
Proof.
  unfold line_items_step, line_items_step_on.
  destruct (line_item raw) as [[item|]|e]; reflexivity.
Qed.

Lemma totals_step_outcome d raw :
  totals_step d raw = outcome (totals_step_on d raw).
Proof.
  unfold totals_step, totals_step_on.
  destruct (contains m_total _).
  { destruct (search re_total _); [destruct (float_comma _)|]; reflexivity. }
  destruct (contains m_vat _).
  { destruct (search re_vat _); [destruct (float_comma _)|]; reflexivity. }
  destruct (contains m_count _).
  { destruct (search re_count _);
      [destruct (py_int _); [destruct (float_comma _)|]|]; reflexivity. }
  reflexivity.
Qed.

Lemma for_each_outcome body body_on :
  (forall d raw, body d raw = outcome (body_on d raw)) ->
  forall lines d,
    for_each body lines d = outcome (for_each_on body_on lines d).
Proof.
  intros Hb. induction lines as [|raw t IH]; intros d;
    cbn [for_each for_each_on].
  - reflexivity.
  - rewrite Hb. destruct (body_on d raw) as [d' [e|]]; cbn [outcome bind].
    + reflexivity.
    + apply IH.
Qed.

Lemma parse_line_items_outcome_on text d :
  _parse_line_items text d = outcome (_parse_line_items_on text d).
Proof. apply for_each_outcome, line_items_step_outcome. Qed.

Lemma parse_totals_outcome_on text d :
  _parse_totals text d = outcome (_parse_totals_on text d).
Proof. apply for_each_outcome, totals_step_outcome. Qed.

Lemma parse_outcome_on now pages :
  parse now pages = outcome (parse_on pages (__init__ now)).
Proof.
  unfold parse, parse_on.
  destruct (fold_left page_step pages ([], __init__ now)) as [text d].
  rewrite parse_line_items_outcome_on.
  destruct (_parse_line_items_on text _) as [d2 [e|]]; cbn [outcome bind].
  - reflexivity.
  - apply parse_totals_outcome_on.
Qed.

(** *** Dictionaries: assignments carried out twice *)

Lemma keys_set_cases k v d :
  (In k (keys d) /\ keys (set k v d) = keys d) \/
  (~ In k (keys d) /\ keys (set k v d) = (keys d ++ [k])%list).
Proof.
  unfold keys. induction d as [|[k1 v1] t IH]; cbn [set map fst app].
  - right. split; [tauto | reflexivity].
  - destruct (String.eqb k1 k) eqn:E; cbn [map fst].
    + apply String.eqb_eq in E. subst k1. left. split; [now left | reflexivity].
    + apply String.eqb_neq in E.
      destruct IH as [[Hin Hk] | [Hin Hk]]; rewrite Hk.
      * left. split; [now right | reflexivity].
      * right. split; [|reflexivity]. intros [H | H]; [congruence | tauto].
Qed.

Lemma nodup_set k v d : NoDup (keys d) -> NoDup (keys (set k v d)).
Proof.
  intros H. destruct (keys_set_cases k v d) as [[_ ->] | [Hin ->]];
    [assumption|].
  apply NoDup_app; [assumption | repeat constructor; tauto |].
  intros x Hx [<- | []]. tauto.
Qed.

Lemma in_keys_set k v d k' :
  k' = k \/ In k' (keys d) -> In k' (keys (set k v d)).
Proof.
  destruct (keys_set_cases k v d) as [[Hin ->] | [_ ->]].
  - intros [-> | H]; assumption.
  - rewrite in_app_iff. cbn [In]. intros [-> | H]; auto.
Qed.

Lemma get_notin k d : ~ In k (keys d) -> get k d = None.
Proof.
  unfold get, keys. induction d as [|[k1 v1] t IH]; cbn [map fst find In];
    [reflexivity|].
  intros H. destruct (String.eqb k1 k) eqn:E.
  - apply String.eqb_eq in E. tauto.
  - apply IH. tauto.
Qed.

Lemma dict_ext d d' :
  NoDup (keys d) -> keys d = keys d' ->
  (forall k, get k d = get k d') -> d = d'.
Proof.
  revert d'. induction d as [|[k v] t IH]; intros [|[k' v'] t'] Hnd Hk Hg;
    try discriminate; [reflexivity|].
  unfold keys in Hk. cbn [map fst] in Hk. injection Hk as <- Hk.
  inversion Hnd as [|? ? Hnotin Hnd']. subst.
  pose proof (Hg k) as Hv. unfold get in Hv. cbn [find fst] in Hv.
  rewrite String.eqb_refl in Hv. cbn [option_map snd] in Hv.
  injection Hv as <-. f_equal. apply IH; [assumption | assumption |].
  intros k0. destruct (String.eqb k k0) eqn:E.
  - apply String.eqb_eq in E. subst k0.
    rewrite !get_notin; [reflexivity | | assumption].
    unfold keys in *. now rewrite <- Hk.
  - pose proof (Hg k0) as H0. unfold get in H0. cbn [find fst] in H0.
    now rewrite E in H0.
Qed.

Lemma apply_sets_app s1 s2 d :
  apply_sets (s1 ++ s2) d = apply_sets s2 (apply_sets s1 d).
Proof. unfold apply_sets. apply fold_left_app. Qed.

Lemma apply_nodup sets d :
  NoDup (keys d) -> NoDup (keys (apply_sets sets d)).
Proof.
  unfold apply_sets. revert d.
  induction sets as [|[k v] t IH]; intros d H; cbn [fold_left fst snd];
    [assumption|].
  apply IH. now apply nodup_set.
Qed.

Lemma apply_keys_has sets d k :
  In k (map fst sets) \/ In k (keys d) -> In k (keys (apply_sets sets d)).
Proof.
  unfold apply_sets. revert d.
  induction sets as [|[k1 v1] t IH]; intros d; cbn [fold_left fst snd map In].
  - tauto.
  - intros H. apply IH.
    destruct H as [[<- | H] | H]; [right | now left | right];
      apply in_keys_set; auto.
Qed.

Lemma apply_keys_stable sets d :
  (forall k, In k (map fst sets) -> In k (keys d)) ->
  keys (apply_sets sets d) = keys d.
Proof.
  unfold apply_sets. revert d.
  induction sets as [|[k1 v1] t IH]; intros d H; cbn [fold_left fst snd];
    [reflexivity|].
  assert (Hk : keys (set k1 v1 d) = keys d).
  { destruct (keys_set_cases k1 v1 d) as [[_ E] | [Hn _]]; [exact E|].
    exfalso. apply Hn, H. now left. }
  rewrite IH, Hk; [reflexivity|].
  intros k Hin. rewrite Hk. apply H. now right.
Qed.

Lemma get_set_cong k k1 v1 d d' :
  get k d = get k d' -> get k (set k1 v1 d) = get k (set k1 v1 d').
Proof.
  intros H. destruct (String.eqb k1 k) eqn:E.
  - apply String.eqb_eq in E. subst k1. now rewrite !get_set_same.
  - now rewrite !get_set_other.
Qed.

Lemma get_apply_cong sets k d d' :
  get k d = get k d' -> get k (apply_sets sets d) = get k (apply_sets sets d').
Proof.
  unfold apply_sets. revert d d'.
  induction sets as [|[k1 v1] t IH]; intros d d' H; cbn [fold_left fst snd];
    [assumption|].
  apply IH. now apply get_set_cong.
Qed.

Lemma get_apply_in sets k d d' :
  In k (map fst sets) ->
  get k (apply_sets sets d) = get k (apply_sets sets d').
Proof.
  revert d d'. induction sets as [|[k1 v1] t IH]; intros d d';
    cbn [map fst In]; [tauto|].
  intros H. unfold apply_sets. cbn [fold_left fst snd].
  fold (apply_sets t (set k1 v1 d)). fold (apply_sets t (set k1 v1 d')).
  destruct (String.eqb k1 k) eqn:E.
  - apply String.eqb_eq in E. subst k1.
    apply get_apply_cong. now rewrite !get_set_same.
  - apply String.eqb_neq in E. destruct H as [H | H]; [congruence|].
    now apply IH.
Qed.

Lemma get_apply_notin sets k d :
  ~ In k (map fst sets) -> get k (apply_sets sets d) = get k d.
Proof.
  unfold apply_sets. revert d.
  induction sets as [|[k1 v1] t IH]; intros d; cbn [map fst In fold_left snd];
    [reflexivity|].
  intros H. rewrite IH by tauto. apply get_set_other.
  apply String.eqb_neq. tauto.
Qed.

(** Carried out again on their own outcome, the assignments change
    nothing: every key is there already and ends with its last value. *)
Lemma apply_sets_twice sets d :
  NoDup (keys d) ->
  apply_sets sets (apply_sets sets d) = apply_sets sets d.
Proof.
  intros Hnd. apply dict_ext.
  - now apply apply_nodup, apply_nodup.
  - apply apply_keys_stable. intros k Hk. apply apply_keys_has. now left.
  - intros k. destruct (in_dec string_dec k (map fst sets)) as [Hin | Hout].
    + now apply get_apply_in.
    + now apply get_apply_notin.
Qed.

(** *** Writes that do not depend on the data *)

Lemma update_nil d : update [] [] [] [] [] d = d.
Proof. destruct d. unfold update. cbn. now rewrite app_nil_r. Qed.

Lemma update_update a b c i t a' b' c' i' t' d :
  update a' b' c' i' t' (update a b c i t d) =
  update (a ++ a') (b ++ b') (c ++ c') (i ++ i') (t ++ t') d.
Proof.
  unfold update. cbn [invoice_info company_info customer_info line_items
                      totals parsed_at].
  now rewrite !apply_sets_app, app_assoc.
Qed.

Lemma fixed_id : fixed_writes (fun d => d).
Proof.
  exists [], [], [], [], []. intros d. now rewrite update_nil.
Qed.

Lemma fixed_comp f g :
  fixed_writes f -> fixed_writes g -> fixed_writes (fun d => g (f d)).
Proof.
  intros (a & b & c & i & t & Hf) (a' & b' & c' & i' & t' & Hg).
  exists (a ++ a')%list, (b ++ b')%list, (c ++ c')%list, (i ++ i')%list,
         (t ++ t')%list.
  intros d. now rewrite Hf, Hg, update_update.
Qed.

Lemma fixed_invoice k v f :
  fixed_writes f -> fixed_writes (fun d => set_invoice_info k v (f d)).
Proof.
  intros H. apply (fixed_comp H).
  exists [(k, v)], [], [], [], []. intros d. destruct d.
  unfold update, set_invoice_info. cbn. now rewrite app_nil_r.
Qed.

Lemma fixed_company k v f :
  fixed_writes f -> fixed_writes (fun d => set_company_info k v (f d)).
Proof.
  intros H. apply (fixed_comp H).
  exists [], [(k, v)], [], [], []. intros d. destruct d.
  unfold update, set_company_info. cbn. now rewrite app_nil_r.
Qed.

Lemma fixed_customer k v f :
  fixed_writes f -> fixed_writes (fun d => set_customer_info k v (f d)).
Proof.
  intros H. apply (fixed_comp H).
  exists [], [], [(k, v)], [], []. intros d. destruct d.
  unfold update, set_customer_info. cbn. now rewrite app_nil_r.
Qed.

Lemma fixed_totals k v f :
  fixed_writes f -> fixed_writes (fun d => set_totals k v (f d)).
Proof.
  intros H. apply (fixed_comp H).
  exists [], [], [], [], [(k, v)]. intros d. destruct d.
  unfold update, set_totals. cbn. now rewrite app_nil_r.
Qed.

Lemma fixed_items items f :
  fixed_writes f -> fixed_writes (fun d => add_items items (f d)).
Proof.
  intros H. apply (fixed_comp H).
  exists [], [], [], items, []. intros d. reflexivity.
Qed.

Lemma fixed_return f oe :
  fixed_writes f -> fixed_effect (fun d => (f d, oe)).
Proof.
  intros (a & b & c & i & t & Hf). exists a, b, c, i, t, oe.
  intros d. now rewrite Hf.
Qed.

Ltac writes :=
  repeat first [ apply fixed_invoice | apply fixed_company
               | apply fixed_customer | apply fixed_totals
               | apply fixed_items | apply fixed_id ].

Lemma header_line_fixed raw : fixed_writes (header_line raw).
Proof.
  unfold header_line. cbv zeta.
  destruct (contains m_invoice _); [destruct (search re_invoice _)|];
    (destruct (contains m_company _); [destruct (search re_company _)|]);
    (destruct (contains m_customer _);
     [destruct (search re_customer _); destruct (search re_address _)|]);
    writes.
Qed.

Lemma parse_header_info_fixed text : fixed_writes (_parse_header_info text).
Proof.
  unfold _parse_header_info. generalize (split c_newline text). intros lines.
  induction lines as [|raw t IH]; cbn [fold_left].
  - apply fixed_id.
  - apply (fixed_comp (header_line_fixed raw) IH).
Qed.

Lemma line_items_step_fixed raw :
  fixed_effect (fun d => line_items_step_on d raw).
Proof.
  unfold line_items_step_on.
  destruct (line_item raw) as [[item|]|e].
  - apply fixed_return. apply (fixed_items [item] fixed_id).
  - apply fixed_return, fixed_id.
  - apply fixed_return, fixed_id.
Qed.

Lemma totals_step_fixed raw : fixed_effect (fun d => totals_step_on d raw).
Proof.
  unfold totals_step_on. cbv zeta.
  destruct (contains m_total _).
  { destruct (search re_total _); [destruct (float_comma _)|];
      apply fixed_return; writes. }
  destruct (contains m_vat _).
  { destruct (search re_vat _); [destruct (float_comma _)|];
      apply fixed_return; writes. }
  destruct (contains m_count _).
  { destruct (search re_count _);
      [destruct (py_int _); [destruct (float_comma _)|]|];
      apply fixed_return; writes. }
  apply fixed_return, fixed_id.
Qed.

Lemma for_each_on_fixed body lines :
  (forall raw, fixed_effect (fun d => body d raw)) ->
  fixed_effect (for_each_on body lines).
Proof.
  intros Hb. induction lines as [|raw t IH].
  - exists [], [], [], [], [], None. intros d. cbn [for_each_on].
    now rewrite update_nil.
  - destruct (Hb raw) as (a & b & c & i & s & oe & H).
    destruct IH as (a' & b' & c' & i' & s' & oe' & H').
    destruct oe as [e|].
    + exists a, b, c, i, s, (Some e). intros d. cbn [for_each_on].
      now rewrite H.
    + exists (a ++ a')%list, (b ++ b')%list, (c ++ c')%list, (i ++ i')%list,
             (s ++ s')%list, oe'.
      intros d. cbn [for_each_on]. now rewrite H, H', update_update.
Qed.

(** What [parse] writes, and how it ends, is fixed by the pages: the
    data it finds is never read. *)
Lemma parse_on_fixed pages : fixed_effect (parse_on pages).
Proof.
  destruct (parse_header_info_fixed (full_text pages))
    as (a & b & c & i & s & Hh).
  destruct (for_each_on_fixed line_items_step_on
              (split c_newline (full_text pages)) line_items_step_fixed)
    as (a1 & b1 & c1 & i1 & s1 & oe1 & Hl).
  destruct (for_each_on_fixed totals_step_on
              (split c_newline (full_text pages)) totals_step_fixed)
    as (a2 & b2 & c2 & i2 & s2 & oe2 & Ht).
  assert (Hp : forall d,
             parse_on pages d =
             match _parse_line_items_on (full_text pages)
                     (update a b c i s
                        (update [] [] []
                           (flat_map row_items (concat (all_tables pages)))
                           [] d)) with
             | (d2, None) => _parse_totals_on (full_text pages) d2
             | (d2, Some e) => (d2, Some e)
             end).
  { intros d. unfold parse_on. rewrite (pages_fold pages [] d). cbn [app].
    now rewrite Hh, parse_tables_items. }
  unfold _parse_line_items_on, _parse_totals_on in Hp.
  destruct oe1 as [e|].
  - eexists _, _, _, _, _, (Some e). intros d.
    rewrite Hp, Hl, !update_update. reflexivity.
  - eexists _, _, _, _, _, oe2. intros d.
    rewrite Hp, Hl, Ht, !update_update. reflexivity.
Qed.

Lemma update_stamp a b c i s t d :
  update a b c i s (with_parsed_at t d) =
  with_parsed_at t (update a b c i s d).
Proof. reflexivity. Qed.

Lemma update_twice a b c i s now :
  update a b c i s (update a b c i s (__init__ now)) =
  add_items (line_items (update a b c i s (__init__ now)))
            (update a b c i s (__init__ now)).
Proof.
  unfold update, add_items.
  cbn [invoice_info company_info customer_info line_items totals parsed_at
       __init__ app].
  now rewrite !apply_sets_twice by constructor.
Qed.

(** C9 (amended). Two runs on the same pages, each on a newly made
    parser, end the same way and leave the same data but for [parsed_at];
    what [parse] returns or raises is what such a run leaves.  A second
    run on the same parser is another matter: nothing resets the data, so
    it ends as the first run did and leaves the data of the first run,
    timestamp included, with the line items of the first run appended
    once more. *)
Theorem parse_two_runs now1 now2 pages :
  parse now1 pages = outcome (parse_on pages (__init__ now1)) /\
  parse_on pages (__init__ now2) =
    stamp now2 (parse_on pages (__init__ now1)) /\
  (let first := parse_on pages (__init__ now1) in
   parse_on pages (fst first) =
   (add_items (line_items (fst first)) (fst first), snd first)).
Proof.
  split; [apply parse_outcome_on|].
  destruct (parse_on_fixed pages) as (a & b & c & i & s & oe & H).
  split.
  - change (__init__ now2) with (with_parsed_at now2 (__init__ now1)).
    now rewrite !H, update_stamp.
  - cbv zeta. rewrite !H. cbn [fst snd]. now rewrite update_twice.
Qed.

(** C9 (as stated) fails for a second run on the same parser: on the
    document with the storage line and the example row the first run
    leaves two line items and the second run four, the same two again. *)
Lemma rerun_repeats_items :
  let pages := one_page storage_line [[example_row]] in
  let first := parse_on pages (__init__ []) in
  let second := parse_on pages (fst first) in
  snd first = None /\ snd second = None /\
  line_items (fst first) = [row_item example_row 1; item_of storage_line] /\
  line_items (fst second) =
    [row_item example_row 1; item_of storage_line;
     row_item example_row 1; item_of storage_line] /\
  line_items (fst second) <> line_items (fst first).
Proof.
  cbv zeta. repeat split; try (vm_compute; reflexivity).
  vm_compute. discriminate.
Qed.

End OnData.
